(** * nobreak: the circuit breaker and its command executor

    A shallow embedding of [circuit.js] (the circuit state machine and the
    two process-wide dictionaries), [states.js], the per-key configuration
    [config.js] and [command.js] (the executor).

    How JavaScript values are read:
    - the counters [totalCalls] and [errorCalls], the request volume
      threshold, the sleep window and the clock ([Date.now()]) are integer
      valued numbers that the program only increments, adds and compares;
      they are [Z] (a double holds these exactly up to 2^53);
    - [errorCalls / totalCalls * 100] is a quotient of doubles: it is
      computed in IEEE 754 binary64 with [SpecFloat], and so is the error
      threshold it is compared with;
    - a field or an argument that is [undefined] or [null] is [None];
    - the clock stays within the range of [Date], on which
      [new Date(val) < new Date()] compares the two numbers;
    - what a promise rejects with, and what [errorHandler] returns, is any
      value, [undefined] included: [Error] has it, and [isTruthy] is the test
      of [err && ...] and [err || ...];
    - [Boom.gatewayTimeout(null, err)] makes a 504 of its argument in place
      and returns it: from then on [err] and [exception] name the same,
      changed, object;
    - the [errorHandler] and [errorFilter] of a [Command.t] are functions
      that return; [Throwing] has the [catch] callback and [execute] for
      callbacks that may throw;
    - every method of [Circuit] mutates [this], an object shared through
      [CircuitInstancesDictionary]: the dictionary is the heap, and a
      mutation is a write at the key under which the object is stored;
    - the promise chain of [execute] suspends once, between calling the
      action and the [then]/[catch] callback: [execute_begin] is the part
      before, [execute_settle] the callback, [execute] the two in a row. *)

From Stdlib Require Import ZArith List Bool Lia SpecFloat.
From stdpp Require Import gmap strings.
Import ListNotations.
Open Scope Z_scope.

(** ** JavaScript numbers *)

Module JS.

(** A binary64 double. *)
Definition number := spec_float.

Definition prec : Z := 53.
Definition emax : Z := 1024.

Definition of_Z (z : Z) : number := binary_normalize prec emax z 0 false.

Definition div (a b : number) : number := SFdiv prec emax a b.
Definition mul (a b : number) : number := SFmul prec emax a b.

(** [a >= b]; false as soon as one side is NaN. *)
Definition ge (a b : number) : bool := SFleb b a.

(** ToBoolean on a number: 0, -0 and NaN are falsy. *)
Definition truthy (a : number) : bool :=
  match a with
  | S754_zero _ | S754_nan => false
  | _ => true
  end.

Definition truthyZ (z : Z) : bool := negb (z =? 0).

(** [a || b] where [a] may be [undefined]. *)
Definition or_number (a : option number) (b : number) : number :=
  match a with
  | Some v => if truthy v then v else b
  | None => b
  end.

Definition or_Z (a : option Z) (b : Z) : Z :=
  match a with
  | Some v => if truthyZ v then v else b
  | None => b
  end.

(** [a ?? b], for comparison with [||]. *)
Definition nullish {A} (a : option A) (b : A) : A :=
  match a with
  | Some v => v
  | None => b
  end.

End JS.

(** ** states.js *)

Module CircuitStates.

Inductive t := OPEN | HALF_OPEN | CLOSED.

Definition eqb (a b : t) : bool :=
  match a, b with
  | OPEN, OPEN | HALF_OPEN, HALF_OPEN | CLOSED, CLOSED => true
  | _, _ => false
  end.

End CircuitStates.

Import CircuitStates.

(** ** config.js: the per-key values read from the environment

    Each function is [Joi.attempt] on the environment variable
    [app_circuit_<key>_<setting>]; the record holds what these calls return
    (a number, or [undefined] when the variable is not set; a boolean with
    default [false] for [force_open]). *)

Module IndividualConfig.

Record t := mk {
  forceOpen : string -> bool;
  errorPercentageThreshold : string -> option JS.number;
  requestVolumeThreshold : string -> option Z;
  sleepWindowInMilliseconds : string -> option Z;
  timeout : string -> option Z
}.

(** An environment with no [app_circuit_*] variable. *)
Definition unset : t :=
  mk (fun _ => false) (fun _ => None) (fun _ => None) (fun _ => None)
     (fun _ => None).

End IndividualConfig.

(** ** circuit.js *)

Module Circuit.

Record t := mk {
  commandkey : string;
  state : CircuitStates.t;
  totalCalls : Z;
  errorCalls : Z;
  requestVolumeThreshold : Z;
  errorThreshold : JS.number;
  sleepWindowInMilliseconds : Z;
  ongoingSleepWindow : option Z;
  forceOpen : bool
}.

(** The object literal [opts] that [finishWorkflow] stores. *)
Record stats := mk_stats {
  s_totalCalls : Z;
  s_errorCalls : Z;
  s_ongoingSleepWindow : option Z;
  s_state : CircuitStates.t
}.

(** [function Circuit (commandKey, requestVolumeThreshold,
    errorPercentageThreshold, sleepWindowInMilliseconds)] *)
Definition new (cfg : IndividualConfig.t) (commandKey : string)
    (requestVolumeThreshold : Z) (errorPercentageThreshold : JS.number)
    (sleepWindowInMilliseconds : Z) : t :=
  {| commandkey := commandKey;
     state := CLOSED;
     totalCalls := 0;
     errorCalls := 0;
     requestVolumeThreshold :=
       JS.or_Z (IndividualConfig.requestVolumeThreshold cfg commandKey)
               requestVolumeThreshold;
     errorThreshold :=
       JS.or_number (IndividualConfig.errorPercentageThreshold cfg commandKey)
                    errorPercentageThreshold;
     sleepWindowInMilliseconds :=
       JS.or_Z (IndividualConfig.sleepWindowInMilliseconds cfg commandKey)
               sleepWindowInMilliseconds;
     ongoingSleepWindow := None;
     forceOpen := IndividualConfig.forceOpen cfg commandKey || false |}.

(** [!!(val && new Date(val) < new Date())] with [now] the reading of the
    clock by [new Date()]. *)
Definition isSleepWindowOver (circuit : t) (now : Z) : bool :=
  match ongoingSleepWindow circuit with
  | Some val => JS.truthyZ val && (val <? now)
  | None => false
  end.

(** [reloadStats], given the entry of [CircuitDataDictionary] for
    [this.commandkey]. *)
Definition reloadStats (this : t) (entry : option stats) (now : Z) : t :=
  match entry with
  | None => this
  | Some st =>
      let this1 :=
        mk (commandkey this) (state this) (s_totalCalls st) (s_errorCalls st)
           (requestVolumeThreshold this) (errorThreshold this)
           (sleepWindowInMilliseconds this) (ongoingSleepWindow this)
           (forceOpen this) in
      if isSleepWindowOver this1 now then
        mk (commandkey this1) HALF_OPEN (totalCalls this1) (errorCalls this1)
           (requestVolumeThreshold this1) (errorThreshold this1)
           (sleepWindowInMilliseconds this1) None (forceOpen this1)
      else
        mk (commandkey this1) (s_state st) (totalCalls this1)
           (errorCalls this1) (requestVolumeThreshold this1)
           (errorThreshold this1) (sleepWindowInMilliseconds this1)
           (s_ongoingSleepWindow st) (forceOpen this1)
  end.

Definition allowExecution (this : t) : bool :=
  negb (forceOpen this)
  && (CircuitStates.eqb (state this) CLOSED
      || CircuitStates.eqb (state this) HALF_OPEN).

Definition isHalfOpen (this : t) : bool :=
  CircuitStates.eqb (state this) HALF_OPEN.

Definition registerCall (this : t) : t :=
  mk (commandkey this) (state this) (totalCalls this + 1) (errorCalls this)
     (requestVolumeThreshold this) (errorThreshold this)
     (sleepWindowInMilliseconds this) (ongoingSleepWindow this)
     (forceOpen this).

Definition markSuccess (this : t) : t :=
  mk (commandkey this) CLOSED 0 0
     (requestVolumeThreshold this) (errorThreshold this)
     (sleepWindowInMilliseconds this) (ongoingSleepWindow this)
     (forceOpen this).

Definition snapshot (this : t) : stats :=
  {| s_totalCalls := totalCalls this;
     s_errorCalls := errorCalls this;
     s_ongoingSleepWindow := ongoingSleepWindow this;
     s_state := state this |}.

(** [finishWorkflow]: one [CircuitDataDictionary.set]. *)
Definition finishWorkflow (this : t) (data : gmap string stats)
    : gmap string stats :=
  <[commandkey this := snapshot this]> data.

(** [errorCalls / totalCalls * 100], in binary64. *)
Definition errorPercentage (errors total : Z) : JS.number :=
  JS.mul (JS.div (JS.of_Z errors) (JS.of_Z total)) (JS.of_Z 100).

(** The test of [registerErrorAndCalculateMetrics], on the counters after
    the increment of [errorCalls]. *)
Definition tripped (this : t) : bool :=
  (requestVolumeThreshold this <=? totalCalls this)
  && JS.ge (errorPercentage (errorCalls this) (totalCalls this))
           (errorThreshold this).

(** The part of [registerErrorAndCalculateMetrics] before
    [this.finishWorkflow()]; [now] is [Date.now()]. *)
Definition registerError (this : t) (now : Z) : t :=
  let this1 :=
    mk (commandkey this) (state this) (totalCalls this) (errorCalls this + 1)
       (requestVolumeThreshold this) (errorThreshold this)
       (sleepWindowInMilliseconds this) (ongoingSleepWindow this)
       (forceOpen this) in
  if tripped this1 then
    mk (commandkey this1) OPEN (totalCalls this1) (errorCalls this1)
       (requestVolumeThreshold this1) (errorThreshold this1)
       (sleepWindowInMilliseconds this1)
       (Some (now + sleepWindowInMilliseconds this1)) (forceOpen this1)
  else this1.

(** The function declares no parameter; [arguments] is what a caller passes
    all the same (the executor passes the command key, the error threshold
    and the sleep window of the command), and the body does not read it. *)
Definition registerErrorAndCalculateMetrics (this : t)
    (arguments : string * JS.number * Z) (now : Z)
    (data : gmap string stats) : t * gmap string stats :=
  let this' := registerError this now in
  (this', finishWorkflow this' data).

End Circuit.

(** The two module-level [Map]s of circuit.js. *)
Record Registry := mkRegistry {
  CircuitDataDictionary : gmap string Circuit.stats;
  CircuitInstancesDictionary : gmap string Circuit.t
}.

Definition empty_registry : Registry := mkRegistry ∅ ∅.

(** A mutation of the instance stored under [key]. *)
Definition store (key : string) (c : Circuit.t) (r : Registry) : Registry :=
  mkRegistry (CircuitDataDictionary r)
             (<[key := c]> (CircuitInstancesDictionary r)).

Definition commit (c : Circuit.t) (r : Registry) : Registry :=
  mkRegistry (Circuit.finishWorkflow c (CircuitDataDictionary r))
             (CircuitInstancesDictionary r).

(** [module.exports.getInstance] *)
Definition getInstance (cfg : IndividualConfig.t) (commandKey : string)
    (requestVolumeThreshold : Z) (errorPercentageThreshold : JS.number)
    (sleepWindowInMilliseconds : Z) (now : Z) (r : Registry)
    : Circuit.t * Registry :=
  match CircuitInstancesDictionary r !! commandKey with
  | Some instance =>
      let instance' :=
        Circuit.reloadStats instance
          (CircuitDataDictionary r !! Circuit.commandkey instance) now in
      (instance', store commandKey instance' r)
  | None =>
      let circuit :=
        Circuit.new cfg commandKey requestVolumeThreshold
          errorPercentageThreshold sleepWindowInMilliseconds in
      (circuit, store commandKey circuit r)
  end.

(** ** exceptions.js, and the errors that reach the executor *)

Inductive Value :=
| VUndefined
| VString (s : string).

(** What is thrown, what a promise rejects with, what a handler returns. *)
Inductive Error :=
| UserError (message : string)          (* an Error of the caller's code *)
| TimeoutError                          (* bluebird's Promise.TimeoutError *)
| GatewayTimeout (data : Error)         (* [data] once Boom.gatewayTimeout(null, data)
                                           has made a 504 of it *)
| CircuitOpenException (commandKey : string)
| TypeError                             (* reading a property of [undefined] *)
| Undefined.                            (* [undefined]: what [Promise.reject()]
                                           rejects with, what a handler that
                                           returns nothing gives *)

Definition isTimeoutError (e : Error) : bool :=
  match e with
  | TimeoutError => true
  | _ => false
  end.

(** ToBoolean: every object is truthy, [undefined] is not. *)
Definition isTruthy (e : Error) : bool :=
  match e with
  | Undefined => false
  | _ => true
  end.

(** A call of a function of the caller returns or throws. *)
Inductive Completion (A : Type) :=
| Returns (a : A)
| Throws (thrown : Error).

Arguments Returns {A} a.
Arguments Throws {A} thrown.

(** How a promise settles. *)
Inductive Outcome :=
| Resolved (v : Value)
| Rejected (e : Error).

(** What the executor does to its collaborators, in order. *)
Inductive Event :=
| ActionCalled (key : string) (params : list Value)
| ErrorHandlerCalled (key : string) (err : Error)
| ErrorFilterCalled (key : string) (exception : Error) (params : list Value)
| FallbackCalled (key : string) (err : option Error) (params : list Value)
| LoggerWarn (err : Error) (tags : list string) (traceId : option string)
| DataDictionarySet (key : string) (opts : Circuit.stats).

Definition isActionCalled (key : string) (e : Event) : bool :=
  match e with
  | ActionCalled k _ => String.eqb k key
  | _ => false
  end.

Definition isFallbackCalled (key : string) (e : Event) : bool :=
  match e with
  | FallbackCalled k _ _ => String.eqb k key
  | _ => false
  end.

Definition count (p : Event -> bool) (l : list Event) : nat :=
  length (List.filter p l).

(** ** command.js *)

(** What the constructor reads of [Config.circuitBreaker]. *)
Record CircuitBreakerDefaults := mkDefaults {
  default_timeout : Z;
  default_requestVolumeThreshold : Z;
  default_errorThresholdPercentage : JS.number;
  default_sleepWindowInMilliseconds : Z
}.

Definition TAG : string := "circuit-breaker".

Module Command.

(** [this.opts]. The action is a callable of the caller: the model takes
    how its promise settles (under the deadline) as an input of
    [execute_settle]. [opts.circuit] is a reference to the instance stored
    under [key]. *)
Record t := mk {
  key : string;
  traceId : option string;
  timeout : Z;
  requestVolumeThreshold : Z;
  errorThreshold : JS.number;
  sleepWindowInMillis : Z;
  fallback : option (option Error -> list Value -> Outcome);
  errorFilter : option (Error -> list Value -> bool);
  errorHandler : option (Error -> Error);
  isLogEnable : bool
}.

(** [function Command (key)]. [circuitBreaker] is the value of
    [Config.circuitBreaker], [None] when the module has no such export: the
    constructor then stops at the first property it reads of it, line 34
    when the key has no timeout override (or one of 0) and line 35 when it
    has one. *)
Definition new (cfg : IndividualConfig.t)
    (circuitBreaker : option CircuitBreakerDefaults) (key : string)
    : Completion t :=
  if String.eqb key "" then Throws (UserError "command key is required!")
  else
    match circuitBreaker with
    | None => Throws TypeError
    | Some defaults =>
        Returns {|
          key := key;
          traceId := None;
          timeout := JS.or_Z (IndividualConfig.timeout cfg key)
                             (default_timeout defaults);
          requestVolumeThreshold := default_requestVolumeThreshold defaults;
          errorThreshold := default_errorThresholdPercentage defaults;
          sleepWindowInMillis := default_sleepWindowInMilliseconds defaults;
          fallback := None;
          errorFilter := None;
          errorHandler := None;
          isLogEnable := false |}
    end.

(** The setters. [timeout], [requestVolumeThreshold] and [errorHandler]
    are also fields of [opts]: their setters are [set_timeout],
    [set_requestVolumeThreshold] and [set_errorHandler]. *)
Definition withTraceId (traceId' : string) (this : t) : t :=
  mk (key this) (Some traceId') (timeout this) (requestVolumeThreshold this)
     (errorThreshold this) (sleepWindowInMillis this) (fallback this)
     (errorFilter this) (errorHandler this) (isLogEnable this).

Definition set_timeout (cfg : IndividualConfig.t) (timeout' : Z) (this : t)
    : t :=
  mk (key this) (traceId this)
     (JS.or_Z (IndividualConfig.timeout cfg (key this)) timeout')
     (requestVolumeThreshold this) (errorThreshold this)
     (sleepWindowInMillis this) (fallback this) (errorFilter this)
     (errorHandler this) (isLogEnable this).

Definition errorThresholdPercentage (threshold : JS.number) (this : t) : t :=
  mk (key this) (traceId this) (timeout this) (requestVolumeThreshold this)
     threshold (sleepWindowInMillis this) (fallback this)
     (errorFilter this) (errorHandler this) (isLogEnable this).

Definition sleepWindowInMilliseconds (sleepWindow : Z) (this : t) : t :=
  mk (key this) (traceId this) (timeout this) (requestVolumeThreshold this)
     (errorThreshold this) sleepWindow (fallback this)
     (errorFilter this) (errorHandler this) (isLogEnable this).

Definition set_requestVolumeThreshold (requestVolume : Z) (this : t) : t :=
  mk (key this) (traceId this) (timeout this) requestVolume
     (errorThreshold this) (sleepWindowInMillis this) (fallback this)
     (errorFilter this) (errorHandler this) (isLogEnable this).

Definition fallbackTo (f : option Error -> list Value -> Outcome) (this : t)
    : t :=
  mk (key this) (traceId this) (timeout this) (requestVolumeThreshold this)
     (errorThreshold this) (sleepWindowInMillis this) (Some f)
     (errorFilter this) (errorHandler this) (isLogEnable this).

Definition filterWhen (handler : Error -> list Value -> bool) (this : t) : t :=
  mk (key this) (traceId this) (timeout this) (requestVolumeThreshold this)
     (errorThreshold this) (sleepWindowInMillis this) (fallback this)
     (Some handler) (errorHandler this) (isLogEnable this).

Definition set_errorHandler (handler : Error -> Error) (this : t) : t :=
  mk (key this) (traceId this) (timeout this) (requestVolumeThreshold this)
     (errorThreshold this) (sleepWindowInMillis this) (fallback this)
     (errorFilter this) (Some handler) (isLogEnable this).

Definition enableLog (this : t) : t :=
  mk (key this) (traceId this) (timeout this) (requestVolumeThreshold this)
     (errorThreshold this) (sleepWindowInMillis this) (fallback this)
     (errorFilter this) (errorHandler this) true.

End Command.

(** [function resumeWithFallback (err, command, ...params)] *)
Definition resumeWithFallback (err : option Error) (command : Command.t)
    (params : list Value) : Outcome * list Event :=
  let log :=
    match err with
    | Some e =>
        if Command.isLogEnable command && isTruthy e
        then [LoggerWarn e [TAG; Command.key command] (Command.traceId command)]
        else []
    | None => []
    end in
  match Command.fallback command with
  | Some f =>
      (f err params,
       log ++ [FallbackCalled (Command.key command) err params])
  | None =>
      (Rejected (match err with
                 | Some e =>
                     if isTruthy e then e
                     else CircuitOpenException (Command.key command)
                 | None => CircuitOpenException (Command.key command)
                 end),
       log)
  end.

(** The local [exception] of the [catch] callback once the two [if]s that
    rewrite it have run, with the calls made on the way. On a timeout
    [Boom.gatewayTimeout(null, exception)] changes the object that [err]
    names too: the [err] of line 185 is the 504. *)
Definition classify (command : Command.t) (err : Error) : Error * list Event :=
  let err := if isTimeoutError err then GatewayTimeout err else err in
  let exception := err in
  match Command.errorHandler command with
  | Some handler => (handler err, [ErrorHandlerCalled (Command.key command) err])
  | None => (exception, [])
  end.

(** The [then] callback. *)
Definition onFulfilled (result : Value) (circuit : Circuit.t)
    (data : gmap string Circuit.stats)
    : Circuit.t * gmap string Circuit.stats * Outcome * list Event :=
  let circuit1 :=
    if Circuit.isHalfOpen circuit then Circuit.markSuccess circuit
    else circuit in
  (circuit1, Circuit.finishWorkflow circuit1 data, Resolved result,
   [DataDictionarySet (Circuit.commandkey circuit1) (Circuit.snapshot circuit1)]).

(** The [catch] callback; [now] is the clock when it runs. *)
Definition onRejected (command : Command.t) (params : list Value)
    (err : Error) (now : Z) (circuit : Circuit.t)
    (data : gmap string Circuit.stats)
    : Circuit.t * gmap string Circuit.stats * Outcome * list Event :=
  let '(exception, ev1) := classify command err in
  let filtered :=
    match Command.errorFilter command with
    | Some f => Some (f exception params)
    | None => None
    end in
  let ev2 :=
    match filtered with
    | Some _ => [ErrorFilterCalled (Command.key command) exception params]
    | None => []
    end in
  if default false filtered then
    (circuit, Circuit.finishWorkflow circuit data, Rejected exception,
     ev1 ++ ev2
     ++ [DataDictionarySet (Circuit.commandkey circuit) (Circuit.snapshot circuit)])
  else
    let '(circuit1, data1) :=
      Circuit.registerErrorAndCalculateMetrics circuit
        (Command.key command, Command.errorThreshold command,
         Command.sleepWindowInMillis command)
        now data in
    let '(out, ev3) := resumeWithFallback (Some exception) command params in
    (circuit1, data1, out,
     ev1 ++ ev2
     ++ [DataDictionarySet (Circuit.commandkey circuit1) (Circuit.snapshot circuit1)]
     ++ ev3).

(** What the promise returned by [action(...).timeout(...)] settles to, fed
    to the callback that handles it. *)
Definition settle (command : Command.t) (params : list Value)
    (settled : Outcome) (now : Z) (circuit : Circuit.t)
    (data : gmap string Circuit.stats)
    : Circuit.t * gmap string Circuit.stats * Outcome * list Event :=
  match settled with
  | Resolved result => onFulfilled result circuit data
  | Rejected err => onRejected command params err now circuit data
  end.

(** Where [execute] stands when it returns to the event loop. *)
Inductive Started :=
| Pending                 (* the action was called, its promise is awaited *)
| Done (out : Outcome).   (* the gate rejected the call *)

(** [Command.prototype.execute] up to the call of the action. *)
Definition execute_begin (cfg : IndividualConfig.t) (command : Command.t)
    (params : list Value) (now : Z) (r : Registry)
    : Registry * Started * list Event :=
  let commandKey := Command.key command in
  let '(circuit, r1) :=
    getInstance cfg commandKey (Command.requestVolumeThreshold command)
      (Command.errorThreshold command) (Command.sleepWindowInMillis command)
      now r in
  let circuit1 := Circuit.registerCall circuit in
  let r2 := store commandKey circuit1 r1 in
  if Circuit.allowExecution circuit1 then
    (r2, Pending, [ActionCalled commandKey params])
  else
    let '(out, ev) := resumeWithFallback None command params in
    (commit circuit1 r2, Done out,
     DataDictionarySet (Circuit.commandkey circuit1) (Circuit.snapshot circuit1)
     :: ev).

(** The callback of a pending [execute], run on the instance
    [opts.circuit] points to, as it is by then. [None]: no instance under
    the key (no [execute] is pending on it). *)
Definition execute_settle (command : Command.t) (params : list Value)
    (settled : Outcome) (now : Z) (r : Registry)
    : option (Registry * Outcome * list Event) :=
  match CircuitInstancesDictionary r !! Command.key command with
  | Some circuit =>
      let '(circuit1, data1, out, ev) :=
        settle command params settled now circuit (CircuitDataDictionary r) in
      Some (mkRegistry data1
              (<[Command.key command := circuit1]> (CircuitInstancesDictionary r)),
            out, ev)
  | None => None
  end.

(** [execute] with nothing else running between the call of the action and
    its callback: the clock reads [now] at the call and [now'] in the
    callback, and the action's promise settles to [settled]. *)
Definition execute (cfg : IndividualConfig.t) (command : Command.t)
    (params : list Value) (now : Z) (settled : Outcome) (now' : Z)
    (r : Registry) : Registry * Outcome * list Event :=
  let commandKey := Command.key command in
  let '(circuit, r1) :=
    getInstance cfg commandKey (Command.requestVolumeThreshold command)
      (Command.errorThreshold command) (Command.sleepWindowInMillis command)
      now r in
  let circuit1 := Circuit.registerCall circuit in
  let r2 := store commandKey circuit1 r1 in
  if Circuit.allowExecution circuit1 then
    let '(circuit2, data2, out, ev) :=
      settle command params settled now' circuit1 (CircuitDataDictionary r2) in
    (mkRegistry data2 (<[commandKey := circuit2]> (CircuitInstancesDictionary r2)),
     out, ActionCalled commandKey params :: ev)
  else
    let '(out, ev) := resumeWithFallback None command params in
    (commit circuit1 r2, out,
     DataDictionarySet (Circuit.commandkey circuit1) (Circuit.snapshot circuit1)
     :: ev).

(** The instance [execute] works on once [getInstance] and [registerCall]
    have run: the circuit the gate looks at. *)
Definition admitted_circuit (cfg : IndividualConfig.t) (command : Command.t)
    (now : Z) (r : Registry) : Circuit.t :=
  Circuit.registerCall
    (fst (getInstance cfg (Command.key command)
            (Command.requestVolumeThreshold command)
            (Command.errorThreshold command)
            (Command.sleepWindowInMillis command) now r)).

(** ** Callbacks that throw

    The [catch] callback and [execute] once more, for an [errorHandler] and
    an [errorFilter] that may throw. [handler] and [filter] stand for
    [opts.errorHandler] and [opts.errorFilter]; [command] gives the rest of
    [opts]. A throw leaves the callback where it occurs, and the promise of
    [execute] is rejected with what was thrown. *)

Module Throwing.

Definition returning {A B} (f : A -> B) : A -> Completion B :=
  fun a => Returns (f a).

Definition returning2 {A B C} (f : A -> B -> C) : A -> B -> Completion C :=
  fun a b => Returns (f a b).

(** [this.opts.errorHandler(err)] when there is a handler, [exception] as it
    stands when there is none. *)
Definition handle (handler : option (Error -> Completion Error)) (err : Error)
    : Completion Error :=
  match handler with
  | Some h => h err
  | None => Returns err
  end.

(** [this.opts.errorFilter && this.opts.errorFilter(exception, ...params)] *)
Definition sift (filter : option (Error -> list Value -> Completion bool))
    (exception : Error) (params : list Value) : Completion bool :=
  match filter with
  | Some f => f exception params
  | None => Returns false
  end.

Definition onRejected (handler : option (Error -> Completion Error))
    (filter : option (Error -> list Value -> Completion bool))
    (command : Command.t) (params : list Value) (err : Error) (now : Z)
    (circuit : Circuit.t) (data : gmap string Circuit.stats)
    : Circuit.t * gmap string Circuit.stats * Outcome * list Event :=
  let err := if isTimeoutError err then GatewayTimeout err else err in
  let ev1 :=
    match handler with
    | Some _ => [ErrorHandlerCalled (Command.key command) err]
    | None => []
    end in
  match handle handler err with
  | Throws thrown => (circuit, data, Rejected thrown, ev1)
  | Returns exception =>
      let ev2 :=
        match filter with
        | Some _ => [ErrorFilterCalled (Command.key command) exception params]
        | None => []
        end in
      match sift filter exception params with
      | Throws thrown => (circuit, data, Rejected thrown, ev1 ++ ev2)
      | Returns true =>
          (circuit, Circuit.finishWorkflow circuit data, Rejected exception,
           ev1 ++ ev2
           ++ [DataDictionarySet (Circuit.commandkey circuit)
                                 (Circuit.snapshot circuit)])
      | Returns false =>
          let '(circuit1, data1) :=
            Circuit.registerErrorAndCalculateMetrics circuit
              (Command.key command, Command.errorThreshold command,
               Command.sleepWindowInMillis command)
              now data in
          let '(out, ev3) :=
            resumeWithFallback (Some exception) command params in
          (circuit1, data1, out,
           ev1 ++ ev2
           ++ [DataDictionarySet (Circuit.commandkey circuit1)
                                 (Circuit.snapshot circuit1)]
           ++ ev3)
      end
  end.

Definition settle (handler : option (Error -> Completion Error))
    (filter : option (Error -> list Value -> Completion bool))
    (command : Command.t) (params : list Value) (settled : Outcome) (now : Z)
    (circuit : Circuit.t) (data : gmap string Circuit.stats)
    : Circuit.t * gmap string Circuit.stats * Outcome * list Event :=
  match settled with
  | Resolved result => onFulfilled result circuit data
  | Rejected err => onRejected handler filter command params err now circuit data
  end.

Definition execute (handler : option (Error -> Completion Error))
    (filter : option (Error -> list Value -> Completion bool))
    (cfg : IndividualConfig.t) (command : Command.t)
    (params : list Value) (now : Z) (settled : Outcome) (now' : Z)
    (r : Registry) : Registry * Outcome * list Event :=
  let commandKey := Command.key command in
  let '(circuit, r1) :=
    getInstance cfg commandKey (Command.requestVolumeThreshold command)
      (Command.errorThreshold command) (Command.sleepWindowInMillis command)
      now r in
  let circuit1 := Circuit.registerCall circuit in
  let r2 := store commandKey circuit1 r1 in
  if Circuit.allowExecution circuit1 then
    let '(circuit2, data2, out, ev) :=
      settle handler filter command params settled now' circuit1
             (CircuitDataDictionary r2) in
    (mkRegistry data2 (<[commandKey := circuit2]> (CircuitInstancesDictionary r2)),
     out, ActionCalled commandKey params :: ev)
  else
    let '(out, ev) := resumeWithFallback None command params in
    (commit circuit1 r2, out,
     DataDictionarySet (Circuit.commandkey circuit1) (Circuit.snapshot circuit1)
     :: ev).

End Throwing.

(** ** Runs *)

(** One [execute] of a sequential run. *)
Record Invocation := mkInvocation {
  i_cfg : IndividualConfig.t;
  i_command : Command.t;
  i_params : list Value;
  i_now : Z;
  i_settled : Outcome;
  i_now' : Z
}.

Definition invoke (i : Invocation) (r : Registry)
    : Registry * Outcome * list Event :=
  execute (i_cfg i) (i_command i) (i_params i) (i_now i) (i_settled i)
          (i_now' i) r.

(** [await]ed [execute]s, one after the other: the registry at the end, and
    for each call its outcome and what it did. *)
Fixpoint executeAll (l : list Invocation) (r : Registry)
    : Registry * list (Outcome * list Event) :=
  match l with
  | [] => (r, [])
  | i :: l' =>
      let '(r1, out, ev) := invoke i r in
      let '(r2, rest) := executeAll l' r1 in
      (r2, (out, ev) :: rest)
  end.

Definition events (calls : list (Outcome * list Event)) : list Event :=
  concat (map snd calls).

(** The registries a process can be in between two [execute]s when it
    never starts one before the previous one has settled. *)
Inductive sequential : Registry -> Prop :=
| sequential_empty : sequential empty_registry
| sequential_execute i r :
    sequential r -> sequential (fst (fst (invoke i r))).

(** Overlapping [execute]s: the event loop either starts a call or runs the
    callback of one that is pending. *)
Record System := mkSystem {
  registry : Registry;
  pending : list (Command.t * list Value)
}.

Inductive Step :=
| Call (cfg : IndividualConfig.t) (command : Command.t) (params : list Value)
       (now : Z)
| Settle (n : nat) (settled : Outcome) (now : Z).

Definition step (s : Step) (sys : System) : System * list Event :=
  match s with
  | Call cfg command params now =>
      let '(r, started, ev) :=
        execute_begin cfg command params now (registry sys) in
      match started with
      | Pending => (mkSystem r (pending sys ++ [(command, params)]), ev)
      | Done _ => (mkSystem r (pending sys), ev)
      end
  | Settle n settled now =>
      match pending sys !! n with
      | Some (command, params) =>
          match execute_settle command params settled now (registry sys) with
          | Some (r, _, ev) => (mkSystem r (delete n (pending sys)), ev)
          | None => (sys, [])
          end
      | None => (sys, [])
      end
  end.

Fixpoint run (steps : list Step) (sys : System) : System * list Event :=
  match steps with
  | [] => (sys, [])
  | s :: steps' =>
      let '(sys1, ev) := step s sys in
      let '(sys2, evs) := run steps' sys1 in
      (sys2, ev ++ evs)
  end.

Definition initial : System := mkSystem empty_registry [].

(** Every instance sits under its own [commandkey]. *)
Definition well_keyed (r : Registry) : Prop :=
  forall k c, CircuitInstancesDictionary r !! k = Some c ->
              Circuit.commandkey c = k.

(** Does the [catch] callback take the [errorFilter] branch on [err]? *)
Definition filtered (command : Command.t) (params : list Value) (err : Error)
    : bool :=
  match Command.errorFilter command with
  | Some f => f (fst (classify command err)) params
  | None => false
  end.

(** [errorCalls <= totalCalls], on an instance and on a stored entry. *)
Definition counters_ok (c : Circuit.t) : Prop :=
  Circuit.errorCalls c <= Circuit.totalCalls c.

Definition stats_ok (s : Circuit.stats) : Prop :=
  Circuit.s_errorCalls s <= Circuit.s_totalCalls s.

(** Every instance has its last committed entry in the data dictionary. *)
Definition in_sync (r : Registry) : Prop :=
  forall k c, CircuitInstancesDictionary r !! k = Some c ->
    Circuit.commandkey c = k
    /\ CircuitDataDictionary r !! k = Some (Circuit.snapshot c).

(** No callback of an [execute] on [key] is still to run. *)
Definition settled_on (sys : System) (key : string) : Prop :=
  Forall (fun p => Command.key (fst p) <> key) (pending sys).

(** Every instance sits under its key, and agrees with its entry as soon
    as no callback on its key is still to run. *)
Definition system_in_sync (sys : System) : Prop :=
  forall k c, CircuitInstancesDictionary (registry sys) !! k = Some c ->
    Circuit.commandkey c = k
    /\ (settled_on sys k ->
        CircuitDataDictionary (registry sys) !! k = Some (Circuit.snapshot c)).

(** The three components of what [execute] returns. *)
Definition registry_of (x : Registry * Outcome * list Event) : Registry :=
  fst (fst x).
Definition outcome_of (x : Registry * Outcome * list Event) : Outcome :=
  snd (fst x).
Definition events_of (x : Registry * Outcome * list Event) : list Event :=
  snd x.

Definition isFallbackEvent (e : Event) : bool :=
  match e with
  | FallbackCalled _ _ _ => true
  | _ => false
  end.

Definition isSetEvent (e : Event) : bool :=
  match e with
  | DataDictionarySet _ _ => true
  | _ => false
  end.

(** Two instances with the same construction-time fields. *)
Definition same_settings (c c' : Circuit.t) : Prop :=
  Circuit.commandkey c' = Circuit.commandkey c
  /\ Circuit.requestVolumeThreshold c' = Circuit.requestVolumeThreshold c
  /\ Circuit.errorThreshold c' = Circuit.errorThreshold c
  /\ Circuit.sleepWindowInMilliseconds c' = Circuit.sleepWindowInMilliseconds c
  /\ Circuit.forceOpen c' = Circuit.forceOpen c.

Definition registry_ok (r : Registry) : Prop :=
  (forall k c, CircuitInstancesDictionary r !! k = Some c -> counters_ok c)
  /\ (forall k s, CircuitDataDictionary r !! k = Some s -> stats_ok s).

(** ** Sample data *)

Module Sample.

Definition fallback : option Error -> list Value -> Outcome :=
  fun _ _ => Resolved (VString "FALLBACK").

(** [Factory(key).requestVolumeThreshold(rvt).errorThresholdPercentage(thr)
    .sleepWindowInMilliseconds(sw).fallbackTo(fallback)] *)
Definition command (key : string) (rvt thr sw : Z) : Command.t :=
  Command.mk key None 1000 rvt (JS.of_Z thr) sw (Some fallback) None None
             false.

(** [app_circuit_<key>_force_open=true] for every key. *)
Definition forced : IndividualConfig.t :=
  IndividualConfig.mk (fun _ => true) (fun _ => None) (fun _ => None)
    (fun _ => None) (fun _ => None).

(** [app_circuit_<key>_timeout=250] for every key. *)
Definition timed : IndividualConfig.t :=
  IndividualConfig.mk (fun _ => false) (fun _ => None) (fun _ => None)
    (fun _ => None) (fun _ => Some 250).

(** A first call on ["k"] while the environment forces the circuit open. *)
Definition forced_registry : Registry :=
  registry_of (execute forced (command "k" 80 50 1000) [] 1
                       (Resolved VUndefined) 2 empty_registry).

(** [app_circuit_<key>_request_volume_threshold=0],
    [app_circuit_<key>_error_percentage_threshold=0] and
    [app_circuit_<key>_sleep_window_milliseconds=0] for every key. *)
Definition zeroes : IndividualConfig.t :=
  IndividualConfig.mk (fun _ => false) (fun _ => Some (JS.of_Z 0))
    (fun _ => Some 0) (fun _ => Some 0) (fun _ => None).

(** A command with the log enabled, whose [errorHandler] answers
    [new Error('New Error')] whatever it is given and whose [errorFilter]
    lets everything through to the breaker. *)
Definition substituting : Command.t :=
  Command.mk "k" None 1000 80 (JS.of_Z 50) 1000 (Some fallback)
             (Some (fun _ _ => false)) (Some (fun _ => UserError "New Error"))
             true.

(** The same handler, with an [errorFilter] that takes every error. *)
Definition sieving : Command.t :=
  Command.mk "k" None 1000 80 (JS.of_Z 50) 1000 (Some fallback)
             (Some (fun _ _ => true)) (Some (fun _ => UserError "New Error"))
             false.

(** Two overlapping calls on ["k"] (threshold 1 call, 50 percent, sleep
    window 10 ms): a first call fails at time 2 and opens the circuit until
    12; a second call starts at 20, is admitted as the probe and is still
    pending. *)
Definition probe_pending : System :=
  fst (run [ Call IndividualConfig.unset (command "k" 1 50 10) [] 1;
             Settle 0 (Rejected (UserError "FAIL")) 2;
             Call IndividualConfig.unset (command "k" 1 50 10) [] 20 ]
           initial).

(** A first call on ["k"] (threshold 1 call, 50 percent, sleep window
    10 ms) that fails at time 2: the circuit is OPEN until 12. *)
Definition failing_command : Command.t := command "k" 1 50 10.

(** Two overlapping calls on ["k"], both settled: the second starts before
    the callback of the first has run; the first fails, then the second. *)
Definition overlapped : list Step :=
  [ Call IndividualConfig.unset failing_command [] 1;
    Call IndividualConfig.unset failing_command [] 2;
    Settle 0 (Rejected (UserError "FAIL")) 3;
    Settle 0 (Rejected (UserError "FAIL")) 4 ].

Definition opened : Registry :=
  registry_of (execute IndividualConfig.unset failing_command [] 1
                       (Rejected (UserError "FAIL")) 2 empty_registry).

Definition opened_circuit : Circuit.t :=
  Circuit.mk "k" OPEN 1 1 1 (JS.of_Z 50) 10 (Some 12) false.

(** The instance of [forced_registry]. *)
Definition forced_circuit : Circuit.t :=
  Circuit.mk "k" CLOSED 1 0 80 (JS.of_Z 50) 1000 None true.

(** A command that checks the health of its circuit from the second call
    on, with a threshold of 50 percent, and the registry after a first call
    that succeeded. *)
Definition halving : Command.t := command "k" 2 50 10.

Definition succeeded_once : Registry :=
  registry_of (execute IndividualConfig.unset halving [] 1
                       (Resolved VUndefined) 2 empty_registry).

(** The instance after the two calls of [overlapped]. *)
Definition overlapped_circuit : Circuit.t :=
  Circuit.mk "k" OPEN 2 2 1 (JS.of_Z 50) 10 (Some 14) false.

End Sample.

(** ** The scenario of the test "should wait request threshold to check
    circuit overall health" *)

Module Scenario.

(** [Factory(key).requestVolumeThreshold(80).errorThresholdPercentage(50)
    .sleepWindowInMilliseconds(sw).fallbackTo(fallback)] *)
Definition command (key : string) (sw : Z) : Command.t :=
  Sample.command key 80 50 sw.

(** One [await cmd.execute()] whose action rejects with [err]: the clock
    reads [now] at the call and [now'] in the callback. *)
Definition call (cfg : IndividualConfig.t) (key : string) (sw : Z)
    (x : Z * Error * Z) : Invocation :=
  mkInvocation cfg (command key sw) [] (fst (fst x))
               (Rejected (snd (fst x))) (snd x).

(** The instance of the scenario, by its changing fields. *)
Definition circuit (key : string) (sw : Z) (st : CircuitStates.t)
    (total errors : Z) (expiry : option Z) : Circuit.t :=
  Circuit.mk key st total errors 80 (JS.of_Z 50) sw expiry false.

(** What the caller gets and what a call did: was the action called, was
    the fallback called. *)
Definition actions (key : string) (x : Outcome * list Event) : nat :=
  count (isActionCalled key) (snd x).

Definition fallbacks (key : string) (x : Outcome * list Event) : nat :=
  count (isFallbackCalled key) (snd x).

(** A call of the scenario as its caller and its collaborators see it:
    with the action called and failing with [e], and with the call
    rejected at the gate; [c] is the instance the call commits. *)
Definition failed (key : string) (c : Circuit.t) (e : Error)
    : Outcome * list Event :=
  (Resolved (VString "FALLBACK"),
   [ ActionCalled key [];
     DataDictionarySet key (Circuit.snapshot c);
     FallbackCalled key
       (Some (if isTimeoutError e then GatewayTimeout e else e)) [] ]).

Definition skipped (key : string) (c : Circuit.t) : Outcome * list Event :=
  (Resolved (VString "FALLBACK"),
   [ DataDictionarySet key (Circuit.snapshot c);
     FallbackCalled key None [] ]).

(** [LONG_SLEEP_WINDOW] of the test, and a run with it: a call every
    millisecond. *)
Definition LONG_SLEEP_WINDOW : Z := 24 * 60 * 60 * 1000.

Definition tick (n : nat) : Z * Error * Z :=
  (Z.of_nat n, UserError "FAIL", Z.of_nat n).

(** A run with a sleep window of 500 ms and a call every 100 ms. *)
Definition spaced : list Invocation :=
  map (fun n => call IndividualConfig.unset "test_2" 500
                  (100 * Z.of_nat n, UserError "FAIL", 100 * Z.of_nat n + 1))
      (seq 1 100).

End Scenario.

(** The instance [c] is stored under its key, with its entry. *)
Definition holds (r : Registry) (c : Circuit.t) : Prop :=
  CircuitInstancesDictionary r !! Circuit.commandkey c = Some c
  /\ CircuitDataDictionary r !! Circuit.commandkey c = Some (Circuit.snapshot c).

(** ** index.js *)

(** What [require('./config')] gives command.js under the name
    [circuitBreaker]: nothing. Of the modules of the sources that the path
    can name, config.js exports the five functions [forceOpen],
    [errorPercentageThreshold], [requestVolumeThreshold],
    [sleepWindowInMilliseconds] and [timeout], and config/index.js exports
    [env], [version], [isProduction] and [isTest]. *)
Definition Config_circuitBreaker : option CircuitBreakerDefaults := None.

(** [module.exports.Factory = (key) => new Command(key)] *)
Definition Factory (cfg : IndividualConfig.t) (key : string)
    : Completion Command.t :=
  Command.new cfg Config_circuitBreaker key.

(** ** Notions for the properties of whole runs *)

Definition isWarnEvent (e : Event) : bool :=
  match e with
  | LoggerWarn _ _ _ => true
  | _ => false
  end.

(** The state of a process as overlapping calls leave it: instances sit
    under their own key, every entry of the data dictionary belongs to an
    instance, and so does every callback that is still to run. *)
Definition system_ok (sys : System) : Prop :=
  well_keyed (registry sys)
  /\ (forall k, is_Some (CircuitDataDictionary (registry sys) !! k) ->
                is_Some (CircuitInstancesDictionary (registry sys) !! k))
  /\ Forall (fun p => is_Some (CircuitInstancesDictionary (registry sys)
                                !! Command.key (fst p)))
            (pending sys).

Definition isHandlerEvent (e : Event) : bool :=
  match e with
  | ErrorHandlerCalled _ _ => true
  | _ => false
  end.

Definition isFilterEvent (e : Event) : bool :=
  match e with
  | ErrorFilterCalled _ _ _ => true
  | _ => false
  end.

(** Did the call reach the [catch] callback, and with which error? *)
Definition failure (admitted : bool) (settled : Outcome) : option Error :=
  match settled with
  | Rejected err => if admitted then Some err else None
  | Resolved _ => None
  end.

(** The circuit of [key] is CLOSED, in step with its entry, with [n] calls
    counted and a request volume threshold of [N]. *)
Definition closed_counting (r : Registry) (key : string) (n N : Z) : Prop :=
  exists c,
    holds r c
    /\ Circuit.commandkey c = key
    /\ Circuit.state c = CLOSED
    /\ Circuit.ongoingSleepWindow c = None
    /\ Circuit.forceOpen c = false
    /\ Circuit.totalCalls c = n
    /\ Circuit.requestVolumeThreshold c = N.

(** ** The fluent interface of [Command] *)

Module Setter.

(** One call of a setter, with its argument. *)
Inductive t :=
| withTraceId (traceId : string)
| timeout (timeout : Z)
| errorThresholdPercentage (threshold : JS.number)
| sleepWindowInMilliseconds (sleepWindow : Z)
| requestVolumeThreshold (requestVolume : Z)
| fallbackTo (fallback : option Error -> list Value -> Outcome)
| filterWhen (handler : Error -> list Value -> bool)
| errorHandler (handler : Error -> Error)
| enableLog.

End Setter.

Definition configure (cfg : IndividualConfig.t) (s : Setter.t) (this : Command.t)
    : Command.t :=
  match s with
  | Setter.withTraceId traceId => Command.withTraceId traceId this
  | Setter.timeout t => Command.set_timeout cfg t this
  | Setter.errorThresholdPercentage threshold =>
      Command.errorThresholdPercentage threshold this
  | Setter.sleepWindowInMilliseconds sleepWindow =>
      Command.sleepWindowInMilliseconds sleepWindow this
  | Setter.requestVolumeThreshold requestVolume =>
      Command.set_requestVolumeThreshold requestVolume this
  | Setter.fallbackTo f => Command.fallbackTo f this
  | Setter.filterWhen handler => Command.filterWhen handler this
  | Setter.errorHandler handler => Command.set_errorHandler handler this
  | Setter.enableLog => Command.enableLog this
  end.

(** [new Command(key).s1(..).s2(..)...] *)
Definition chain (cfg : IndividualConfig.t) (setters : list Setter.t)
    (this : Command.t) : Command.t :=
  fold_left (fun c s => configure cfg s c) setters this.

(** ** config.js, from the environment *)

Module Env.

Inductive Setting :=
| force_open
| error_percentage_threshold
| request_volume_threshold
| sleep_window_milliseconds
| timeout.

Definition suffix (s : Setting) : string :=
  match s with
  | force_open => "_force_open"
  | error_percentage_threshold => "_error_percentage_threshold"
  | request_volume_threshold => "_request_volume_threshold"
  | sleep_window_milliseconds => "_sleep_window_milliseconds"
  | timeout => "_timeout"
  end.

(** The template literals [`app_circuit_${commandKey}_<setting>`]. *)
Definition variable (s : Setting) (commandKey : string) : string :=
  "app_circuit_" +:+ commandKey +:+ suffix s.

(** [const getEnv = (pattern) => process.env[pattern]] *)
Definition getEnv (env : gmap string string) (pattern : string)
    : option string :=
  env !! pattern.

(** What [Joi.attempt] makes of the value of a variable, for the schema
    [Boolean.default(false)] and for the schema [Num] (read as an integer
    for the settings the model holds in [Z]). Joi is a library: its
    conversions are taken as they come. *)
Record Joi := mkJoi {
  attempt_boolean : option string -> bool;
  attempt_number : option string -> option JS.number;
  attempt_integer : option string -> option Z
}.

(** The five functions that config.js exports. *)
Definition config (joi : Joi) (env : gmap string string) : IndividualConfig.t :=
  IndividualConfig.mk
    (fun commandKey =>
       attempt_boolean joi (getEnv env (variable force_open commandKey)))
    (fun commandKey =>
       attempt_number joi
         (getEnv env (variable error_percentage_threshold commandKey)))
    (fun commandKey =>
       attempt_integer joi
         (getEnv env (variable request_volume_threshold commandKey)))
    (fun commandKey =>
       attempt_integer joi
         (getEnv env (variable sleep_window_milliseconds commandKey)))
    (fun commandKey =>
       attempt_integer joi (getEnv env (variable timeout commandKey))).

End Env.

(** ** More sample data *)

Module Examples.

(** A first call on ["k"] (threshold 80 calls) that fails: the circuit is
    CLOSED with one call and one error. *)
Definition command : Command.t := Sample.command "k" 80 50 1000.

Definition failed_once : Registry :=
  registry_of (execute IndividualConfig.unset command [] 1
                       (Rejected (UserError "FAIL")) 2 empty_registry).

Definition failed_once_circuit : Circuit.t :=
  Circuit.mk "k" CLOSED 1 1 80 (JS.of_Z 50) 1000 None false.

(** Three calls in a row: a success, a failure, a success. *)
Definition three_calls : list Invocation :=
  [ mkInvocation IndividualConfig.unset command [] 1 (Resolved VUndefined) 2;
    mkInvocation IndividualConfig.unset command [] 3
                 (Rejected (UserError "FAIL")) 4;
    mkInvocation IndividualConfig.unset command [] 5 (Resolved VUndefined) 6 ].

(** The registry of [Sample.opened] after three more calls made before the
    expiry: the circuit is OPEN with 4 calls and 1 error. *)
Definition diluted : Registry :=
  fst (executeAll
         (map (fun now => mkInvocation IndividualConfig.unset
                            Sample.failing_command [] now
                            (Resolved VUndefined) now)
              [3; 4; 5])
         Sample.opened).

Definition diluted_circuit : Circuit.t :=
  Circuit.mk "k" OPEN 4 1 1 (JS.of_Z 50) 10 (Some 12) false.

End Examples.

(** ** The scenarios of the other tests *)

Module Plain.

(** The instance of a key whose commands come from [Sample.command] with no
    override in the environment, by its changing fields. *)
Definition circuit (key : string) (rvt thr sw : Z) (st : CircuitStates.t)
    (total errors : Z) (expiry : option Z) : Circuit.t :=
  Circuit.mk key st total errors rvt (JS.of_Z thr) sw expiry false.

(** One [await cmd.execute()]: the clock at the call, how the action's
    promise settles, the clock in the callback. *)
Definition call (cfg : IndividualConfig.t) (key : string) (rvt thr sw : Z)
    (x : Z * Outcome * Z) : Invocation :=
  mkInvocation cfg (Sample.command key rvt thr sw) [] (fst (fst x))
               (snd (fst x)) (snd x).

Definition resolving (x : Z * Value * Z) : Z * Outcome * Z :=
  (fst (fst x), Resolved (snd (fst x)), snd x).

Definition rejecting (x : Z * Error * Z) : Z * Outcome * Z :=
  (fst (fst x), Rejected (snd (fst x)), snd x).

(** The instance a call leaves, from the one the gate looked at. *)
Definition after (c : Circuit.t) (settled : Outcome) (now' : Z) : Circuit.t :=
  if Circuit.allowExecution c then
    match settled with
    | Resolved _ => if Circuit.isHalfOpen c then Circuit.markSuccess c else c
    | Rejected _ => Circuit.registerError c now'
    end
  else c.

(** What the caller gets and what the call did; [c] is the instance the
    gate looked at and [c'] the one the call commits. *)
Definition report (key : string) (c : Circuit.t) (settled : Outcome)
    (c' : Circuit.t) : Outcome * list Event :=
  if Circuit.allowExecution c then
    match settled with
    | Resolved result =>
        (Resolved result,
         [ ActionCalled key []; DataDictionarySet key (Circuit.snapshot c') ])
    | Rejected e => Scenario.failed key c' e
    end
  else Scenario.skipped key c'.

(** The key has a CLOSED circuit with these counters, in step with its
    entry; or it has none yet. *)
Definition closed (r : Registry) (key : string) (rvt thr sw total errors : Z)
    : Prop :=
  holds r (circuit key rvt thr sw CLOSED total errors None)
  \/ (CircuitInstancesDictionary r !! key = None /\ total = 0 /\ errors = 0).

Definition failing (x : Z * Outcome * Z) : bool :=
  match snd (fst x) with
  | Rejected _ => true
  | Resolved _ => false
  end.

(** None of the failures of [l] trips a CLOSED circuit that starts with
    these counters. *)
Fixpoint safe (rvt thr total errors : Z) (l : list (Z * Outcome * Z)) : Prop :=
  match l with
  | [] => True
  | x :: l' =>
      if failing x then
        Circuit.tripped (circuit "" rvt thr 0 CLOSED (total + 1) (errors + 1) None)
        = false
        /\ safe rvt thr (total + 1) (errors + 1) l'
      else safe rvt thr (total + 1) errors l'
  end.

(** The error count after the calls of [l]. *)
Fixpoint errors_after (errors : Z) (l : list (Z * Outcome * Z)) : Z :=
  match l with
  | [] => errors
  | x :: l' => errors_after (if failing x then errors + 1 else errors) l'
  end.

(** What the caller of the scenario gets: the result of the action, or else
    what the fallback resolves to. *)
Definition expected (x : Z * Outcome * Z) : Outcome :=
  match snd (fst x) with
  | Resolved result => Resolved result
  | Rejected _ => Resolved (VString "FALLBACK")
  end.

(** Clocks for a run: the [n]th call starts and settles at millisecond [n]. *)
Definition ok (n : nat) : Z * Value * Z :=
  (Z.of_nat n, VUndefined, Z.of_nat n).

Definition fail (n : nat) : Z * Error * Z :=
  (Z.of_nat n, UserError "FAIL", Z.of_nat n).

(** The last call of the test of the HALF_OPEN probe: a timer of one second
    after a sleep window of 500 ms, and an action that resolves to
    'test-success'. *)
Definition probe : Z * Outcome * Z :=
  (1020, Resolved (VString "test-success"), 1021).

End Plain.

(** * Properties *)

(** ** Elementary facts *)

Lemma allowExecution_spec c :
  Circuit.allowExecution c = true <->
  Circuit.forceOpen c = false
  /\ (Circuit.state c = CLOSED \/ Circuit.state c = HALF_OPEN).
Proof.
  unfold Circuit.allowExecution.
  destruct (Circuit.forceOpen c), (Circuit.state c); simpl;
    intuition congruence.
Qed.

Lemma getInstance_existing cfg key rvt thr sw now r c :
  CircuitInstancesDictionary r !! key = Some c ->
  getInstance cfg key rvt thr sw now r =
  (Circuit.reloadStats c (CircuitDataDictionary r !! Circuit.commandkey c) now,
   store key
     (Circuit.reloadStats c (CircuitDataDictionary r !! Circuit.commandkey c) now)
     r).
Proof. intros H. unfold getInstance. now rewrite H. Qed.

Lemma getInstance_fresh cfg key rvt thr sw now r :
  CircuitInstancesDictionary r !! key = None ->
  getInstance cfg key rvt thr sw now r =
  (Circuit.new cfg key rvt thr sw, store key (Circuit.new cfg key rvt thr sw) r).
Proof. intros H. unfold getInstance. now rewrite H. Qed.

Lemma getInstance_stores cfg key rvt thr sw now r :
  snd (getInstance cfg key rvt thr sw now r) =
  store key (fst (getInstance cfg key rvt thr sw now r)) r.
Proof. unfold getInstance. now destruct (_ !! key). Qed.

Lemma getInstance_commandkey cfg key rvt thr sw now r :
  well_keyed r ->
  Circuit.commandkey (fst (getInstance cfg key rvt thr sw now r)) = key.
Proof.
  intros Hwf. unfold getInstance.
  destruct (CircuitInstancesDictionary r !! key) as [c|] eqn:E; simpl; [|easy].
  apply Hwf in E. unfold Circuit.reloadStats.
  destruct (_ !! Circuit.commandkey c); [|easy].
  now destruct (Circuit.isSleepWindowOver _ _).
Qed.

(** The sequential [execute] is its two halves in a row. *)
Lemma execute_begin_settle cfg command params now settled now' r :
  match execute_begin cfg command params now r with
  | (r1, Done out, ev1) =>
      execute cfg command params now settled now' r = (r1, out, ev1)
  | (r1, Pending, ev1) =>
      exists r2 out ev2,
        execute_settle command params settled now' r1 = Some (r2, out, ev2)
        /\ execute cfg command params now settled now' r
           = (r2, out, ev1 ++ ev2)
  end.
Proof.
  unfold execute, execute_begin, execute_settle.
  destruct (getInstance _ _ _ _ _ _ _) as [c r1].
  destruct (Circuit.allowExecution _).
  - unfold store at 2. simpl. rewrite lookup_insert_eq.
    destruct (settle _ _ _ _ _ _) as [[[c2 d2] out] ev]. simpl.
    rewrite insert_insert_eq. eauto.
  - now destruct (resumeWithFallback _ _ _).
Qed.

(** With no call pending, starting a call and running its callback next is
    the sequential [execute]. *)
Lemma run_call_settle cfg command params now settled now' r :
  run [Call cfg command params now; Settle 0 settled now'] (mkSystem r [])
  = (mkSystem (registry_of (execute cfg command params now settled now' r)) [],
     events_of (execute cfg command params now settled now' r)).
Proof.
  pose proof (execute_begin_settle cfg command params now settled now' r) as H.
  unfold run, step. simpl.
  destruct (execute_begin cfg command params now r) as [[r1 [|out]] ev1];
    simpl.
  - destruct H as (r2 & out & ev2 & -> & ->). simpl.
    now rewrite app_nil_r.
  - rewrite H. simpl. now rewrite app_nil_r.
Qed.

(** ** What one failure does to the circuit *)

Lemma registerError_spec c now :
  let c' := Circuit.registerError c now in
  Circuit.errorCalls c' = Circuit.errorCalls c + 1
  /\ Circuit.totalCalls c' = Circuit.totalCalls c
  /\ Circuit.commandkey c' = Circuit.commandkey c
  /\ Circuit.forceOpen c' = Circuit.forceOpen c
  /\ (if (Circuit.requestVolumeThreshold c <=? Circuit.totalCalls c)
         && JS.ge (Circuit.errorPercentage (Circuit.errorCalls c + 1)
                                           (Circuit.totalCalls c))
                  (Circuit.errorThreshold c)
      then Circuit.state c' = OPEN
           /\ Circuit.ongoingSleepWindow c'
              = Some (now + Circuit.sleepWindowInMilliseconds c)
      else Circuit.state c' = Circuit.state c
           /\ Circuit.ongoingSleepWindow c' = Circuit.ongoingSleepWindow c).
Proof.
  unfold Circuit.registerError, Circuit.tripped. simpl.
  destruct (_ && _); simpl; repeat split; reflexivity.
Qed.

Lemma onRejected_unfiltered command params err now c data :
  filtered command params err = false ->
  exists out ev,
    onRejected command params err now c data =
    (Circuit.registerError c now,
     Circuit.finishWorkflow (Circuit.registerError c now) data, out, ev).
Proof.
  unfold filtered, onRejected. intros Hf.
  destruct (classify command err) as [exception ev1]. simpl in Hf.
  destruct (Command.errorFilter command) as [f|]; simpl.
  - rewrite Hf. unfold Circuit.registerErrorAndCalculateMetrics.
    destruct (resumeWithFallback _ _ _). eauto.
  - unfold Circuit.registerErrorAndCalculateMetrics.
    destruct (resumeWithFallback _ _ _). eauto.
Qed.

Lemma execute_admitted_failure cfg command params now err now' r :
  Circuit.allowExecution (admitted_circuit cfg command now r) = true ->
  filtered command params err = false ->
  CircuitInstancesDictionary
    (fst (fst (execute cfg command params now (Rejected err) now' r)))
    !! Command.key command
  = Some (Circuit.registerError (admitted_circuit cfg command now r) now').
Proof.
  unfold admitted_circuit, execute. intros Ha Hf.
  destruct (getInstance _ _ _ _ _ _ _) as [c r1]. simpl in Ha. rewrite Ha.
  unfold settle.
  match goal with
  | |- context [onRejected ?a ?b ?e ?n ?x ?d] =>
      destruct (onRejected_unfiltered a b e n x d Hf) as (out & ev & ->)
  end.
  simpl. apply lookup_insert_eq.
Qed.

(** C1. An admitted call whose action fails, the error not being filtered
    ([exception] is what the filter is asked about): [errorCalls] is
    incremented first, and on the counters so obtained the circuit goes to
    OPEN exactly when [totalCalls >= requestVolumeThreshold] and
    [errorCalls / totalCalls * 100 >= errorThreshold], the quotient, the
    product and the comparison being those of binary64: both counters and
    100 are rounded to doubles, divided, multiplied, and the result is
    compared with the threshold by [<=] on doubles, which is false on NaN.
    The circuit then has [ongoingSleepWindow] set to
    [Date.now() + sleepWindowInMilliseconds]; otherwise the state and the
    expiry stay as they were. [c] is the circuit the gate admitted (CLOSED
    or HALF_OPEN), [c'] the instance after the call. *)
Theorem C1_failure_opens_iff_thresholds
    cfg command params now err now' r :
  let c := admitted_circuit cfg command now r in
  let mapped := if isTimeoutError err then GatewayTimeout err else err in
  let exception :=
    match Command.errorHandler command with
    | Some handler => handler mapped
    | None => mapped
    end in
  Circuit.allowExecution c = true ->
  match Command.errorFilter command with
  | Some f => f exception params
  | None => false
  end = false ->
  exists c',
    CircuitInstancesDictionary
      (fst (fst (execute cfg command params now (Rejected err) now' r)))
      !! Command.key command = Some c'
    /\ Circuit.errorCalls c' = Circuit.errorCalls c + 1
    /\ Circuit.totalCalls c' = Circuit.totalCalls c
    /\ (Circuit.state c' = OPEN <->
        Circuit.requestVolumeThreshold c <= Circuit.totalCalls c'
        /\ SFleb (Circuit.errorThreshold c)
                 (SFmul 53 1024
                    (SFdiv 53 1024
                       (binary_normalize 53 1024 (Circuit.errorCalls c') 0 false)
                       (binary_normalize 53 1024 (Circuit.totalCalls c') 0 false))
                    (binary_normalize 53 1024 100 0 false)) = true)
    /\ (Circuit.state c' = OPEN ->
        Circuit.ongoingSleepWindow c'
        = Some (now' + Circuit.sleepWindowInMilliseconds c))
    /\ (Circuit.state c' <> OPEN ->
        Circuit.state c' = Circuit.state c
        /\ Circuit.ongoingSleepWindow c' = Circuit.ongoingSleepWindow c).
Proof.
  intros c mapped exception Ha Hf.
  assert (Hf' : filtered command params err = false).
  { unfold filtered, classify. fold mapped.
    destruct (Command.errorHandler command); exact Hf. }
  exists (Circuit.registerError c now'). split.
  { now apply execute_admitted_failure. }
  clearbody c.
  destruct (registerError_spec c now') as (He & Ht & _ & _ & Hs).
  rewrite He, Ht.
  assert (Hc : Circuit.state c <> OPEN).
  { apply allowExecution_spec in Ha. destruct Ha as [_ [Ha|Ha]]; congruence. }
  split; [reflexivity|]. split; [reflexivity|].
  change (SFleb (Circuit.errorThreshold c)
            (SFmul 53 1024
               (SFdiv 53 1024
                  (binary_normalize 53 1024 (Circuit.errorCalls c + 1) 0 false)
                  (binary_normalize 53 1024 (Circuit.totalCalls c) 0 false))
               (binary_normalize 53 1024 100 0 false)))
    with (JS.ge (Circuit.errorPercentage (Circuit.errorCalls c + 1)
                                         (Circuit.totalCalls c))
                (Circuit.errorThreshold c)).
  destruct (Circuit.requestVolumeThreshold c <=? Circuit.totalCalls c) eqn:Ev;
    [apply Z.leb_le in Ev | apply Z.leb_gt in Ev];
    (destruct (JS.ge _ _) eqn:Eg); simpl in Hs; destruct Hs as [Hs1 Hs2];
    rewrite Hs1, Hs2.
  - split; [tauto|]. split; [reflexivity | intros H; now contradiction H].
  - split; [|split; [congruence | auto]].
    split; [congruence | intros [_ ?]; discriminate].
  - split; [|split; [congruence | auto]].
    split; [congruence | intros [? _]; lia].
  - split; [|split; [congruence | auto]].
    split; [congruence | intros [? _]; lia].
Qed.

(** ** The four paths of [execute] *)

Lemma registerError_commandkey c now :
  Circuit.commandkey (Circuit.registerError c now) = Circuit.commandkey c.
Proof. unfold Circuit.registerError. now destruct (Circuit.tripped _). Qed.

Lemma admitted_circuit_commandkey cfg command now r :
  well_keyed r ->
  Circuit.commandkey (admitted_circuit cfg command now r) = Command.key command.
Proof.
  intros Hwf. unfold admitted_circuit. simpl.
  now apply getInstance_commandkey.
Qed.

(** The [catch] path of [execute], whole: what the caller gets and what
    the call does, in order. *)
Lemma execute_failure cfg command params now err now' r :
  well_keyed r ->
  Circuit.allowExecution (admitted_circuit cfg command now r) = true ->
  let key := Command.key command in
  let c := admitted_circuit cfg command now r in
  let mapped := if isTimeoutError err then GatewayTimeout err else err in
  let exception :=
    match Command.errorHandler command with
    | Some handler => handler mapped
    | None => mapped
    end in
  let passes :=
    match Command.errorFilter command with
    | Some f => f exception params
    | None => false
    end in
  let c' := if passes then c else Circuit.registerError c now' in
  execute cfg command params now (Rejected err) now' r
  = (mkRegistry (<[key := Circuit.snapshot c']> (CircuitDataDictionary r))
                (<[key := c']> (CircuitInstancesDictionary r)),
     if passes then Rejected exception
     else match Command.fallback command with
          | Some f => f (Some exception) params
          | None => Rejected match exception with
                             | Undefined => CircuitOpenException key
                             | _ => exception
                             end
          end,
     [ActionCalled key params]
     ++ match Command.errorHandler command with
        | Some _ => [ErrorHandlerCalled key mapped]
        | None => []
        end
     ++ match Command.errorFilter command with
        | Some _ => [ErrorFilterCalled key exception params]
        | None => []
        end
     ++ [DataDictionarySet key (Circuit.snapshot c')]
     ++ (if passes then []
         else match exception with
              | Undefined => []
              | _ => if Command.isLogEnable command
                     then [LoggerWarn exception ["circuit-breaker"; key]
                                      (Command.traceId command)]
                     else []
              end
              ++ match Command.fallback command with
                 | Some _ => [FallbackCalled key (Some exception) params]
                 | None => []
                 end)).
Proof.
  intros Hwf Ha key c mapped exception passes c'.
  pose proof (admitted_circuit_commandkey cfg command now r Hwf) as Hk.
  fold c in Ha, Hk. subst c'. unfold admitted_circuit in c.
  unfold execute.
  pose proof (getInstance_stores cfg (Command.key command)
                (Command.requestVolumeThreshold command)
                (Command.errorThreshold command)
                (Command.sleepWindowInMillis command) now r) as Hst.
  destruct (getInstance _ _ _ _ _ _ _) as [c0 r1]. simpl in c, Hst. subst r1.
  subst c. rewrite Ha.
  set (c := Circuit.registerCall c0) in *. clearbody c.
  unfold settle, onRejected, classify. fold mapped.
  assert (Hk' : Circuit.commandkey (Circuit.registerError c now') = key)
    by now rewrite registerError_commandkey.
  unfold Circuit.registerErrorAndCalculateMetrics, resumeWithFallback,
    Circuit.finishWorkflow, store, TAG. cbn [CircuitDataDictionary
    CircuitInstancesDictionary]. fold key.
  subst exception passes. clearbody mapped.
  destruct (Command.errorHandler command) as [h|];
    [generalize (h mapped); intros e | revert mapped; intros e];
    (destruct (Command.errorFilter command) as [f|];
     [destruct (f e params)|]);
    destruct (Command.fallback command) as [fb|];
    destruct (Command.isLogEnable command);
    destruct e;
    cbn [default from_option id fst snd app andb isTruthy];
    rewrite ?Hk, ?Hk', ?insert_insert_eq; reflexivity.
Qed.

(** C4. An admitted call whose action fails with an error on which the
    configured [errorFilter] answers true. The exception is the error the
    action failed with, made a gateway timeout when it is a timeout, and
    replaced by what the [errorHandler] returns on it when there is a
    handler. The filter is asked about this exception and the parameters of
    the call; the call is rejected with this exception; the fallback is not
    called and nothing is logged; the only write is the commit of the
    instance as [registerCall] left it: [totalCalls] counts the call,
    [errorCalls], the state and the expiry are those the lookup gave. *)
Theorem C4_filtered_error_bypasses_breaker
    cfg command params now err now' r f :
  well_keyed r ->
  Circuit.allowExecution (admitted_circuit cfg command now r) = true ->
  Command.errorFilter command = Some f ->
  let key := Command.key command in
  let mapped := if isTimeoutError err then GatewayTimeout err else err in
  let exception :=
    match Command.errorHandler command with
    | Some handler => handler mapped
    | None => mapped
    end in
  f exception params = true ->
  let found :=
    fst (getInstance cfg key (Command.requestVolumeThreshold command)
           (Command.errorThreshold command) (Command.sleepWindowInMillis command)
           now r) in
  let committed :=
    Circuit.mk_stats (Circuit.totalCalls found + 1) (Circuit.errorCalls found)
      (Circuit.ongoingSleepWindow found) (Circuit.state found) in
  let res := execute cfg command params now (Rejected err) now' r in
  outcome_of res = Rejected exception
  /\ events_of res
     = [ActionCalled key params]
       ++ match Command.errorHandler command with
          | Some _ => [ErrorHandlerCalled key mapped]
          | None => []
          end
       ++ [ErrorFilterCalled key exception params;
           DataDictionarySet key committed]
  /\ count isFallbackEvent (events_of res) = 0%nat
  /\ count isSetEvent (events_of res) = 1%nat
  /\ CircuitInstancesDictionary (registry_of res) !! key
     = Some (Circuit.registerCall found)
  /\ CircuitDataDictionary (registry_of res) !! key = Some committed.
Proof.
  intros Hwf Ha Hf key mapped exception Hy found committed res.
  pose proof (execute_failure cfg command params now err now' r Hwf Ha) as H.
  cbv zeta in H. fold key mapped in H. fold exception in H.
  rewrite Hf in H. rewrite Hy in H. subst res. rewrite H.
  unfold outcome_of, events_of, registry_of.
  cbn [fst snd CircuitDataDictionary CircuitInstancesDictionary].
  rewrite !lookup_insert_eq. rewrite app_nil_r.
  change (Circuit.snapshot (admitted_circuit cfg command now r)) with committed.
  split; [reflexivity|]. split; [reflexivity|].
  split.
  { destruct (Command.errorHandler command); reflexivity. }
  split.
  { destruct (Command.errorHandler command); reflexivity. }
  split; reflexivity.
Qed.

Lemma count_app p l1 l2 : count p (l1 ++ l2) = (count p l1 + count p l2)%nat.
Proof. unfold count. now rewrite List.filter_app, length_app. Qed.

Lemma resumeWithFallback_sets err command params :
  count isSetEvent (snd (resumeWithFallback err command params)) = 0%nat.
Proof.
  unfold resumeWithFallback.
  destruct err as [e|]; [destruct (isTruthy e)|];
    destruct (Command.isLogEnable command), (Command.fallback command);
    reflexivity.
Qed.

Lemma classify_sets command err :
  count isSetEvent (snd (classify command err)) = 0%nat.
Proof.
  unfold classify. now destruct (Command.errorHandler command).
Qed.

(** What the callback of an admitted call leaves behind: one write of the
    data dictionary, of the instance as the callback leaves it. *)
Lemma settle_commits command params settled now c data :
  let '(c', data', out, ev) := settle command params settled now c data in
  Circuit.commandkey c' = Circuit.commandkey c
  /\ data' = <[Circuit.commandkey c := Circuit.snapshot c']> data
  /\ count isSetEvent ev = 1%nat
  /\ In (DataDictionarySet (Circuit.commandkey c) (Circuit.snapshot c')) ev.
Proof.
  destruct settled as [v|err]; simpl.
  - destruct (Circuit.isHalfOpen c); simpl; repeat split; auto.
  - unfold onRejected.
    pose proof (classify_sets command err) as Hc.
    destruct (classify command err) as [exception ev1]. simpl in Hc.
    pose proof (resumeWithFallback_sets (Some exception) command params) as Hr.
    unfold Circuit.registerErrorAndCalculateMetrics.
    destruct (resumeWithFallback _ _ _) as [out ev3]. simpl in Hr.
    destruct (Command.errorFilter command) as [f|]; simpl;
      [destruct (f exception params)|];
      unfold Circuit.finishWorkflow; rewrite ?registerError_commandkey;
      (split; [reflexivity|]); (split; [reflexivity|]);
      (split;
       [ rewrite count_app, Hc; unfold count in *; simpl; rewrite ?Hr;
         reflexivity
       | apply in_or_app; right; simpl; auto ]).
Qed.

(** For callbacks that return, [Throwing.execute] is [execute]. *)
Lemma throwing_onRejected_returning command params err now c data :
  Throwing.onRejected
    (option_map Throwing.returning (Command.errorHandler command))
    (option_map Throwing.returning2 (Command.errorFilter command))
    command params err now c data
  = onRejected command params err now c data.
Proof.
  unfold Throwing.onRejected, onRejected, classify, Throwing.handle,
    Throwing.sift, Throwing.returning, Throwing.returning2.
  destruct (Command.errorHandler command) as [h|];
    (destruct (Command.errorFilter command) as [f|];
     [cbn [option_map default from_option id]; destruct (f _ params)|]);
    reflexivity.
Qed.

Lemma throwing_execute_returning cfg command params now settled now' r :
  Throwing.execute
    (option_map Throwing.returning (Command.errorHandler command))
    (option_map Throwing.returning2 (Command.errorFilter command))
    cfg command params now settled now' r
  = execute cfg command params now settled now' r.
Proof.
  unfold Throwing.execute, execute, Throwing.settle, settle.
  destruct (getInstance _ _ _ _ _ _ _) as [c0 r1].
  destruct (Circuit.allowExecution _); [|reflexivity].
  destruct settled as [v|err]; [reflexivity|].
  now rewrite throwing_onRejected_returning.
Qed.




(** ** [errorCalls <= totalCalls] *)

Lemma new_ok cfg key rvt thr sw : counters_ok (Circuit.new cfg key rvt thr sw).
Proof. unfold counters_ok. simpl. lia. Qed.

Lemma reloadStats_ok c entry now :
  counters_ok c ->
  (forall s, entry = Some s -> stats_ok s) ->
  counters_ok (Circuit.reloadStats c entry now).
Proof.
  intros Hc Hs. unfold Circuit.reloadStats.
  destruct entry as [s|]; [|exact Hc].
  specialize (Hs s eq_refl).
  destruct (Circuit.isSleepWindowOver _ _); exact Hs.
Qed.

Lemma registerCall_ok c :
  counters_ok c ->
  Circuit.errorCalls (Circuit.registerCall c)
  < Circuit.totalCalls (Circuit.registerCall c).
Proof. unfold counters_ok. simpl. lia. Qed.

Lemma markSuccess_ok c : counters_ok (Circuit.markSuccess c).
Proof. unfold counters_ok. simpl. lia. Qed.

Lemma registerError_ok c now :
  Circuit.errorCalls c < Circuit.totalCalls c ->
  counters_ok (Circuit.registerError c now).
Proof.
  intros H. unfold counters_ok.
  destruct (registerError_spec c now) as (He & Ht & _). lia.
Qed.

Lemma getInstance_ok cfg key rvt thr sw now r :
  registry_ok r -> counters_ok (fst (getInstance cfg key rvt thr sw now r)).
Proof.
  intros [Hi Hd]. unfold getInstance.
  destruct (CircuitInstancesDictionary r !! key) as [c|] eqn:E; simpl.
  - apply reloadStats_ok; [now apply (Hi key)|].
    intros s Hs. now apply (Hd (Circuit.commandkey c)).
  - apply new_ok.
Qed.

Lemma settle_ok command params settled now c data :
  Circuit.errorCalls c < Circuit.totalCalls c ->
  let '(c', _, _, _) := settle command params settled now c data in
  counters_ok c'.
Proof.
  intros H. destruct settled as [v|err]; simpl.
  - destruct (Circuit.isHalfOpen c); [apply markSuccess_ok|].
    unfold counters_ok. lia.
  - unfold onRejected. destruct (classify command err) as [exception ev1].
    unfold Circuit.registerErrorAndCalculateMetrics.
    destruct (resumeWithFallback _ _ _) as [out ev3].
    destruct (Command.errorFilter command) as [f|]; simpl;
      [destruct (f exception params)|];
      try (now apply registerError_ok); unfold counters_ok; lia.
Qed.

Lemma registry_ok_insert r k c s :
  registry_ok r -> counters_ok c -> stats_ok s ->
  registry_ok (mkRegistry (<[Circuit.commandkey c := s]> (CircuitDataDictionary r))
                          (<[k := c]> (CircuitInstancesDictionary r))).
Proof.
  intros [Hi Hd] Hc Hs. split; simpl; intros k' x.
  - rewrite lookup_insert. case_decide; [intros [= <-]; exact Hc | apply Hi].
  - rewrite lookup_insert. case_decide; [intros [= <-]; exact Hs | apply Hd].
Qed.

Lemma execute_ok cfg command params now settled now' r :
  registry_ok r ->
  registry_ok (registry_of (execute cfg command params now settled now' r)).
Proof.
  intros Hr. unfold execute, registry_of.
  pose proof (getInstance_ok cfg (Command.key command)
                (Command.requestVolumeThreshold command)
                (Command.errorThreshold command)
                (Command.sleepWindowInMillis command) now r Hr) as H0.
  pose proof (getInstance_stores cfg (Command.key command)
                (Command.requestVolumeThreshold command)
                (Command.errorThreshold command)
                (Command.sleepWindowInMillis command) now r) as Hst.
  destruct (getInstance _ _ _ _ _ _ _) as [c0 r1]. simpl in H0, Hst. subst r1.
  pose proof (registerCall_ok c0 H0) as H1.
  destruct (Circuit.allowExecution _).
  - pose proof (settle_ok command params settled now'
                  (Circuit.registerCall c0)
                  (CircuitDataDictionary
                     (store (Command.key command) (Circuit.registerCall c0)
                        (store (Command.key command) c0 r))) H1) as H2.
    pose proof (settle_commits command params settled now'
                  (Circuit.registerCall c0)
                  (CircuitDataDictionary
                     (store (Command.key command) (Circuit.registerCall c0)
                        (store (Command.key command) c0 r)))) as H3.
    destruct (settle _ _ _ _ _ _) as [[[c2 d2] out] ev].
    destruct H3 as (Hk & -> & _). simpl in Hk |- *.
    rewrite !insert_insert_eq. rewrite <- Hk.
    apply (registry_ok_insert r); auto.
  - destruct (resumeWithFallback _ _ _) as [out ev].
    unfold commit, store, Circuit.finishWorkflow. simpl.
    rewrite !insert_insert_eq.
    apply (registry_ok_insert r (Command.key command) (Circuit.registerCall c0));
      auto; unfold counters_ok, stats_ok in *; simpl in *; lia.
Qed.

Lemma sequential_ok r : sequential r -> registry_ok r.
Proof.
  induction 1 as [|i r Hs IH].
  - split; simpl; intros k x; rewrite lookup_empty; discriminate.
  - apply execute_ok, IH.
Qed.

(** C8. In every registry that sequential [execute]s can produce, each
    instance and each stored entry has [errorCalls <= totalCalls]; and in the
    next [execute] on it the invariant holds after each operation in turn:
    after [reloadStats] (or the construction), after [registerCall] (which
    leaves [errorCalls < totalCalls]), after [markSuccess], after
    [registerErrorAndCalculateMetrics], and in what [finishWorkflow]
    stores. *)
Theorem C8_errorCalls_le_totalCalls r :
  sequential r ->
  (forall k c, CircuitInstancesDictionary r !! k = Some c ->
     Circuit.errorCalls c <= Circuit.totalCalls c)
  /\ (forall k s, CircuitDataDictionary r !! k = Some s ->
       Circuit.s_errorCalls s <= Circuit.s_totalCalls s)
  /\ (forall cfg key rvt thr sw now now',
       let c0 := fst (getInstance cfg key rvt thr sw now r) in
       let c1 := Circuit.registerCall c0 in
       Circuit.errorCalls c0 <= Circuit.totalCalls c0
       /\ Circuit.errorCalls c1 <= Circuit.totalCalls c1
       /\ Circuit.errorCalls (Circuit.markSuccess c1)
          <= Circuit.totalCalls (Circuit.markSuccess c1)
       /\ Circuit.errorCalls (Circuit.registerError c1 now')
          <= Circuit.totalCalls (Circuit.registerError c1 now')
       /\ Forall (fun c => Circuit.s_errorCalls (Circuit.snapshot c)
                           <= Circuit.s_totalCalls (Circuit.snapshot c))
                 [c1; Circuit.markSuccess c1; Circuit.registerError c1 now']).
Proof.
  intros Hs. pose proof (sequential_ok r Hs) as Hr.
  split; [apply Hr|]. split; [apply Hr|].
  intros cfg key rvt thr sw now now' c0 c1.
  pose proof (getInstance_ok cfg key rvt thr sw now r Hr) as H0.
  fold c0 in H0. clearbody c0.
  pose proof (registerCall_ok c0 H0) as H1. fold c1 in H1. clearbody c1.
  pose proof (registerError_ok c1 now' H1) as H2.
  pose proof (markSuccess_ok c1) as H3.
  unfold counters_ok in *.
  repeat split; try lia; auto.
  repeat constructor; simpl; lia.
Qed.

(** ** The fields fixed by the constructor *)

Lemma same_settings_refl c : same_settings c c.
Proof. unfold same_settings. tauto. Qed.

Lemma same_settings_trans c1 c2 c3 :
  same_settings c1 c2 -> same_settings c2 c3 -> same_settings c1 c3.
Proof. unfold same_settings. intuition congruence. Qed.

Lemma reloadStats_settings c entry now :
  same_settings c (Circuit.reloadStats c entry now).
Proof.
  unfold Circuit.reloadStats, same_settings.
  destruct entry; [destruct (Circuit.isSleepWindowOver _ _)|]; simpl; tauto.
Qed.

Lemma registerCall_settings c : same_settings c (Circuit.registerCall c).
Proof. unfold same_settings. simpl. tauto. Qed.

Lemma markSuccess_settings c : same_settings c (Circuit.markSuccess c).
Proof. unfold same_settings. simpl. tauto. Qed.

Lemma registerError_settings c now :
  same_settings c (Circuit.registerError c now).
Proof.
  unfold Circuit.registerError, same_settings.
  destruct (Circuit.tripped _); simpl; tauto.
Qed.

Lemma settle_settings command params settled now c data :
  let '(c', _, _, _) := settle command params settled now c data in
  same_settings c c'.
Proof.
  destruct settled as [v|err]; simpl.
  - destruct (Circuit.isHalfOpen c);
      [apply markSuccess_settings | apply same_settings_refl].
  - unfold onRejected. destruct (classify command err) as [exception ev1].
    unfold Circuit.registerErrorAndCalculateMetrics.
    destruct (resumeWithFallback _ _ _) as [out ev3].
    destruct (Command.errorFilter command) as [f|]; simpl;
      [destruct (f exception params)|];
      try apply registerError_settings; apply same_settings_refl.
Qed.

Lemma execute_begin_frame cfg command params now r key c :
  CircuitInstancesDictionary r !! key = Some c ->
  exists c',
    CircuitInstancesDictionary
      (fst (fst (execute_begin cfg command params now r))) !! key = Some c'
    /\ same_settings c c'.
Proof.
  intros Hc. unfold execute_begin, getInstance.
  destruct (decide (Command.key command = key)) as [->|Hne].
  - rewrite Hc.
    set (c0 := Circuit.reloadStats c _ now).
    exists (Circuit.registerCall c0). split.
    + destruct (Circuit.allowExecution _);
        [|destruct (resumeWithFallback _ _ _)]; simpl; apply lookup_insert_eq.
    + eapply same_settings_trans;
        [apply reloadStats_settings | apply registerCall_settings].
  - exists c. split; [|apply same_settings_refl].
    destruct (CircuitInstancesDictionary r !! Command.key command);
      (destruct (Circuit.allowExecution _);
       [|destruct (resumeWithFallback _ _ _)]); simpl;
      now rewrite !lookup_insert_ne.
Qed.

Lemma execute_settle_frame command params settled now r key c :
  CircuitInstancesDictionary r !! key = Some c ->
  match execute_settle command params settled now r with
  | Some (r', _, _) =>
      exists c', CircuitInstancesDictionary r' !! key = Some c'
                 /\ same_settings c c'
  | None => True
  end.
Proof.
  intros Hc. unfold execute_settle.
  destruct (CircuitInstancesDictionary r !! Command.key command) as [c0|] eqn:E;
    [|exact I].
  pose proof (settle_settings command params settled now c0
                (CircuitDataDictionary r)) as Hs.
  destruct (settle _ _ _ _ _ _) as [[[c1 d1] out] ev]. simpl.
  destruct (decide (Command.key command = key)) as [Hk|Hne].
  - rewrite Hk in *. rewrite Hc in E. injection E as <-.
    exists c1. split; [apply lookup_insert_eq | exact Hs].
  - exists c. split; [now rewrite lookup_insert_ne | apply same_settings_refl].
Qed.

Lemma step_frame s sys key c :
  CircuitInstancesDictionary (registry sys) !! key = Some c ->
  exists c',
    CircuitInstancesDictionary (registry (fst (step s sys))) !! key = Some c'
    /\ same_settings c c'.
Proof.
  intros Hc. destruct s as [cfg command params now | n settled now]; simpl.
  - destruct (execute_begin_frame cfg command params now (registry sys) key c Hc)
      as (c' & H1 & H2).
    destruct (execute_begin _ _ _ _ _) as [[r' started] ev].
    exists c'. now destruct started.
  - destruct (pending sys !! n) as [[command params]|];
      [|exists c; split; [exact Hc | apply same_settings_refl]].
    pose proof (execute_settle_frame command params settled now (registry sys)
                  key c Hc) as H.
    destruct (execute_settle _ _ _ _ _) as [[[r' out] ev]|];
      [|exists c; split; [exact Hc | apply same_settings_refl]].
    exact H.
Qed.

Lemma run_frame steps : forall sys key c,
  CircuitInstancesDictionary (registry sys) !! key = Some c ->
  exists c',
    CircuitInstancesDictionary (registry (fst (run steps sys))) !! key = Some c'
    /\ same_settings c c'.
Proof.
  induction steps as [|s steps IH]; intros sys key c Hc; simpl.
  - exists c. split; [exact Hc | apply same_settings_refl].
  - destruct (step_frame s sys key c Hc) as (c1 & H1 & S1).
    destruct (step s sys) as [sys1 ev].
    destruct (IH sys1 key c1 H1) as (c2 & H2 & S2).
    destruct (run steps sys1) as [sys2 evs]. simpl in *.
    exists c2. split; [exact H2 | eapply same_settings_trans; eassumption].
Qed.

(** With an instance under the key, [getInstance] reads neither its
    arguments nor the environment. *)
Lemma getInstance_existing_args cfg cfg' key rvt thr sw rvt' thr' sw' now r c :
  CircuitInstancesDictionary r !! key = Some c ->
  getInstance cfg' key rvt' thr' sw' now r = getInstance cfg key rvt thr sw now r.
Proof. intros H. unfold getInstance. now rewrite H. Qed.

(** C10. Once a circuit exists under a key, its [requestVolumeThreshold],
    [errorThreshold] and [sleepWindowInMilliseconds] never change, whatever
    calls and callbacks run afterwards, in whatever order: [reloadStats]
    keeps them, and [registerErrorAndCalculateMetrics] keeps them and does
    the same whatever arguments it is passed. So an [execute] on that key
    does the same whatever thresholds and sleep window the command's setters
    were given and whatever the environment says by then: the decisions are
    taken on the fields the constructor set. *)
Theorem C10_thresholds_fixed_at_construction r key c :
  CircuitInstancesDictionary r !! key = Some c ->
  (forall steps waiting,
     exists c',
       CircuitInstancesDictionary
         (registry (fst (run steps (mkSystem r waiting)))) !! key = Some c'
       /\ Circuit.requestVolumeThreshold c' = Circuit.requestVolumeThreshold c
       /\ Circuit.errorThreshold c' = Circuit.errorThreshold c
       /\ Circuit.sleepWindowInMilliseconds c'
          = Circuit.sleepWindowInMilliseconds c)
  /\ (forall entry now,
        let c' := Circuit.reloadStats c entry now in
        Circuit.requestVolumeThreshold c' = Circuit.requestVolumeThreshold c
        /\ Circuit.errorThreshold c' = Circuit.errorThreshold c
        /\ Circuit.sleepWindowInMilliseconds c'
           = Circuit.sleepWindowInMilliseconds c)
  /\ (forall arguments arguments' now data,
        Circuit.registerErrorAndCalculateMetrics c arguments now data
        = Circuit.registerErrorAndCalculateMetrics c arguments' now data
        /\ let c' := fst (Circuit.registerErrorAndCalculateMetrics
                            c arguments now data) in
           Circuit.requestVolumeThreshold c' = Circuit.requestVolumeThreshold c
           /\ Circuit.errorThreshold c' = Circuit.errorThreshold c
           /\ Circuit.sleepWindowInMilliseconds c'
              = Circuit.sleepWindowInMilliseconds c)
  /\ (forall cfg cfg' command params now settled now' rvt' thr' sw',
        Command.key command = key ->
        execute cfg'
          (Command.set_requestVolumeThreshold rvt'
             (Command.errorThresholdPercentage thr'
                (Command.sleepWindowInMilliseconds sw' command)))
          params now settled now' r
        = execute cfg command params now settled now' r).
Proof.
  intros Hc. split; [|split; [|split]].
  - intros steps waiting.
    destruct (run_frame steps (mkSystem r waiting) key c Hc) as (c' & H & S).
    exists c'. unfold same_settings in S. tauto.
  - intros entry now c'. subst c'.
    pose proof (reloadStats_settings c entry now) as S.
    unfold same_settings in S. tauto.
  - intros arguments arguments' now data. split; [reflexivity|].
    simpl. pose proof (registerError_settings c now) as S.
    unfold same_settings in S. tauto.
  - intros cfg cfg' command params now settled now' rvt' thr' sw' Hk.
    subst key. unfold execute. simpl.
    rewrite (getInstance_existing_args cfg cfg' (Command.key command)
               (Command.requestVolumeThreshold command)
               (Command.errorThreshold command)
               (Command.sleepWindowInMillis command) rvt' thr' sw' now r c Hc).
    destruct (getInstance _ _ _ _ _ _ _) as [c0 r1].
    destruct (Circuit.allowExecution _); [|reflexivity].
    destruct settled as [v|err]; reflexivity.
Qed.

(** ** [forceOpen] *)

Lemma resumeWithFallback_actions key err command params :
  count (isActionCalled key) (snd (resumeWithFallback err command params))
  = 0%nat.
Proof.
  unfold resumeWithFallback.
  destruct err as [e|]; [destruct (isTruthy e)|];
    destruct (Command.isLogEnable command), (Command.fallback command);
    reflexivity.
Qed.

Lemma settle_actions key command params settled now c data :
  let '(_, _, _, ev) := settle command params settled now c data in
  count (isActionCalled key) ev = 0%nat.
Proof.
  destruct settled as [v|err]; simpl; [reflexivity|].
  unfold onRejected, classify.
  pose proof (resumeWithFallback_actions key) as Hr.
  unfold Circuit.registerErrorAndCalculateMetrics.
  destruct (Command.errorHandler command) as [h|];
    (destruct (Command.errorFilter command) as [f|]; simpl;
     [destruct (f _ params)|]); try reflexivity;
    match goal with
    | |- context [resumeWithFallback ?e ?c ?p] =>
        specialize (Hr e c p); destruct (resumeWithFallback e c p)
    end; simpl in *; exact Hr.
Qed.

Lemma execute_begin_forced cfg command params now r key c :
  CircuitInstancesDictionary r !! key = Some c ->
  Circuit.forceOpen c = true ->
  count (isActionCalled key) (snd (execute_begin cfg command params now r))
  = 0%nat.
Proof.
  intros Hc Hf. unfold execute_begin, getInstance.
  pose proof (resumeWithFallback_actions key None command params) as Hr.
  destruct (decide (Command.key command = key)) as [Hk|Hne].
  - rewrite Hk, Hc.
    destruct (reloadStats_settings c
                (CircuitDataDictionary r !! Circuit.commandkey c) now)
      as (_ & _ & _ & _ & Hf').
    unfold Circuit.allowExecution. simpl. rewrite Hf', Hf. simpl.
    subst key. destruct (resumeWithFallback _ _ _). exact Hr.
  - assert (He : String.eqb (Command.key command) key = false)
      by now apply String.eqb_neq.
    destruct (CircuitInstancesDictionary r !! Command.key command);
      (destruct (Circuit.allowExecution _);
       [|destruct (resumeWithFallback _ _ _)]); simpl;
      unfold count; simpl; rewrite ?He; try reflexivity; exact Hr.
Qed.

Lemma step_forced s sys key c :
  CircuitInstancesDictionary (registry sys) !! key = Some c ->
  Circuit.forceOpen c = true ->
  count (isActionCalled key) (snd (step s sys)) = 0%nat.
Proof.
  intros Hc Hf. destruct s as [cfg command params now | n settled now]; simpl.
  - pose proof (execute_begin_forced cfg command params now (registry sys)
                  key c Hc Hf) as H.
    destruct (execute_begin _ _ _ _ _) as [[r' started] ev].
    now destruct started.
  - destruct (pending sys !! n) as [[command params]|]; [|reflexivity].
    unfold execute_settle.
    destruct (CircuitInstancesDictionary (registry sys) !! Command.key command)
      as [c0|]; [|reflexivity].
    pose proof (settle_actions key command params settled now c0
                  (CircuitDataDictionary (registry sys))) as H.
    now destruct (settle _ _ _ _ _ _) as [[[c1 d1] out] ev].
Qed.

Lemma run_forced steps : forall sys key c,
  CircuitInstancesDictionary (registry sys) !! key = Some c ->
  Circuit.forceOpen c = true ->
  count (isActionCalled key) (snd (run steps sys)) = 0%nat.
Proof.
  induction steps as [|s steps IH]; intros sys key c Hc Hf; simpl;
    [reflexivity|].
  pose proof (step_forced s sys key c Hc Hf) as H1.
  destruct (step_frame s sys key c Hc) as (c1 & Hc1 & S1).
  destruct (step s sys) as [sys1 ev]. simpl in *.
  assert (Hf1 : Circuit.forceOpen c1 = true).
  { unfold same_settings in S1. destruct S1 as (_ & _ & _ & _ & ->). exact Hf. }
  pose proof (IH sys1 key c1 Hc1 Hf1) as H2.
  destruct (run steps sys1) as [sys2 evs]. simpl in *.
  now rewrite count_app, H1, H2.
Qed.

Lemma execute_begin_fresh_forced cfg command params now r :
  CircuitInstancesDictionary r !! Command.key command = None ->
  IndividualConfig.forceOpen cfg (Command.key command) = true ->
  exists r1 out ev c1,
    execute_begin cfg command params now r = (r1, Done out, ev)
    /\ count (isActionCalled (Command.key command)) ev = 0%nat
    /\ CircuitInstancesDictionary r1 !! Command.key command = Some c1
    /\ Circuit.forceOpen c1 = true.
Proof.
  intros Hnone Hfo. unfold execute_begin.
  rewrite (getInstance_fresh _ _ _ _ _ _ _ Hnone).
  unfold Circuit.allowExecution.
  cbn [Circuit.registerCall Circuit.new Circuit.forceOpen Circuit.state].
  rewrite Hfo. cbn [orb negb andb].
  pose proof (resumeWithFallback_actions (Command.key command) None command
                params) as Hr.
  destruct (resumeWithFallback None command params) as [out ev].
  eexists _, out, _, _. split; [reflexivity|]. split; [exact Hr|].
  split.
  - unfold commit, store. cbn [CircuitInstancesDictionary].
    rewrite insert_insert_eq. apply lookup_insert_eq.
  - cbn [Circuit.registerCall Circuit.new Circuit.forceOpen].
    now rewrite Hfo.
Qed.

(** C6, as the code has it. [forceOpen] is what the environment says when
    the constructor runs, on the first lookup of the key. If it says true
    then, that first call does not reach the action, and from then on no
    call on that key does, whatever calls and callbacks run, in whatever
    order and under whatever environment (the steps carry their own, which
    may well report false); the field is still true afterwards. *)
Theorem C6_forceOpen_never_admits_never_changes r key :
  (forall c,
     CircuitInstancesDictionary r !! key = Some c ->
     Circuit.forceOpen c = true ->
     forall steps waiting,
       count (isActionCalled key) (snd (run steps (mkSystem r waiting))) = 0%nat
       /\ exists c',
            CircuitInstancesDictionary
              (registry (fst (run steps (mkSystem r waiting)))) !! key = Some c'
            /\ Circuit.forceOpen c' = true)
  /\ (CircuitInstancesDictionary r !! key = None ->
      forall cfg command params now,
        Command.key command = key ->
        IndividualConfig.forceOpen cfg key = true ->
        forall steps waiting,
          count (isActionCalled key)
            (snd (run (Call cfg command params now :: steps)
                      (mkSystem r waiting))) = 0%nat
          /\ exists c',
               CircuitInstancesDictionary
                 (registry (fst (run (Call cfg command params now :: steps)
                                     (mkSystem r waiting)))) !! key = Some c'
               /\ Circuit.forceOpen c' = true)
  /\ (forall cfg rvt thr sw,
        Circuit.forceOpen (Circuit.new cfg key rvt thr sw)
        = IndividualConfig.forceOpen cfg key).
Proof.
  split; [|split].
  - intros c Hc Hf steps waiting. split.
    + now apply (run_forced steps (mkSystem r waiting) key c).
    + destruct (run_frame steps (mkSystem r waiting) key c Hc) as (c' & H & S).
      exists c'. split; [exact H|].
      unfold same_settings in S. destruct S as (_ & _ & _ & _ & ->). exact Hf.
  - intros Hnone cfg command params now Hk Hfo steps waiting. subst key.
    destruct (execute_begin_fresh_forced cfg command params now r Hnone Hfo)
      as (r1 & out & ev & c1 & Hb & Hev & Hc1 & Hf1).
    cbn [run step registry pending]. rewrite Hb.
    pose proof (run_forced steps (mkSystem r1 waiting) (Command.key command) c1
                  Hc1 Hf1) as H2.
    destruct (run_frame steps (mkSystem r1 waiting) (Command.key command) c1
                Hc1) as (c' & H & S).
    destruct (run steps (mkSystem r1 waiting)) as [sys2 evs].
    cbn [fst snd] in *. split.
    + now rewrite count_app, Hev, H2.
    + exists c'. split; [exact H|].
      unfold same_settings in S. destruct S as (_ & _ & _ & _ & ->). exact Hf1.
  - intros cfg rvt thr sw. simpl. apply orb_false_r.
Qed.

(** C6 as stated fails: with the circuit of ["k"] built while the
    environment forced it open, a later lookup under an environment that
    reports false returns the instance with [forceOpen] still true, and the
    call is rejected without the action being called. *)
Lemma C6_resolver_false_does_not_clear :
  IndividualConfig.forceOpen IndividualConfig.unset "k" = false
  /\ Circuit.forceOpen
       (fst (getInstance IndividualConfig.unset "k" 80 (JS.of_Z 50) 1000 3
               Sample.forced_registry)) = true
  /\ count (isActionCalled "k")
       (events_of (execute IndividualConfig.unset (Sample.command "k" 80 50 1000)
                     [] 3 (Resolved VUndefined) 4 Sample.forced_registry))
     = 0%nat.
Proof. vm_compute. repeat split. Qed.

(** ** The constructor and the overrides *)

Lemma or_Z_nullish a b :
  a <> Some 0 -> JS.or_Z a b = JS.nullish a b.
Proof.
  intros H. destruct a as [v|]; simpl; [|reflexivity].
  unfold JS.truthyZ. destruct (Z.eqb_spec v 0); [congruence | reflexivity].
Qed.

Lemma or_number_nullish a b :
  (forall v, a = Some v -> JS.truthy v = true) ->
  JS.or_number a b = JS.nullish a b.
Proof.
  intros H. destruct a as [v|]; simpl; [|reflexivity].
  now rewrite (H v eq_refl).
Qed.

(** What the claim C9 gets right: a new circuit is CLOSED with both
    counters at 0, [forceOpen] is the environment's flag, and each threshold
    is the override when there is one and it is not 0 (nor NaN), the
    argument when there is none. *)
Lemma new_circuit_fields cfg key rvt thr sw :
  let c := Circuit.new cfg key rvt thr sw in
  Circuit.state c = CLOSED
  /\ Circuit.totalCalls c = 0
  /\ Circuit.errorCalls c = 0
  /\ Circuit.ongoingSleepWindow c = None
  /\ Circuit.forceOpen c = IndividualConfig.forceOpen cfg key
  /\ (IndividualConfig.requestVolumeThreshold cfg key <> Some 0 ->
      Circuit.requestVolumeThreshold c
      = JS.nullish (IndividualConfig.requestVolumeThreshold cfg key) rvt)
  /\ ((forall v, IndividualConfig.errorPercentageThreshold cfg key = Some v ->
               JS.truthy v = true) ->
      Circuit.errorThreshold c
      = JS.nullish (IndividualConfig.errorPercentageThreshold cfg key) thr)
  /\ (IndividualConfig.sleepWindowInMilliseconds cfg key <> Some 0 ->
      Circuit.sleepWindowInMilliseconds c
      = JS.nullish (IndividualConfig.sleepWindowInMilliseconds cfg key) sw).
Proof.
  simpl. repeat split.
  - apply orb_false_r.
  - apply or_Z_nullish.
  - apply or_number_nullish.
  - apply or_Z_nullish.
Qed.

(** C9, where the code departs from it: with the three overrides of a key
    set to 0, the constructor takes the arguments (80, 50, 1000), where
    [override ?? argument] is 0. *)
Theorem C9_override_zero_is_dropped :
  let c := Circuit.new Sample.zeroes "k" 80 (JS.of_Z 50) 1000 in
  (Circuit.requestVolumeThreshold c = 80
   /\ JS.nullish (IndividualConfig.requestVolumeThreshold Sample.zeroes "k") 80
      = 0)
  /\ (Circuit.errorThreshold c = JS.of_Z 50
      /\ JS.nullish (IndividualConfig.errorPercentageThreshold Sample.zeroes "k")
                    (JS.of_Z 50) = JS.of_Z 0
      /\ JS.of_Z 50 <> JS.of_Z 0)
  /\ (Circuit.sleepWindowInMilliseconds c = 1000
      /\ JS.nullish (IndividualConfig.sleepWindowInMilliseconds Sample.zeroes "k")
                    1000 = 0).
Proof. vm_compute. repeat split; discriminate. Qed.

(** ** The error the handlers see *)

(** C5. An admitted call whose action fails with [err]. A timeout is made
    a gateway timeout before anything else: [mapped] is the 504 when [err]
    is a [TimeoutError], and [err] otherwise. A configured [errorHandler] is
    called once, first, with [mapped], and what it returns replaces the
    error for all that follows: it is the exception the [errorFilter] is
    asked about, the one the caller is rejected with when the filter takes
    it, the one that is logged and the one the fallback is called with; with
    no handler that exception is [mapped] itself. What the caller gets and
    the calls made, in order, are as follows; an exception that is
    [undefined] is not logged, and without a fallback the caller is then
    rejected with a [CircuitOpenException]. *)
Theorem C5_handler_is_given_the_gateway_timeout
    cfg command params now err now' r :
  well_keyed r ->
  Circuit.allowExecution (admitted_circuit cfg command now r) = true ->
  let key := Command.key command in
  let c := admitted_circuit cfg command now r in
  let mapped := if isTimeoutError err then GatewayTimeout err else err in
  let exception :=
    match Command.errorHandler command with
    | Some handler => handler mapped
    | None => mapped
    end in
  let passes :=
    match Command.errorFilter command with
    | Some f => f exception params
    | None => false
    end in
  let c' := if passes then c else Circuit.registerError c now' in
  let res := execute cfg command params now (Rejected err) now' r in
  events_of res
  = [ActionCalled key params]
    ++ match Command.errorHandler command with
       | Some _ => [ErrorHandlerCalled key mapped]
       | None => []
       end
    ++ match Command.errorFilter command with
       | Some _ => [ErrorFilterCalled key exception params]
       | None => []
       end
    ++ [DataDictionarySet key (Circuit.snapshot c')]
    ++ (if passes then []
        else match exception with
             | Undefined => []
             | _ => if Command.isLogEnable command
                    then [LoggerWarn exception ["circuit-breaker"; key]
                                     (Command.traceId command)]
                    else []
             end
             ++ match Command.fallback command with
                | Some _ => [FallbackCalled key (Some exception) params]
                | None => []
                end)
  /\ outcome_of res
     = (if passes then Rejected exception
        else match Command.fallback command with
             | Some f => f (Some exception) params
             | None => Rejected match exception with
                                | Undefined => CircuitOpenException key
                                | _ => exception
                                end
             end).
Proof.
  intros Hwf Ha key c mapped exception passes c' res.
  pose proof (execute_failure cfg command params now err now' r Hwf Ha) as H.
  cbv zeta in H. subst res. rewrite H. split; reflexivity.
Qed.

(** ** Reloading, and the way to HALF_OPEN *)

(** The registry one [execute] leaves: both dictionaries written under the
    key of the command, the data dictionary with the snapshot of the
    instance. *)
Lemma execute_registry cfg command params now settled now' r :
  well_keyed r ->
  exists c',
    Circuit.commandkey c' = Command.key command
    /\ registry_of (execute cfg command params now settled now' r)
       = mkRegistry
           (<[Command.key command := Circuit.snapshot c']>
              (CircuitDataDictionary r))
           (<[Command.key command := c']> (CircuitInstancesDictionary r)).
Proof.
  intros Hwf.
  pose proof (admitted_circuit_commandkey cfg command now r Hwf) as Hk.
  unfold execute, registry_of. unfold admitted_circuit in Hk.
  pose proof (getInstance_stores cfg (Command.key command)
                (Command.requestVolumeThreshold command)
                (Command.errorThreshold command)
                (Command.sleepWindowInMillis command) now r) as Hst.
  destruct (getInstance _ _ _ _ _ _ _) as [c0 r1]. simpl in Hk, Hst. subst r1.
  destruct (Circuit.allowExecution _).
  - pose proof (settle_commits command params settled now'
                  (Circuit.registerCall c0)
                  (CircuitDataDictionary
                     (store (Command.key command) (Circuit.registerCall c0)
                        (store (Command.key command) c0 r)))) as Hs.
    destruct (settle _ _ _ _ _ _) as [[[c2 d2] out] ev].
    destruct Hs as (Hk2 & -> & _). simpl in *.
    exists c2. split; [congruence|].
    now rewrite Hk, !insert_insert_eq.
  - destruct (resumeWithFallback _ _ _) as [out ev].
    exists (Circuit.registerCall c0). split; [exact Hk|].
    unfold commit, store, Circuit.finishWorkflow. simpl.
    now rewrite Hk, !insert_insert_eq.
Qed.

Lemma in_sync_well_keyed r : in_sync r -> well_keyed r.
Proof. intros H k c Hc. now apply H. Qed.

Lemma execute_in_sync cfg command params now settled now' r :
  in_sync r ->
  in_sync (registry_of (execute cfg command params now settled now' r)).
Proof.
  intros Hs.
  destruct (execute_registry cfg command params now settled now' r
              (in_sync_well_keyed r Hs)) as (c' & Hk & ->).
  intros k c. simpl. rewrite !lookup_insert.
  case_decide; [intros [= <-]; subst k; auto | apply Hs].
Qed.

Lemma sequential_in_sync r : sequential r -> in_sync r.
Proof.
  induction 1 as [|i r Hs IH].
  - intros k c. simpl. rewrite lookup_empty. discriminate.
  - apply execute_in_sync, IH.
Qed.

Lemma isSleepWindowOver_spec c now :
  Circuit.isSleepWindowOver c now = true <->
  exists t, Circuit.ongoingSleepWindow c = Some t /\ t <> 0 /\ t < now.
Proof.
  unfold Circuit.isSleepWindowOver, JS.truthyZ.
  destruct (Circuit.ongoingSleepWindow c) as [t|].
  - rewrite andb_true_iff, negb_true_iff, Z.eqb_neq, Z.ltb_lt. split.
    + intros [? ?]. eauto.
    + intros (t' & [= <-] & ? & ?). auto.
  - split; [discriminate | intros (t & ? & _); discriminate].
Qed.

Lemma settle_keeps_open command params settled now c data :
  Circuit.state c = OPEN ->
  let '(c', _, _, _) := settle command params settled now c data in
  Circuit.state c' = OPEN.
Proof.
  intros Ho. destruct settled as [v|err]; simpl.
  - unfold Circuit.isHalfOpen. now rewrite Ho.
  - unfold onRejected. destruct (classify command err) as [exception ev1].
    unfold Circuit.registerErrorAndCalculateMetrics.
    destruct (resumeWithFallback _ _ _) as [out ev3].
    assert (Circuit.state (Circuit.registerError c now) = OPEN).
    { unfold Circuit.registerError. now destruct (Circuit.tripped _). }
    destruct (Command.errorFilter command) as [f|]; simpl;
      [destruct (f exception params)|]; assumption.
Qed.

(** The registry a callback leaves. *)
Lemma execute_settle_registry command params settled now r c :
  CircuitInstancesDictionary r !! Command.key command = Some c ->
  Circuit.commandkey c = Command.key command ->
  exists c1 out ev,
    Circuit.commandkey c1 = Command.key command
    /\ execute_settle command params settled now r
       = Some (mkRegistry
                 (<[Command.key command := Circuit.snapshot c1]>
                    (CircuitDataDictionary r))
                 (<[Command.key command := c1]> (CircuitInstancesDictionary r)),
               out, ev).
Proof.
  intros Hc Hk. unfold execute_settle. rewrite Hc.
  pose proof (settle_commits command params settled now c
                (CircuitDataDictionary r)) as H.
  destruct (settle _ _ _ _ _ _) as [[[c1 d1] out] ev].
  destruct H as (Hk1 & -> & _).
  exists c1, out, ev. split; [congruence|]. now rewrite Hk.
Qed.

(** What [execute_begin] leaves in the registry: only the call that the
    gate rejects writes the data dictionary. *)
Lemma execute_begin_cases cfg command params now r :
  well_keyed r ->
  exists c1,
    Circuit.commandkey c1 = Command.key command
    /\ match execute_begin cfg command params now r with
       | (r1, started, _) =>
           CircuitInstancesDictionary r1
           = <[Command.key command := c1]> (CircuitInstancesDictionary r)
           /\ CircuitDataDictionary r1
              = match started with
                | Pending => CircuitDataDictionary r
                | Done _ => <[Command.key command := Circuit.snapshot c1]>
                              (CircuitDataDictionary r)
                end
       end.
Proof.
  intros Hwf.
  pose proof (admitted_circuit_commandkey cfg command now r Hwf) as Hk.
  unfold admitted_circuit in Hk. unfold execute_begin.
  pose proof (getInstance_stores cfg (Command.key command)
                (Command.requestVolumeThreshold command)
                (Command.errorThreshold command)
                (Command.sleepWindowInMillis command) now r) as Hst.
  destruct (getInstance _ _ _ _ _ _ _) as [c0 r1]. simpl in Hk, Hst. subst r1.
  exists (Circuit.registerCall c0). split; [exact Hk|].
  destruct (Circuit.allowExecution _).
  - simpl. split; [now rewrite insert_insert_eq | reflexivity].
  - destruct (resumeWithFallback _ _ _) as [out ev].
    unfold commit, store, Circuit.finishWorkflow. simpl.
    split; [now rewrite insert_insert_eq | now rewrite Hk].
Qed.

Lemma Forall_undelete {A} (P : A -> Prop) (l : list A) n x :
  l !! n = Some x -> P x -> Forall P (delete n l) -> Forall P l.
Proof.
  intros Hn Hx H. rewrite Forall_lookup in H |- *. intros i y Hi.
  destruct (Nat.lt_trichotomy i n) as [Hlt | [-> | Hgt]].
  - apply (H i). now rewrite list_lookup_delete_lt.
  - congruence.
  - destruct i as [|i]; [inversion Hgt|].
    apply (H i). rewrite list_lookup_delete_ge; [exact Hi | apply Nat.lt_succ_r, Hgt].
Qed.

Lemma step_in_sync s sys : system_in_sync sys -> system_in_sync (fst (step s sys)).
Proof.
  intros Hs.
  assert (Hwf : well_keyed (registry sys)) by (intros k c Hc; now apply Hs).
  destruct s as [cfg command params now | n settled now]; simpl.
  - destruct (execute_begin_cases cfg command params now (registry sys) Hwf)
      as (c1 & Hk & Hb).
    destruct (execute_begin cfg command params now (registry sys))
      as [[r' started] ev]. destruct Hb as [Hi Hd].
    intros k c. destruct started; cbn [fst registry]; rewrite Hi, Hd;
      rewrite lookup_insert; case_decide as Hkey.
    + intros [= <-]. split; [congruence|]. intros Hp.
      unfold settled_on in Hp. cbn [pending] in Hp.
      apply Forall_app in Hp. destruct Hp as [_ Hp].
      inversion Hp as [|? ? Hne _]; subst. now contradiction Hne.
    + intros Hc. destruct (Hs k c Hc) as [Hck Hsync]. split; [exact Hck|].
      intros Hp. apply Hsync. unfold settled_on in *. cbn [pending] in Hp.
      now apply Forall_app in Hp.
    + intros [= <-]. split; [congruence|]. intros _. subst k.
      apply lookup_insert_eq.
    + intros Hc. destruct (Hs k c Hc) as [Hck Hsync]. split; [exact Hck|].
      intros Hp. rewrite lookup_insert_ne by exact Hkey. now apply Hsync.
  - destruct (pending sys !! n) as [[command params]|] eqn:En; [|exact Hs].
    destruct (CircuitInstancesDictionary (registry sys) !! Command.key command)
      as [c0|] eqn:Hc0.
    + destruct (execute_settle_registry command params settled now (registry sys)
                  c0 Hc0 (Hwf _ _ Hc0)) as (c1 & out & ev & Hk & ->).
      intros k c. cbn [fst registry CircuitInstancesDictionary
                       CircuitDataDictionary].
      rewrite !lookup_insert. case_decide as Hkey.
      * intros [= <-]. split; [congruence | reflexivity].
      * intros Hc. destruct (Hs k c Hc) as [Hck Hsync]. split; [exact Hck|].
        intros Hp. apply Hsync. unfold settled_on in *. cbn [pending] in Hp.
        apply (Forall_undelete _ _ n (command, params) En); [exact Hkey|exact Hp].
    + unfold execute_settle. rewrite Hc0. exact Hs.
Qed.

Lemma run_in_sync steps : forall sys,
  system_in_sync sys -> system_in_sync (fst (run steps sys)).
Proof.
  induction steps as [|s steps IH]; intros sys Hs; [exact Hs|].
  simpl. pose proof (step_in_sync s sys Hs) as H1.
  destruct (step s sys) as [sys1 ev]. specialize (IH sys1 H1).
  now destruct (run steps sys1).
Qed.

Lemma initial_in_sync : system_in_sync initial.
Proof. intros k c. simpl. rewrite lookup_empty. discriminate. Qed.

(** C2, as the code has it. An existing circuit goes from OPEN to HALF_OPEN
    in [reloadStats], called by [getInstance], and nowhere else. With an
    entry in the data dictionary, the counters are reloaded from it; then,
    the expiry being a time other than 0: if the [ongoingSleepWindow] of the
    instance itself is set and lies before now, the expiry is cleared and
    the state is HALF_OPEN; if it is not set, or does not lie before now,
    state and expiry are those of the entry. Without an entry the instance
    is left alone. In every state a process can reach, with calls that
    overlap or not, an instance with no callback on its key still to run
    agrees with its entry, so that the expiry tested is the persisted one;
    so it is between sequential [execute]s. On an OPEN instance
    [registerCall] and [registerErrorAndCalculateMetrics] leave OPEN,
    [markSuccess] gives CLOSED, and no callback of [execute] leaves the
    instance in another state than OPEN. *)
Theorem C2_half_open_only_on_reload cfg key rvt thr sw now r c :
  CircuitInstancesDictionary r !! key = Some c ->
  let c' := fst (getInstance cfg key rvt thr sw now r) in
  match CircuitDataDictionary r !! Circuit.commandkey c with
  | None => c' = c
  | Some st =>
      Circuit.totalCalls c' = Circuit.s_totalCalls st
      /\ Circuit.errorCalls c' = Circuit.s_errorCalls st
      /\ ((exists t, Circuit.ongoingSleepWindow c = Some t /\ t <> 0 /\ t < now) ->
          Circuit.state c' = HALF_OPEN /\ Circuit.ongoingSleepWindow c' = None)
      /\ ((Circuit.ongoingSleepWindow c = None
           \/ exists t, Circuit.ongoingSleepWindow c = Some t
                        /\ t <> 0 /\ now <= t) ->
          Circuit.state c' = Circuit.s_state st
          /\ Circuit.ongoingSleepWindow c' = Circuit.s_ongoingSleepWindow st)
  end
  /\ (forall steps,
        r = registry (fst (run steps initial)) ->
        settled_on (fst (run steps initial)) key ->
        Circuit.commandkey c = key
        /\ CircuitDataDictionary r !! key
           = Some (Circuit.mk_stats (Circuit.totalCalls c) (Circuit.errorCalls c)
                     (Circuit.ongoingSleepWindow c) (Circuit.state c)))
  /\ (sequential r ->
      Circuit.commandkey c = key
      /\ CircuitDataDictionary r !! key = Some (Circuit.snapshot c))
  /\ (Circuit.state c = OPEN ->
      Circuit.state (Circuit.registerCall c) = OPEN
      /\ Circuit.state (Circuit.markSuccess c) = CLOSED
      /\ (forall t, Circuit.state (Circuit.registerError c t) = OPEN)
      /\ (forall command params settled t,
            match execute_settle command params settled t r with
            | Some (r', _, _) =>
                exists c'', CircuitInstancesDictionary r' !! key = Some c''
                            /\ Circuit.state c'' = OPEN
            | None => True
            end)).
Proof.
  intros Hc c'. subst c'. rewrite (getInstance_existing _ _ _ _ _ _ _ _ Hc).
  simpl. split; [|split; [|split]].
  - unfold Circuit.reloadStats.
    destruct (CircuitDataDictionary r !! Circuit.commandkey c) as [st|];
      [|reflexivity].
    match goal with
    | |- context [Circuit.isSleepWindowOver ?x now] =>
        pose proof (isSleepWindowOver_spec x now) as Hspec;
        destruct (Circuit.isSleepWindowOver x now)
    end; simpl in *.
    + split; [reflexivity|]. split; [reflexivity|]. split.
      * intros _. split; reflexivity.
      * intros Hn. exfalso.
        destruct (proj1 Hspec eq_refl) as (t & Ht & _ & Hlt).
        destruct Hn as [Hn | (t' & Ht' & _ & Hge)]; [congruence|].
        rewrite Ht in Ht'. injection Ht' as <-. lia.
    + split; [reflexivity|]. split; [reflexivity|]. split.
      * intros He. apply Hspec in He. discriminate.
      * intros _. split; reflexivity.
  - intros steps -> Hp.
    destruct (run_in_sync steps initial initial_in_sync key c Hc) as [H1 H2].
    split; [exact H1 | exact (H2 Hp)].
  - intros Hs. now apply (sequential_in_sync r Hs).
  - intros Ho. split; [exact Ho|]. split; [reflexivity|]. split.
    + intros t. unfold Circuit.registerError. now destruct (Circuit.tripped _).
    + intros command params settled t. unfold execute_settle.
      destruct (CircuitInstancesDictionary r !! Command.key command)
        as [c0|] eqn:E; [|exact I].
      pose proof (settle_keeps_open command params settled t c0
                    (CircuitDataDictionary r)) as Hk.
      destruct (settle _ _ _ _ _ _) as [[[c1 d1] out] ev]. simpl.
      destruct (decide (Command.key command = key)) as [Hkey|Hne].
      * rewrite Hkey in *. rewrite Hc in E. injection E as <-.
        exists c1. split; [apply lookup_insert_eq | now apply Hk].
      * exists c. split; [now rewrite lookup_insert_ne | exact Ho].
Qed.

(** C2 as stated fails when calls overlap. With the probe of ["k"] pending,
    the entry of the data dictionary still holds the expiry 12 and the state
    OPEN, while the instance has no expiry and is HALF_OPEN. A lookup at time
    21 finds the persisted expiry passed, yet does not clear it and does not
    go to HALF_OPEN: it restores OPEN and 12 from the entry, and the call is
    rejected at the gate. *)
Lemma C2_persisted_expiry_passed_yet_restored :
  let r := registry Sample.probe_pending in
  CircuitDataDictionary r !! "k" = Some (Circuit.mk_stats 1 1 (Some 12) OPEN)
  /\ 12 < 21
  /\ Circuit.state
       (fst (getInstance IndividualConfig.unset "k" 1 (JS.of_Z 50) 10 21 r))
     = OPEN
  /\ Circuit.ongoingSleepWindow
       (fst (getInstance IndividualConfig.unset "k" 1 (JS.of_Z 50) 10 21 r))
     = Some 12
  /\ count (isActionCalled "k")
       (snd (step (Call IndividualConfig.unset (Sample.command "k" 1 50 10) [] 21)
                  Sample.probe_pending)) = 0%nat.
Proof. vm_compute. repeat split. Qed.

(** ** The scenario with 80 calls of request volume *)

Arguments JS.ge : simpl never.
Arguments Circuit.errorPercentage : simpl never.
Arguments JS.of_Z : simpl never.

Lemma executeAll_app l1 l2 r :
  executeAll (l1 ++ l2) r =
  (fst (executeAll l2 (fst (executeAll l1 r))),
   snd (executeAll l1 r) ++ snd (executeAll l2 (fst (executeAll l1 r)))).
Proof.
  revert r. induction l1 as [|i l1 IH]; intros r; simpl.
  - now destruct (executeAll l2 r).
  - destruct (invoke i r) as [[r1 out] ev]. rewrite IH.
    now destruct (executeAll l1 r1).
Qed.

Lemma percentage_80_of_80 :
  JS.ge (Circuit.errorPercentage 80 80) (JS.of_Z 50) = true.
Proof. vm_compute. reflexivity. Qed.

(** [execute] on a command with a fallback and neither handler, filter nor
    log, when the action is called and fails, and when the gate rejects. *)
Lemma execute_plain_failure cfg command params now e now' r f :
  Command.errorHandler command = None ->
  Command.errorFilter command = None ->
  Command.isLogEnable command = false ->
  Command.fallback command = Some f ->
  let c1 := admitted_circuit cfg command now r in
  Circuit.commandkey c1 = Command.key command ->
  Circuit.allowExecution c1 = true ->
  let c2 := Circuit.registerError c1 now' in
  let e' := if isTimeoutError e then GatewayTimeout e else e in
  execute cfg command params now (Rejected e) now' r
  = (mkRegistry
       (<[Command.key command := Circuit.snapshot c2]> (CircuitDataDictionary r))
       (<[Command.key command := c2]> (CircuitInstancesDictionary r)),
     f (Some e') params,
     [ ActionCalled (Command.key command) params;
       DataDictionarySet (Command.key command) (Circuit.snapshot c2);
       FallbackCalled (Command.key command) (Some e') params ]).
Proof.
  intros Hh Hf Hl Hfb c1 Hk Ha c2 e'. subst c2 c1.
  unfold admitted_circuit in *. unfold execute.
  pose proof (getInstance_stores cfg (Command.key command)
                (Command.requestVolumeThreshold command)
                (Command.errorThreshold command)
                (Command.sleepWindowInMillis command) now r) as Hst.
  destruct (getInstance _ _ _ _ _ _ _) as [c0 r1]. simpl in Hk, Ha, Hst |- *.
  subst r1. rewrite Ha.
  unfold onRejected, classify, resumeWithFallback,
    Circuit.registerErrorAndCalculateMetrics, Circuit.finishWorkflow.
  rewrite Hh, Hf, Hl, Hfb. simpl.
  rewrite registerError_commandkey. simpl. rewrite Hk.
  now rewrite !insert_insert_eq.
Qed.

Lemma execute_plain_rejection cfg command params now settled now' r f :
  Command.fallback command = Some f ->
  let c1 := admitted_circuit cfg command now r in
  Circuit.commandkey c1 = Command.key command ->
  Circuit.allowExecution c1 = false ->
  execute cfg command params now settled now' r
  = (mkRegistry
       (<[Command.key command := Circuit.snapshot c1]> (CircuitDataDictionary r))
       (<[Command.key command := c1]> (CircuitInstancesDictionary r)),
     f None params,
     [ DataDictionarySet (Command.key command) (Circuit.snapshot c1);
       FallbackCalled (Command.key command) None params ]).
Proof.
  intros Hfb c1 Hk Ha. subst c1.
  unfold admitted_circuit in *. unfold execute.
  pose proof (getInstance_stores cfg (Command.key command)
                (Command.requestVolumeThreshold command)
                (Command.errorThreshold command)
                (Command.sleepWindowInMillis command) now r) as Hst.
  destruct (getInstance _ _ _ _ _ _ _) as [c0 r1]. simpl in Hk, Ha, Hst |- *.
  subst r1. rewrite Ha.
  unfold resumeWithFallback, commit, store, Circuit.finishWorkflow.
  rewrite Hfb. simpl. rewrite Hk.
  now rewrite !insert_insert_eq.
Qed.

Lemma reloadStats_in_sync c now :
  Circuit.isSleepWindowOver c now = false ->
  Circuit.reloadStats c (Some (Circuit.snapshot c)) now = c.
Proof.
  intros H. unfold Circuit.reloadStats. simpl.
  destruct c as [k st tot err rvt thr sw osw fo]. simpl in *.
  unfold Circuit.isSleepWindowOver in *. simpl in *. now rewrite H.
Qed.

Lemma admitted_circuit_holds cfg command now r c :
  Circuit.commandkey c = Command.key command ->
  holds r c ->
  Circuit.isSleepWindowOver c now = false ->
  admitted_circuit cfg command now r = Circuit.registerCall c.
Proof.
  intros Hk [Hi Hd] Ho. unfold admitted_circuit.
  rewrite Hk in Hi.
  rewrite (getInstance_existing _ _ _ _ _ _ _ _ Hi). simpl.
  rewrite Hd. now rewrite reloadStats_in_sync.
Qed.

Lemma holds_insert r c :
  holds (mkRegistry (<[Circuit.commandkey c := Circuit.snapshot c]>
                       (CircuitDataDictionary r))
                    (<[Circuit.commandkey c := c]>
                       (CircuitInstancesDictionary r))) c.
Proof. unfold holds. simpl. now rewrite !lookup_insert_eq. Qed.

Section Scenario_calls.

Variables (cfg : IndividualConfig.t) (key : string) (sw : Z).

Hypothesis no_volume_override :
  IndividualConfig.requestVolumeThreshold cfg key = None.
Hypothesis no_percentage_override :
  IndividualConfig.errorPercentageThreshold cfg key = None.
Hypothesis no_window_override :
  IndividualConfig.sleepWindowInMilliseconds cfg key = None.
Hypothesis not_forced : IndividualConfig.forceOpen cfg key = false.

Lemma first_call r x :
  CircuitInstancesDictionary r !! key = None ->
  exists r',
    invoke (Scenario.call cfg key sw x) r
    = (r', fst (Scenario.failed key (Scenario.circuit key sw CLOSED 1 1 None) (snd (fst x))),
           snd (Scenario.failed key (Scenario.circuit key sw CLOSED 1 1 None) (snd (fst x))))
    /\ holds r' (Scenario.circuit key sw CLOSED 1 1 None).
Proof.
  intros Hfresh. unfold invoke. simpl.
  rewrite (execute_plain_failure cfg (Scenario.command key sw) [] _ _ _ r
             Sample.fallback); try reflexivity.
  - simpl. unfold admitted_circuit. simpl.
    rewrite (getInstance_fresh _ _ _ _ _ _ _ Hfresh). simpl.
    unfold Circuit.new.
    rewrite no_volume_override, no_percentage_override, no_window_override,
      not_forced. simpl.
    unfold Circuit.registerError, Circuit.tripped. simpl.
    eexists. split; [reflexivity|].
    apply (holds_insert r (Scenario.circuit key sw CLOSED 1 1 None)).
  - unfold admitted_circuit. simpl.
    now rewrite (getInstance_fresh _ _ _ _ _ _ _ Hfresh).
  - unfold admitted_circuit. simpl.
    rewrite (getInstance_fresh _ _ _ _ _ _ _ Hfresh). simpl.
    unfold Circuit.allowExecution. simpl. now rewrite not_forced.
Qed.

Lemma closed_call r x k :
  holds r (Scenario.circuit key sw CLOSED k k None) ->
  k + 1 < 80 ->
  exists r',
    invoke (Scenario.call cfg key sw x) r
    = (r',
       fst (Scenario.failed key (Scenario.circuit key sw CLOSED (k + 1) (k + 1) None)
              (snd (fst x))),
       snd (Scenario.failed key (Scenario.circuit key sw CLOSED (k + 1) (k + 1) None)
              (snd (fst x))))
    /\ holds r' (Scenario.circuit key sw CLOSED (k + 1) (k + 1) None).
Proof.
  intros Hh Hk. unfold invoke. simpl.
  assert (Ha : admitted_circuit cfg (Scenario.command key sw) (fst (fst x)) r
               = Scenario.circuit key sw CLOSED (k + 1) k None).
  { now rewrite (admitted_circuit_holds cfg (Scenario.command key sw) _ r _
                   (eq_refl : Circuit.commandkey (Scenario.circuit key sw _ _ _ _) = _) Hh). }
  rewrite (execute_plain_failure cfg (Scenario.command key sw) [] _ _ _ r
             Sample.fallback); try reflexivity; rewrite Ha; try reflexivity.
  simpl. unfold Circuit.registerError, Circuit.tripped. simpl.
  replace (80 <=? k + 1) with false by (symmetry; apply Z.leb_gt; lia).
  simpl. eexists. split; [reflexivity|].
  apply (holds_insert r (Scenario.circuit key sw CLOSED (k + 1) (k + 1) None)).
Qed.

Lemma tripping_call r x :
  holds r (Scenario.circuit key sw CLOSED 79 79 None) ->
  exists r',
    invoke (Scenario.call cfg key sw x) r
    = (r',
       fst (Scenario.failed key (Scenario.circuit key sw OPEN 80 80 (Some (snd x + sw)))
              (snd (fst x))),
       snd (Scenario.failed key (Scenario.circuit key sw OPEN 80 80 (Some (snd x + sw)))
              (snd (fst x))))
    /\ holds r' (Scenario.circuit key sw OPEN 80 80 (Some (snd x + sw))).
Proof.
  intros Hh. unfold invoke. simpl.
  assert (Ha : admitted_circuit cfg (Scenario.command key sw) (fst (fst x)) r
               = Scenario.circuit key sw CLOSED 80 79 None).
  { now rewrite (admitted_circuit_holds cfg (Scenario.command key sw) _ r _
                   (eq_refl : Circuit.commandkey (Scenario.circuit key sw _ _ _ _) = _) Hh). }
  rewrite (execute_plain_failure cfg (Scenario.command key sw) [] _ _ _ r
             Sample.fallback); try reflexivity; rewrite Ha; try reflexivity.
  simpl. unfold Circuit.registerError, Circuit.tripped. simpl.
  rewrite ?percentage_80_of_80.
  simpl. eexists. split; [reflexivity|].
  apply (holds_insert r
           (Scenario.circuit key sw OPEN 80 80 (Some (snd x + sw)))).
Qed.

Lemma open_call r x total errors expiry :
  holds r (Scenario.circuit key sw OPEN total errors (Some expiry)) ->
  fst (fst x) <= expiry ->
  exists r',
    invoke (Scenario.call cfg key sw x) r
    = (r',
       fst (Scenario.skipped key (Scenario.circuit key sw OPEN (total + 1) errors
                       (Some expiry))),
       snd (Scenario.skipped key (Scenario.circuit key sw OPEN (total + 1) errors
                       (Some expiry))))
    /\ holds r' (Scenario.circuit key sw OPEN (total + 1) errors
                   (Some expiry)).
Proof.
  intros Hh Hk. unfold invoke. simpl.
  assert (Ha : admitted_circuit cfg (Scenario.command key sw) (fst (fst x)) r
               = Scenario.circuit key sw OPEN (total + 1) errors
                   (Some expiry)).
  { rewrite (admitted_circuit_holds cfg (Scenario.command key sw) _ r _
               (eq_refl : Circuit.commandkey (Scenario.circuit key sw _ _ _ _) = _) Hh);
      [reflexivity|].
    unfold Circuit.isSleepWindowOver. simpl.
    replace (expiry <? fst (fst x)) with false
      by (symmetry; apply Z.ltb_ge; lia).
    apply andb_false_r. }
  rewrite (execute_plain_rejection cfg (Scenario.command key sw) [] _ _ _ r
             Sample.fallback); try reflexivity; rewrite Ha; try reflexivity.
  simpl. eexists. split; [reflexivity|].
  apply (holds_insert r
           (Scenario.circuit key sw OPEN (total + 1) errors (Some expiry))).
Qed.

Lemma failed_counts c e :
  fst (Scenario.failed key c e) = Resolved (VString "FALLBACK")
  /\ Scenario.actions key (Scenario.failed key c e) = 1%nat
  /\ Scenario.fallbacks key (Scenario.failed key c e) = 1%nat.
Proof.
  unfold Scenario.actions, Scenario.fallbacks, count. simpl.
  now rewrite String.eqb_refl.
Qed.

Lemma skipped_counts c :
  fst (Scenario.skipped key c) = Resolved (VString "FALLBACK")
  /\ Scenario.actions key (Scenario.skipped key c) = 0%nat
  /\ Scenario.fallbacks key (Scenario.skipped key c) = 1%nat.
Proof.
  unfold Scenario.actions, Scenario.fallbacks, count. simpl.
  now rewrite String.eqb_refl.
Qed.

(** While the volume stays under 80 every call reaches the action. *)
Lemma closed_phase l : forall r k,
  holds r (Scenario.circuit key sw CLOSED k k None) ->
  k + Z.of_nat (length l) < 80 ->
  holds (fst (executeAll (map (Scenario.call cfg key sw) l) r))
        (Scenario.circuit key sw CLOSED (k + Z.of_nat (length l))
           (k + Z.of_nat (length l)) None)
  /\ Forall (fun y => fst y = Resolved (VString "FALLBACK")
                      /\ Scenario.actions key y = 1%nat
                      /\ Scenario.fallbacks key y = 1%nat)
            (snd (executeAll (map (Scenario.call cfg key sw) l) r))
  /\ length (snd (executeAll (map (Scenario.call cfg key sw) l) r))
     = length l.
Proof.
  induction l as [|x l IH]; intros r k Hh Hk.
  - simpl. rewrite Z.add_0_r. auto.
  - cbn [map executeAll]. cbn [length] in Hk.
    destruct (closed_call r x k Hh ltac:(lia)) as (r1 & -> & Hh1).
    destruct (IH r1 (k + 1) Hh1 ltac:(lia)) as (H1 & H2 & H3).
    destruct (executeAll _ r1) as [r2 calls]. cbn [fst snd length] in *.
    replace (k + Z.of_nat (S (length l)))
      with (k + 1 + Z.of_nat (length l)) by lia.
    split; [exact H1|]. split; [|now rewrite H3].
    constructor; [apply failed_counts | exact H2].
Qed.

(** Once open, and until the expiry, every call is rejected at the gate. *)
Lemma open_phase l : forall r total errors expiry,
  holds r (Scenario.circuit key sw OPEN total errors (Some expiry)) ->
  Forall (fun x => fst (fst x) <= expiry) l ->
  holds (fst (executeAll (map (Scenario.call cfg key sw) l) r))
        (Scenario.circuit key sw OPEN (total + Z.of_nat (length l)) errors
           (Some expiry))
  /\ Forall (fun y => fst y = Resolved (VString "FALLBACK")
                      /\ Scenario.actions key y = 0%nat
                      /\ Scenario.fallbacks key y = 1%nat)
            (snd (executeAll (map (Scenario.call cfg key sw) l) r))
  /\ length (snd (executeAll (map (Scenario.call cfg key sw) l) r))
     = length l.
Proof.
  induction l as [|x l IH]; intros r total errors expiry Hh Hl.
  - simpl. rewrite Z.add_0_r. auto.
  - cbn [map executeAll]. inversion Hl as [|? ? Hx Hl']; subst.
    destruct (open_call r x total errors expiry Hh Hx) as (r1 & -> & Hh1).
    destruct (IH r1 (total + 1) errors expiry Hh1 Hl') as (H1 & H2 & H3).
    destruct (executeAll _ r1) as [r2 calls]. cbn [fst snd length] in *.
    replace (total + Z.of_nat (S (length l)))
      with (total + 1 + Z.of_nat (length l)) by lia.
    split; [exact H1|]. split; [|now rewrite H3].
    constructor; [apply skipped_counts | exact H2].
Qed.

End Scenario_calls.

Lemma map_constant {A B} (f : A -> B) (v : B) (l : list A) :
  Forall (fun y => f y = v) l -> map f l = repeat v (length l).
Proof. induction 1 as [|y l Hy _ IH]; simpl; congruence. Qed.

Lemma count_events p calls :
  count p (events calls) = list_sum (map (fun y => count p (snd y)) calls).
Proof.
  unfold events. induction calls as [|y calls IH]; simpl; [reflexivity|].
  now rewrite count_app, IH.
Qed.

(** C3, with what it leaves unsaid. The key has no instance yet and no
    override in the environment; the command has a request volume threshold
    of 80, an error threshold of 50 percent, a sleep window [sw] and the
    fallback that resolves to 'FALLBACK'; the action rejects at every call.
    If none of the calls 81 to 100 starts after the expiry set by the 80th
    failure (the clock of its callback plus [sw]; the test takes 24 hours),
    then each of the calls 1 to 80 calls the action once, none of the calls
    81 to 100 does, every call calls the fallback once and resolves to
    'FALLBACK': 80 action calls and 100 fallback calls. The circuit is CLOSED
    after 79 calls, OPEN after 80 and still OPEN after 100. *)
Theorem C3_eighty_actions_hundred_fallbacks cfg key sw r first x80 rest :
  IndividualConfig.requestVolumeThreshold cfg key = None ->
  IndividualConfig.errorPercentageThreshold cfg key = None ->
  IndividualConfig.sleepWindowInMilliseconds cfg key = None ->
  IndividualConfig.forceOpen cfg key = false ->
  CircuitInstancesDictionary r !! key = None ->
  length first = 79%nat ->
  length rest = 20%nat ->
  Forall (fun x => fst (fst x) <= snd x80 + sw) rest ->
  let run l := executeAll (map (Scenario.call cfg key sw) l) r in
  let calls := snd (run (first ++ x80 :: rest)) in
  map fst calls = repeat (Resolved (VString "FALLBACK")) 100
  /\ map (Scenario.actions key) calls = repeat 1%nat 80 ++ repeat 0%nat 20
  /\ map (Scenario.fallbacks key) calls = repeat 1%nat 100
  /\ count (isActionCalled key) (events calls) = 80%nat
  /\ count (isFallbackCalled key) (events calls) = 100%nat
  /\ holds (fst (run first)) (Scenario.circuit key sw CLOSED 79 79 None)
  /\ holds (fst (run (first ++ [x80])))
          (Scenario.circuit key sw OPEN 80 80 (Some (snd x80 + sw)))
  /\ holds (fst (run (first ++ x80 :: rest)))
          (Scenario.circuit key sw OPEN 100 80 (Some (snd x80 + sw))).
Proof.
  intros Hv Hp Hw Hf Hfresh Hlen1 Hlen3 Hclock run calls.
  destruct first as [|x1 first']; [discriminate|].
  injection Hlen1 as Hlen1.
  (* the first call builds the circuit *)
  destruct (first_call cfg key sw Hv Hp Hw Hf r x1 Hfresh) as (r1 & E1 & Hh1).
  (* calls 2 to 79 *)
  destruct (closed_phase cfg key sw first' r1 1 Hh1 ltac:(lia))
    as (Hh79 & Hc79 & Hn79).
  rewrite Hlen1 in Hh79. change (1 + Z.of_nat 78) with 79 in Hh79.
  set (r79 := fst (executeAll (map (Scenario.call cfg key sw) first') r1)) in *.
  set (calls79 := snd (executeAll (map (Scenario.call cfg key sw) first') r1))
    in *.
  assert (Efirst : run (x1 :: first')
                   = (r79, Scenario.failed key
                             (Scenario.circuit key sw CLOSED 1 1 None)
                             (snd (fst x1)) :: calls79)).
  { subst run r79 calls79. cbn [map executeAll]. rewrite E1.
    now destruct (executeAll _ r1). }
  (* call 80 opens the circuit *)
  destruct (tripping_call cfg key sw r79 x80 Hh79) as (r80 & E80 & Hh80).
  (* calls 81 to 100 *)
  destruct (open_phase cfg key sw rest r80 80 80 (snd x80 + sw) Hh80 Hclock)
    as (Hh100 & Hc100 & Hn100).
  rewrite Hlen3 in Hh100. change (80 + Z.of_nat 20) with 100 in Hh100.
  set (r100 := fst (executeAll (map (Scenario.call cfg key sw) rest) r80)) in *.
  set (calls100 := snd (executeAll (map (Scenario.call cfg key sw) rest) r80))
    in *.
  assert (Etail : executeAll (map (Scenario.call cfg key sw) (x80 :: rest)) r79
                  = (r100, Scenario.failed key
                             (Scenario.circuit key sw OPEN 80 80
                                (Some (snd x80 + sw)))
                             (snd (fst x80)) :: calls100)).
  { subst r100 calls100. cbn [map executeAll]. rewrite E80.
    now destruct (executeAll _ r80). }
  assert (Eall : run ((x1 :: first') ++ x80 :: rest)
                 = (r100,
                    (Scenario.failed key
                       (Scenario.circuit key sw CLOSED 1 1 None)
                       (snd (fst x1)) :: calls79)
                    ++ Scenario.failed key
                         (Scenario.circuit key sw OPEN 80 80
                            (Some (snd x80 + sw)))
                         (snd (fst x80)) :: calls100)).
  { unfold run in *. rewrite map_app, executeAll_app, Efirst. cbn [fst snd].
    now rewrite Etail. }
  assert (E80' : run ((x1 :: first') ++ [x80])
                 = (r80,
                    (Scenario.failed key
                       (Scenario.circuit key sw CLOSED 1 1 None)
                       (snd (fst x1)) :: calls79)
                    ++ [Scenario.failed key
                          (Scenario.circuit key sw OPEN 80 80
                             (Some (snd x80 + sw)))
                          (snd (fst x80))])).
  { unfold run in *. rewrite map_app, executeAll_app, Efirst. cbn [fst snd].
    cbn [map executeAll]. now rewrite E80. }
  assert (Hout : map fst calls = repeat (Resolved (VString "FALLBACK")) 100).
  { subst calls. rewrite Eall. cbn [snd]. rewrite map_app. cbn [map].
    rewrite (map_constant fst (Resolved (VString "FALLBACK")) calls79),
            (map_constant fst (Resolved (VString "FALLBACK")) calls100).
    - rewrite Hn79, Hn100, Hlen1, Hlen3. reflexivity.
    - eapply Forall_impl; [exact Hc100 | intros y (Ha & Hb & Hc); assumption].
    - eapply Forall_impl; [exact Hc79 | intros y (Ha & Hb & Hc); assumption]. }
  assert (Hact : map (Scenario.actions key) calls
                 = repeat 1%nat 80 ++ repeat 0%nat 20).
  { subst calls. rewrite Eall. cbn [snd]. rewrite map_app. cbn [map].
    rewrite (map_constant (Scenario.actions key) 1%nat calls79),
            (map_constant (Scenario.actions key) 0%nat calls100).
    - rewrite Hn79, Hn100, Hlen1, Hlen3.
      rewrite !(proj1 (proj2 (failed_counts key _ _))). reflexivity.
    - eapply Forall_impl; [exact Hc100 | intros y (Ha & Hb & Hc); assumption].
    - eapply Forall_impl; [exact Hc79 | intros y (Ha & Hb & Hc); assumption]. }
  assert (Hfb : map (Scenario.fallbacks key) calls = repeat 1%nat 100).
  { subst calls. rewrite Eall. cbn [snd]. rewrite map_app. cbn [map].
    rewrite (map_constant (Scenario.fallbacks key) 1%nat calls79),
            (map_constant (Scenario.fallbacks key) 1%nat calls100).
    - rewrite Hn79, Hn100, Hlen1, Hlen3.
      rewrite !(proj2 (proj2 (failed_counts key _ _))). reflexivity.
    - eapply Forall_impl; [exact Hc100 | intros y (Ha & Hb & Hc); assumption].
    - eapply Forall_impl; [exact Hc79 | intros y (Ha & Hb & Hc); assumption]. }
  split; [exact Hout|]. split; [exact Hact|]. split; [exact Hfb|].
  split.
  { rewrite count_events.
    change (list_sum (map (Scenario.actions key) calls) = 80%nat).
    rewrite Hact. reflexivity. }
  split.
  { rewrite count_events.
    change (list_sum (map (Scenario.fallbacks key) calls) = 100%nat).
    rewrite Hfb. reflexivity. }
  split; [now rewrite Efirst|]. split; [now rewrite E80' | now rewrite Eall].
Qed.

(** C3 as stated fails: with a sleep window of 500 ms and a call every
    100 ms, the 80th failure (at 8001) opens the circuit until 8501, the
    calls 81 to 85 are rejected, and the 86th call (at 8600) finds the
    window over and calls the action again; so do the 92nd and the 98th:
    83 action calls. *)
Lemma C3_short_sleep_window_calls_the_action_again :
  let calls := snd (executeAll Scenario.spaced empty_registry) in
  length calls = 100%nat
  /\ count (isActionCalled "test_2") (events calls) = 83%nat
  /\ count (isFallbackCalled "test_2") (events calls) = 100%nat
  /\ (Scenario.actions "test_2" <$> calls !! 85%nat) = Some 1%nat.
Proof. vm_compute. repeat split. Qed.

(** ** The theorems at sample inputs *)

Lemma well_keyed_empty : well_keyed empty_registry.
Proof. intros k c H. simpl in H. rewrite lookup_empty in H. discriminate H. Qed.

Lemma C1_failure_opens_iff_thresholds_witness :
  Circuit.allowExecution
    (admitted_circuit IndividualConfig.unset Sample.halving 3
                      Sample.succeeded_once) = true
  /\ Command.errorFilter Sample.halving = None
  /\ exists c',
       CircuitInstancesDictionary
         (fst (fst (execute IndividualConfig.unset Sample.halving [] 3
                            (Rejected (UserError "FAIL")) 4
                            Sample.succeeded_once)))
         !! "k" = Some c'
       /\ Circuit.errorCalls c' = 1
       /\ Circuit.totalCalls c' = 2
       /\ Circuit.state c' = OPEN
       /\ Circuit.ongoingSleepWindow c' = Some 14.
Proof.
  split; [reflexivity|]. split; [reflexivity|].
  destruct (C1_failure_opens_iff_thresholds IndividualConfig.unset
              Sample.halving [] 3 (UserError "FAIL") 4 Sample.succeeded_once
              eq_refl eq_refl)
    as (c' & Hc & He & Ht & Hiff & Hexp & _).
  assert (Hopen : Circuit.state c' = OPEN).
  { apply Hiff. rewrite He, Ht.
    split; [vm_compute; discriminate | vm_compute; reflexivity]. }
  exists c'. split; [exact Hc|]. split; [exact He|]. split; [exact Ht|].
  split; [exact Hopen | exact (Hexp Hopen)].
Defined.

Lemma C4_filtered_error_bypasses_breaker_witness :
  well_keyed empty_registry
  /\ Circuit.allowExecution
       (admitted_circuit IndividualConfig.unset Sample.sieving 1
                         empty_registry) = true
  /\ Command.errorFilter Sample.sieving = Some (fun _ _ => true)
  /\ outcome_of (execute IndividualConfig.unset Sample.sieving [] 1
                         (Rejected TimeoutError) 2 empty_registry)
     = Rejected (UserError "New Error")
  /\ events_of (execute IndividualConfig.unset Sample.sieving [] 1
                        (Rejected TimeoutError) 2 empty_registry)
     = [ ActionCalled "k" [];
         ErrorHandlerCalled "k" (GatewayTimeout TimeoutError);
         ErrorFilterCalled "k" (UserError "New Error") [];
         DataDictionarySet "k" (Circuit.mk_stats 1 0 None CLOSED) ]
  /\ CircuitDataDictionary
       (registry_of (execute IndividualConfig.unset Sample.sieving [] 1
                             (Rejected TimeoutError) 2 empty_registry))
       !! "k"
     = Some (Circuit.mk_stats 1 0 None CLOSED).
Proof.
  split; [exact well_keyed_empty|]. split; [reflexivity|].
  split; [reflexivity|].
  destruct (C4_filtered_error_bypasses_breaker IndividualConfig.unset
              Sample.sieving [] 1 TimeoutError 2 empty_registry
              (fun _ _ => true) well_keyed_empty eq_refl eq_refl eq_refl)
    as (Hout & Hev & _ & _ & _ & Hdata).
  split; [exact Hout|]. split; [exact Hev | exact Hdata].
Defined.

Lemma C5_handler_is_given_the_gateway_timeout_witness :
  well_keyed empty_registry
  /\ Circuit.allowExecution
       (admitted_circuit IndividualConfig.unset Sample.substituting 1
                         empty_registry) = true
  /\ events_of (execute IndividualConfig.unset Sample.substituting [] 1
                        (Rejected TimeoutError) 2 empty_registry)
     = [ ActionCalled "k" [];
         ErrorHandlerCalled "k" (GatewayTimeout TimeoutError);
         ErrorFilterCalled "k" (UserError "New Error") [];
         DataDictionarySet "k" (Circuit.mk_stats 1 1 None CLOSED);
         LoggerWarn (UserError "New Error") ["circuit-breaker"; "k"] None;
         FallbackCalled "k" (Some (UserError "New Error")) [] ]
  /\ outcome_of (execute IndividualConfig.unset Sample.substituting [] 1
                         (Rejected TimeoutError) 2 empty_registry)
     = Resolved (VString "FALLBACK").
Proof.
  split; [exact well_keyed_empty|]. split; [reflexivity|].
  exact (C5_handler_is_given_the_gateway_timeout IndividualConfig.unset
           Sample.substituting [] 1 TimeoutError 2 empty_registry
           well_keyed_empty eq_refl).
Defined.


Lemma sequential_opened : sequential Sample.opened.
Proof.
  exact (sequential_execute
           (mkInvocation IndividualConfig.unset Sample.failing_command [] 1
                         (Rejected (UserError "FAIL")) 2)
           empty_registry sequential_empty).
Qed.

Lemma C8_errorCalls_le_totalCalls_witness :
  sequential Sample.opened
  /\ (forall k c, CircuitInstancesDictionary Sample.opened !! k = Some c ->
        Circuit.errorCalls c <= Circuit.totalCalls c)
  /\ (forall k s, CircuitDataDictionary Sample.opened !! k = Some s ->
        Circuit.s_errorCalls s <= Circuit.s_totalCalls s).
Proof.
  split; [exact sequential_opened|].
  destruct (C8_errorCalls_le_totalCalls Sample.opened sequential_opened)
    as (Hi & Hd & _).
  split; [exact Hi | exact Hd].
Defined.

Lemma C10_thresholds_fixed_at_construction_witness :
  CircuitInstancesDictionary Sample.opened !! "k" = Some Sample.opened_circuit
  /\ forall steps waiting,
       exists c',
         CircuitInstancesDictionary
           (registry (fst (run steps (mkSystem Sample.opened waiting)))) !! "k"
         = Some c'
         /\ Circuit.requestVolumeThreshold c' = 1
         /\ Circuit.errorThreshold c' = JS.of_Z 50
         /\ Circuit.sleepWindowInMilliseconds c' = 10.
Proof.
  split; [reflexivity|].
  exact (proj1 (C10_thresholds_fixed_at_construction Sample.opened "k"
                  Sample.opened_circuit eq_refl)).
Defined.

Lemma C6_forceOpen_never_admits_never_changes_witness :
  (CircuitInstancesDictionary Sample.forced_registry !! "k"
   = Some Sample.forced_circuit
   /\ Circuit.forceOpen Sample.forced_circuit = true
   /\ forall steps waiting,
        count (isActionCalled "k")
              (snd (run steps (mkSystem Sample.forced_registry waiting)))
        = 0%nat
        /\ exists c',
             CircuitInstancesDictionary
               (registry (fst (run steps
                                 (mkSystem Sample.forced_registry waiting))))
               !! "k" = Some c'
             /\ Circuit.forceOpen c' = true)
  /\ (CircuitInstancesDictionary empty_registry !! "k" = None
      /\ Command.key (Sample.command "k" 80 50 1000) = "k"
      /\ IndividualConfig.forceOpen Sample.forced "k" = true
      /\ forall steps waiting,
           count (isActionCalled "k")
             (snd (run (Call Sample.forced (Sample.command "k" 80 50 1000) [] 1
                        :: steps)
                       (mkSystem empty_registry waiting))) = 0%nat).
Proof.
  split.
  - split; [reflexivity|]. split; [reflexivity|].
    exact (proj1 (C6_forceOpen_never_admits_never_changes Sample.forced_registry
                    "k") Sample.forced_circuit eq_refl eq_refl).
  - split; [reflexivity|]. split; [reflexivity|]. split; [reflexivity|].
    intros steps waiting.
    exact (proj1 (proj1 (proj2 (C6_forceOpen_never_admits_never_changes
                                  empty_registry "k"))
                    eq_refl Sample.forced (Sample.command "k" 80 50 1000) [] 1
                    eq_refl eq_refl steps waiting)).
Defined.

Lemma C2_half_open_only_on_reload_witness :
  (CircuitInstancesDictionary Sample.opened !! "k" = Some Sample.opened_circuit
   /\ Circuit.state
        (fst (getInstance IndividualConfig.unset "k" 1 (JS.of_Z 50) 10 20
                Sample.opened)) = HALF_OPEN
   /\ Circuit.ongoingSleepWindow
        (fst (getInstance IndividualConfig.unset "k" 1 (JS.of_Z 50) 10 20
                Sample.opened)) = None)
  /\ (CircuitInstancesDictionary
        (registry (fst (run Sample.overlapped initial))) !! "k"
      = Some Sample.overlapped_circuit
      /\ settled_on (fst (run Sample.overlapped initial)) "k"
      /\ CircuitDataDictionary
           (registry (fst (run Sample.overlapped initial))) !! "k"
         = Some (Circuit.mk_stats 2 2 (Some 14) OPEN)).
Proof.
  split.
  - split; [reflexivity|].
    pose proof (C2_half_open_only_on_reload IndividualConfig.unset "k" 1
                  (JS.of_Z 50) 10 20 Sample.opened Sample.opened_circuit eq_refl)
      as H.
    cbv zeta in H. destruct H as (H & _).
    change (CircuitDataDictionary Sample.opened
            !! Circuit.commandkey Sample.opened_circuit)
      with (Some (Circuit.mk_stats 1 1 (Some 12) OPEN)) in H.
    destruct H as (_ & _ & H & _).
    apply H. exists 12.
    split; [reflexivity | split; [discriminate | reflexivity]].
  - assert (Hc : CircuitInstancesDictionary
                   (registry (fst (run Sample.overlapped initial))) !! "k"
                 = Some Sample.overlapped_circuit) by (vm_compute; reflexivity).
    assert (Hp : settled_on (fst (run Sample.overlapped initial)) "k")
      by (unfold settled_on; vm_compute; constructor).
    split; [exact Hc|]. split; [exact Hp|].
    exact (proj2 (proj1 (proj2 (C2_half_open_only_on_reload
                                  IndividualConfig.unset "k" 1 (JS.of_Z 50) 10
                                  20 (registry (fst (run Sample.overlapped
                                                       initial)))
                                  Sample.overlapped_circuit Hc))
                    Sample.overlapped eq_refl Hp)).
Defined.

Lemma C3_eighty_actions_hundred_fallbacks_witness :
  IndividualConfig.requestVolumeThreshold IndividualConfig.unset "test_2" = None
  /\ IndividualConfig.errorPercentageThreshold IndividualConfig.unset "test_2"
     = None
  /\ IndividualConfig.sleepWindowInMilliseconds IndividualConfig.unset "test_2"
     = None
  /\ IndividualConfig.forceOpen IndividualConfig.unset "test_2" = false
  /\ CircuitInstancesDictionary empty_registry !! "test_2" = None
  /\ length (map Scenario.tick (seq 1 79)) = 79%nat
  /\ length (map Scenario.tick (seq 81 20)) = 20%nat
  /\ Forall (fun x => fst (fst x) <= snd (Scenario.tick 80)
                                     + Scenario.LONG_SLEEP_WINDOW)
            (map Scenario.tick (seq 81 20))
  /\ count (isActionCalled "test_2")
       (events
          (snd (executeAll
                  (map (Scenario.call IndividualConfig.unset "test_2"
                          Scenario.LONG_SLEEP_WINDOW)
                       (map Scenario.tick (seq 1 79)
                        ++ Scenario.tick 80 :: map Scenario.tick (seq 81 20)))
                  empty_registry))) = 80%nat
  /\ count (isFallbackCalled "test_2")
       (events
          (snd (executeAll
                  (map (Scenario.call IndividualConfig.unset "test_2"
                          Scenario.LONG_SLEEP_WINDOW)
                       (map Scenario.tick (seq 1 79)
                        ++ Scenario.tick 80 :: map Scenario.tick (seq 81 20)))
                  empty_registry))) = 100%nat.
Proof.
  assert (Hclock : Forall (fun x => fst (fst x) <= snd (Scenario.tick 80)
                                                  + Scenario.LONG_SLEEP_WINDOW)
                          (map Scenario.tick (seq 81 20))).
  { repeat (constructor; [vm_compute; discriminate|]). constructor. }
  do 7 (split; [reflexivity|]). split; [exact Hclock|].
  destruct (C3_eighty_actions_hundred_fallbacks IndividualConfig.unset "test_2"
              Scenario.LONG_SLEEP_WINDOW empty_registry
              (map Scenario.tick (seq 1 79)) (Scenario.tick 80)
              (map Scenario.tick (seq 81 20))
              eq_refl eq_refl eq_refl eq_refl eq_refl eq_refl eq_refl Hclock)
    as (_ & _ & _ & Ha & Hf & _).
  split; [exact Ha | exact Hf].
Defined.

(** * Further properties *)

(** ** What every run keeps *)

Lemma reloadStats_commandkey c entry now :
  Circuit.commandkey (Circuit.reloadStats c entry now) = Circuit.commandkey c.
Proof. now destruct (reloadStats_settings c entry now). Qed.

Lemma settle_commandkey command params settled now c data :
  let '(c', _, _, _) := settle command params settled now c data in
  Circuit.commandkey c' = Circuit.commandkey c.
Proof.
  pose proof (settle_settings command params settled now c data) as H.
  destruct (settle _ _ _ _ _ _) as [[[c' d'] out] ev]. now destruct H.
Qed.

(** The registry [execute_begin] leaves. *)
Lemma execute_begin_registry cfg command params now r :
  well_keyed r ->
  exists c1,
    Circuit.commandkey c1 = Command.key command
    /\ CircuitInstancesDictionary (fst (fst (execute_begin cfg command params now r)))
       = <[Command.key command := c1]> (CircuitInstancesDictionary r)
    /\ (CircuitDataDictionary (fst (fst (execute_begin cfg command params now r)))
        = CircuitDataDictionary r
        \/ CircuitDataDictionary (fst (fst (execute_begin cfg command params now r)))
           = <[Command.key command := Circuit.snapshot c1]>
               (CircuitDataDictionary r)).
Proof.
  intros Hwf.
  pose proof (admitted_circuit_commandkey cfg command now r Hwf) as Hk.
  unfold admitted_circuit in Hk. unfold execute_begin.
  pose proof (getInstance_stores cfg (Command.key command)
                (Command.requestVolumeThreshold command)
                (Command.errorThreshold command)
                (Command.sleepWindowInMillis command) now r) as Hst.
  destruct (getInstance _ _ _ _ _ _ _) as [c0 r1]. simpl in Hk, Hst. subst r1.
  exists (Circuit.registerCall c0). split; [exact Hk|].
  destruct (Circuit.allowExecution _).
  - simpl. split; [now rewrite insert_insert_eq | now left].
  - destruct (resumeWithFallback _ _ _) as [out ev].
    unfold commit, store, Circuit.finishWorkflow. simpl.
    split; [now rewrite insert_insert_eq | right; now rewrite Hk].
Qed.

Lemma well_keyed_insert r k c :
  well_keyed r -> Circuit.commandkey c = k ->
  forall d, well_keyed (mkRegistry d (<[k := c]> (CircuitInstancesDictionary r))).
Proof.
  intros Hwf Hk d k' c'. simpl. rewrite lookup_insert.
  case_decide; [intros [= <-]; congruence | apply Hwf].
Qed.

Lemma step_ok s sys : system_ok sys -> system_ok (fst (step s sys)).
Proof.
  intros (Hwf & Hd & Hp).
  destruct s as [cfg command params now | n settled now]; simpl.
  - destruct (execute_begin_registry cfg command params now (registry sys) Hwf)
      as (c1 & Hk & Hi & Hdata).
    destruct (execute_begin cfg command params now (registry sys))
      as [[r' started] ev] eqn:E. simpl in Hi, Hdata.
    assert (Hwf' : well_keyed r').
    { destruct r' as [d' i']. simpl in *. subst i'.
      now apply (well_keyed_insert (registry sys)). }
    assert (Hd' : forall k, is_Some (CircuitDataDictionary r' !! k) ->
                            is_Some (CircuitInstancesDictionary r' !! k)).
    { intros k Hs. rewrite Hi, lookup_insert. case_decide; [eauto|].
      apply Hd. destruct Hdata as [-> | ->] in Hs; [exact Hs|].
      now rewrite lookup_insert_ne in Hs. }
    assert (Hp' : Forall (fun p => is_Some (CircuitInstancesDictionary r'
                                              !! Command.key (fst p)))
                         (pending sys)).
    { eapply Forall_impl; [exact Hp|]. intros p Hs. simpl in *.
      rewrite Hi, lookup_insert. case_decide; [eauto | exact Hs]. }
    destruct started; simpl; (split; [exact Hwf'|]); (split; [exact Hd'|]);
      [|exact Hp'].
    apply Forall_app. split; [exact Hp'|]. constructor; [|constructor].
    simpl. rewrite Hi, lookup_insert_eq. eauto.
  - destruct (pending sys !! n) as [[command params]|] eqn:En;
      [|now repeat split].
    assert (Hin : is_Some (CircuitInstancesDictionary (registry sys)
                             !! Command.key command)).
    { rewrite Forall_lookup in Hp. exact (Hp n _ En). }
    destruct Hin as [c Hc].
    destruct (execute_settle_registry command params settled now (registry sys)
                c Hc (Hwf _ _ Hc)) as (c1 & out & ev & Hk & ->).
    simpl. split; [|split].
    + now apply (well_keyed_insert (registry sys)).
    + intros k. simpl. rewrite !lookup_insert. case_decide; [eauto | apply Hd].
    + apply Forall_delete. eapply Forall_impl; [exact Hp|].
      intros p Hs. simpl in *. rewrite lookup_insert.
      case_decide; [eauto | exact Hs].
Qed.

Lemma run_ok steps : forall sys,
  system_ok sys -> system_ok (fst (run steps sys)).
Proof.
  induction steps as [|s steps IH]; intros sys H; simpl; [exact H|].
  pose proof (step_ok s sys H) as H1.
  destruct (step s sys) as [sys1 ev]. simpl in H1.
  specialize (IH sys1 H1). now destruct (run steps sys1).
Qed.

Lemma initial_ok : system_ok initial.
Proof.
  split; [exact well_keyed_empty|]. split; [|constructor].
  intros k [s Hs]. simpl in Hs. rewrite lookup_empty in Hs. discriminate.
Qed.

(** X1. Whatever calls and callbacks have run since the process started, in
    whatever order: every instance sits under its own [commandkey], every
    entry of the data dictionary belongs to a key that has an instance, and
    the callback of every pending call finds the instance [opts.circuit]
    refers to, so that it runs and commits. *)
Theorem X1_callbacks_always_find_their_circuit steps :
  let sys := fst (run steps initial) in
  well_keyed (registry sys)
  /\ (forall k, is_Some (CircuitDataDictionary (registry sys) !! k) ->
                is_Some (CircuitInstancesDictionary (registry sys) !! k))
  /\ (forall n command params settled now,
        pending sys !! n = Some (command, params) ->
        is_Some (execute_settle command params settled now (registry sys))).
Proof.
  intros sys. destruct (run_ok steps initial initial_ok) as (Hwf & Hd & Hp).
  fold sys in Hwf, Hd, Hp.
  split; [exact Hwf|]. split; [exact Hd|].
  intros n command params settled now Hn.
  rewrite Forall_lookup in Hp. destruct (Hp n _ Hn) as [c Hc]. simpl in Hc.
  destruct (execute_settle_registry command params settled now (registry sys)
              c Hc (Hwf _ _ Hc)) as (c1 & out & ev & _ & ->).
  eauto.
Qed.

(** ** One circuit per key *)

(** X2. Circuits do not interfere: a call on one key, whether it runs to
    its end, only starts, or is a callback that runs later, leaves the
    instance and the entry of every other key as they were. *)
Theorem X2_other_keys_untouched cfg command params now settled now' r k :
  well_keyed r ->
  k <> Command.key command ->
  (CircuitInstancesDictionary
     (registry_of (execute cfg command params now settled now' r)) !! k
   = CircuitInstancesDictionary r !! k
   /\ CircuitDataDictionary
        (registry_of (execute cfg command params now settled now' r)) !! k
      = CircuitDataDictionary r !! k)
  /\ (CircuitInstancesDictionary
        (fst (fst (execute_begin cfg command params now r))) !! k
      = CircuitInstancesDictionary r !! k
      /\ CircuitDataDictionary
           (fst (fst (execute_begin cfg command params now r))) !! k
         = CircuitDataDictionary r !! k)
  /\ match execute_settle command params settled now' r with
     | Some (r', _, _) =>
         CircuitInstancesDictionary r' !! k = CircuitInstancesDictionary r !! k
         /\ CircuitDataDictionary r' !! k = CircuitDataDictionary r !! k
     | None => True
     end.
Proof.
  intros Hwf Hne. split; [|split].
  - destruct (execute_registry cfg command params now settled now' r Hwf)
      as (c' & _ & ->).
    simpl. now rewrite !lookup_insert_ne.
  - destruct (execute_begin_registry cfg command params now r Hwf)
      as (c1 & _ & -> & [-> | ->]); now rewrite ?lookup_insert_ne.
  - destruct (CircuitInstancesDictionary r !! Command.key command) as [c|] eqn:E.
    + destruct (execute_settle_registry command params settled now' r c E
                  (Hwf _ _ E)) as (c1 & out & ev & _ & ->).
      simpl. now rewrite !lookup_insert_ne.
    + unfold execute_settle. now rewrite E.
Qed.

(** ** Reloading between sequential calls *)



(** ** The outcome of a call, path by path *)

(** [execute] when the gate admits the call: the callback runs on the
    instance as [registerCall] left it. *)
Lemma execute_admitted cfg command params now settled now' r :
  Circuit.allowExecution (admitted_circuit cfg command now r) = true ->
  execute cfg command params now settled now' r
  = (mkRegistry
       (snd (fst (fst (settle command params settled now'
                         (admitted_circuit cfg command now r)
                         (CircuitDataDictionary r)))))
       (<[Command.key command :=
            fst (fst (fst (settle command params settled now'
                             (admitted_circuit cfg command now r)
                             (CircuitDataDictionary r))))]>
          (CircuitInstancesDictionary r)),
     snd (fst (settle command params settled now'
                 (admitted_circuit cfg command now r)
                 (CircuitDataDictionary r))),
     ActionCalled (Command.key command) params
     :: snd (settle command params settled now'
               (admitted_circuit cfg command now r)
               (CircuitDataDictionary r))).
Proof.
  unfold admitted_circuit, execute. intros Ha.
  pose proof (getInstance_stores cfg (Command.key command)
                (Command.requestVolumeThreshold command)
                (Command.errorThreshold command)
                (Command.sleepWindowInMillis command) now r) as Hst.
  destruct (getInstance _ _ _ _ _ _ _) as [c0 r1]. simpl in Ha, Hst |- *.
  subst r1. rewrite Ha. simpl.
  destruct (settle _ _ _ _ _ _) as [[[c2 d2] out] ev]. simpl.
  now rewrite !insert_insert_eq.
Qed.

(** [execute] when the gate rejects the call. *)
Lemma execute_rejected cfg command params now settled now' r :
  Circuit.allowExecution (admitted_circuit cfg command now r) = false ->
  execute cfg command params now settled now' r
  = (mkRegistry
       (<[Circuit.commandkey (admitted_circuit cfg command now r) :=
            Circuit.snapshot (admitted_circuit cfg command now r)]>
          (CircuitDataDictionary r))
       (<[Command.key command := admitted_circuit cfg command now r]>
          (CircuitInstancesDictionary r)),
     fst (resumeWithFallback None command params),
     DataDictionarySet (Circuit.commandkey (admitted_circuit cfg command now r))
       (Circuit.snapshot (admitted_circuit cfg command now r))
     :: snd (resumeWithFallback None command params)).
Proof.
  unfold admitted_circuit, execute. intros Ha.
  pose proof (getInstance_stores cfg (Command.key command)
                (Command.requestVolumeThreshold command)
                (Command.errorThreshold command)
                (Command.sleepWindowInMillis command) now r) as Hst.
  destruct (getInstance _ _ _ _ _ _ _) as [c0 r1]. simpl in Ha, Hst |- *.
  subst r1. rewrite Ha.
  destruct (resumeWithFallback _ _ _) as [out ev].
  unfold commit, store, Circuit.finishWorkflow. simpl.
  now rewrite !insert_insert_eq.
Qed.




(** ** The sleep window, between sequential calls *)

(** The circuit the gate looks at, between sequential calls. *)
Lemma admitted_circuit_sequential cfg command now r c :
  sequential r ->
  CircuitInstancesDictionary r !! Command.key command = Some c ->
  (Circuit.isSleepWindowOver c now = false ->
   admitted_circuit cfg command now r = Circuit.registerCall c)
  /\ (Circuit.isSleepWindowOver c now = true ->
      admitted_circuit cfg command now r
      = Circuit.mk (Circuit.commandkey c) HALF_OPEN (Circuit.totalCalls c + 1)
          (Circuit.errorCalls c) (Circuit.requestVolumeThreshold c)
          (Circuit.errorThreshold c) (Circuit.sleepWindowInMilliseconds c)
          None (Circuit.forceOpen c)).
Proof.
  intros Hs Hc.
  destruct (sequential_in_sync r Hs _ c Hc) as [Hk Hd].
  unfold admitted_circuit. rewrite (getInstance_existing _ _ _ _ _ _ _ _ Hc).
  rewrite Hk, Hd. cbn [fst]. split; intros Ho.
  - now rewrite (reloadStats_in_sync c now Ho).
  - unfold Circuit.reloadStats. simpl.
    destruct c as [ck st tot err rv th sl osw fo].
    unfold Circuit.isSleepWindowOver in *. simpl in *. subst ck.
    now rewrite Ho.
Qed.

Lemma execute_gate_rejection cfg command params now settled now' r :
  well_keyed r ->
  Circuit.allowExecution (admitted_circuit cfg command now r) = false ->
  execute cfg command params now settled now' r
  = (mkRegistry
       (<[Command.key command :=
            Circuit.snapshot (admitted_circuit cfg command now r)]>
          (CircuitDataDictionary r))
       (<[Command.key command := admitted_circuit cfg command now r]>
          (CircuitInstancesDictionary r)),
     match Command.fallback command with
     | Some f => f None params
     | None => Rejected (CircuitOpenException (Command.key command))
     end,
     DataDictionarySet (Command.key command)
       (Circuit.snapshot (admitted_circuit cfg command now r))
     :: match Command.fallback command with
        | Some f => [FallbackCalled (Command.key command) None params]
        | None => []
        end).
Proof.
  intros Hwf Ha.
  pose proof (admitted_circuit_commandkey cfg command now r Hwf) as Hk.
  rewrite (execute_rejected cfg command params now settled now' r Ha).
  rewrite Hk. unfold resumeWithFallback.
  now destruct (Command.fallback command).
Qed.


(** X7. An OPEN circuit whose expiry is [expiry], when calls do not
    overlap: a call made no later than the expiry is rejected at the gate
    (the action is not called; the circuit stays OPEN with the same expiry,
    one more call counted); the first call made after it is admitted as the
    probe, and if its action resolves the caller gets the result and the
    circuit is CLOSED with both counters at 0 and no expiry. *)
Theorem X7_open_until_expiry_then_one_probe
    cfg command params now settled now' r c expiry :
  sequential r ->
  CircuitInstancesDictionary r !! Command.key command = Some c ->
  Circuit.state c = OPEN ->
  Circuit.ongoingSleepWindow c = Some expiry ->
  let res := execute cfg command params now settled now' r in
  (now <= expiry ->
   count (isActionCalled (Command.key command)) (events_of res) = 0%nat
   /\ CircuitInstancesDictionary (registry_of res) !! Command.key command
      = Some (Circuit.registerCall c))
  /\ (expiry <> 0 -> expiry < now -> Circuit.forceOpen c = false ->
      count (isActionCalled (Command.key command)) (events_of res) = 1%nat
      /\ forall result, settled = Resolved result ->
           outcome_of res = Resolved result
           /\ exists c',
                CircuitInstancesDictionary (registry_of res)
                  !! Command.key command = Some c'
                /\ Circuit.state c' = CLOSED
                /\ Circuit.totalCalls c' = 0
                /\ Circuit.errorCalls c' = 0
                /\ Circuit.ongoingSleepWindow c' = None).
Proof.
  intros Hs Hc Ho He res.
  pose proof (in_sync_well_keyed r (sequential_in_sync r Hs)) as Hwf.
  destruct (admitted_circuit_sequential cfg command now r c Hs Hc) as [Hstay Hover].
  split.
  - intros Hle.
    assert (Hn : Circuit.isSleepWindowOver c now = false).
    { unfold Circuit.isSleepWindowOver. rewrite He.
      replace (expiry <? now) with false by (symmetry; apply Z.ltb_ge; lia).
      apply andb_false_r. }
    specialize (Hstay Hn).
    assert (Ha : Circuit.allowExecution (admitted_circuit cfg command now r)
                 = false).
    { rewrite Hstay. unfold Circuit.allowExecution. simpl. rewrite Ho.
      apply andb_false_r. }
    subst res.
    rewrite (execute_gate_rejection cfg command params now settled now' r Hwf Ha).
    unfold events_of, registry_of. simpl. rewrite Hstay. split.
    + destruct (Command.fallback command); reflexivity.
    + apply lookup_insert_eq.
  - intros Hnz Hlt Hfo.
    assert (Hy : Circuit.isSleepWindowOver c now = true).
    { apply isSleepWindowOver_spec. exists expiry. auto. }
    specialize (Hover Hy).
    assert (Ha : Circuit.allowExecution (admitted_circuit cfg command now r)
                 = true).
    { rewrite Hover. unfold Circuit.allowExecution. simpl. now rewrite Hfo. }
    subst res.
    rewrite (execute_admitted cfg command params now settled now' r Ha).
    unfold events_of, registry_of, outcome_of. cbn [fst snd]. split.
    + pose proof (settle_actions (Command.key command) command params settled
                    now' (admitted_circuit cfg command now r)
                    (CircuitDataDictionary r)) as Hact.
      destruct (settle _ _ _ _ _ _) as [[[c2 d2] out] ev]. cbn [fst snd].
      unfold count in *. simpl. rewrite String.eqb_refl. simpl.
      now rewrite Hact.
    + intros result ->. rewrite Hover. simpl. split; [reflexivity|].
      eexists. split; [apply lookup_insert_eq|]. now repeat split.
Qed.

(** ** What a call does to its collaborators *)

Ltac in_events H :=
  simpl in H;
  repeat (destruct H as [H|H]; [try discriminate H|]);
  try contradiction;
  try (inversion H; subst; clear H).

Lemma execute_events cfg command params now settled now' r :
  events_of (execute cfg command params now settled now' r)
  = if Circuit.allowExecution (admitted_circuit cfg command now r)
    then ActionCalled (Command.key command) params
         :: snd (settle command params settled now'
                   (admitted_circuit cfg command now r)
                   (CircuitDataDictionary r))
    else DataDictionarySet
           (Circuit.commandkey (admitted_circuit cfg command now r))
           (Circuit.snapshot (admitted_circuit cfg command now r))
         :: snd (resumeWithFallback None command params).
Proof.
  destruct (Circuit.allowExecution _) eqn:Ha.
  - now rewrite (execute_admitted cfg command params now settled now' r Ha).
  - now rewrite (execute_rejected cfg command params now settled now' r Ha).
Qed.


(** X9. The handler and the filter. Each is called at most once by one
    [execute], and only when it is configured, the gate admitted the call and
    the action failed: the handler with the error the action failed with,
    made a gateway timeout when it is a timeout; the filter with the
    exception (what the handler returned, or that error when there is no
    handler) and the parameters of the call. *)
Theorem X9_handler_and_filter_called_once_on_failure
    cfg command params now settled now' r :
  let admitted := Circuit.allowExecution (admitted_circuit cfg command now r) in
  let ev := events_of (execute cfg command params now settled now' r) in
  let mapped err := if isTimeoutError err then GatewayTimeout err else err in
  let exception_of err :=
    match Command.errorHandler command with
    | Some handler => handler (mapped err)
    | None => mapped err
    end in
  count isHandlerEvent ev
  = match failure admitted settled, Command.errorHandler command with
    | Some _, Some _ => 1%nat
    | _, _ => 0%nat
    end
  /\ (forall k e, In (ErrorHandlerCalled k e) ev ->
        k = Command.key command
        /\ exists err, failure admitted settled = Some err /\ e = mapped err)
  /\ count isFilterEvent ev
     = match failure admitted settled, Command.errorFilter command with
       | Some _, Some _ => 1%nat
       | _, _ => 0%nat
       end
  /\ (forall k e p, In (ErrorFilterCalled k e p) ev ->
        k = Command.key command /\ p = params
        /\ exists err, failure admitted settled = Some err
                       /\ e = exception_of err).
Proof.
  intros admitted ev mapped exception_of.
  subst admitted ev mapped exception_of. rewrite execute_events.
  destruct (Circuit.allowExecution _); unfold failure.
  - destruct settled as [v|err]; simpl.
    + split; [reflexivity|]. split; [intros k e H; in_events H|].
      split; [reflexivity|]. intros k e p H. in_events H.
    + unfold onRejected, classify,
        Circuit.registerErrorAndCalculateMetrics, resumeWithFallback.
      destruct (Command.errorHandler command) as [h|];
        (destruct (Command.errorFilter command) as [f|]; simpl;
         [destruct (f _ params)|]);
        destruct (Command.fallback command) as [fb|];
        destruct (Command.isLogEnable command);
        repeat match goal with
               | |- context [isTruthy ?e] => destruct (isTruthy e)
               end; simpl;
        (split; [reflexivity|]);
        (split; [intros k e H; in_events H; eauto|]);
        (split; [reflexivity|]);
        intros k e p H; in_events H; repeat split; eauto.
  - unfold resumeWithFallback.
    destruct settled as [v|err]; destruct (Command.fallback command); simpl;
      (split; [reflexivity|]);
      (split; [intros k e H; in_events H|]);
      (split; [reflexivity|]); intros k e p H; in_events H.
Qed.

(** ** The request volume *)

Lemma registerError_below c now :
  Circuit.totalCalls c < Circuit.requestVolumeThreshold c ->
  Circuit.registerError c now
  = Circuit.mk (Circuit.commandkey c) (Circuit.state c) (Circuit.totalCalls c)
      (Circuit.errorCalls c + 1) (Circuit.requestVolumeThreshold c)
      (Circuit.errorThreshold c) (Circuit.sleepWindowInMilliseconds c)
      (Circuit.ongoingSleepWindow c) (Circuit.forceOpen c).
Proof.
  intros H. unfold Circuit.registerError, Circuit.tripped. cbn [Circuit.requestVolumeThreshold Circuit.totalCalls].
  replace (Circuit.requestVolumeThreshold c <=? Circuit.totalCalls c) with false
    by (symmetry; apply Z.leb_gt; exact H).
  reflexivity.
Qed.

(** Under the request volume a CLOSED circuit stays CLOSED whatever the
    callback does. *)
Lemma settle_below command params settled now c data :
  Circuit.state c = CLOSED ->
  Circuit.totalCalls c < Circuit.requestVolumeThreshold c ->
  let c' := fst (fst (fst (settle command params settled now c data))) in
  Circuit.state c' = CLOSED
  /\ Circuit.totalCalls c' = Circuit.totalCalls c
  /\ Circuit.ongoingSleepWindow c' = Circuit.ongoingSleepWindow c
  /\ same_settings c c'.
Proof.
  intros Hs Hlt.
  pose proof (registerError_below c now Hlt) as He.
  destruct settled as [v|err]; simpl.
  - unfold Circuit.isHalfOpen. rewrite Hs. simpl.
    repeat split; auto.
  - unfold onRejected. destruct (classify command err) as [exception ev1].
    unfold Circuit.registerErrorAndCalculateMetrics.
    destruct (resumeWithFallback _ _ _) as [out ev3].
    destruct (Command.errorFilter command) as [f|]; simpl;
      [destruct (f exception params)|]; simpl; rewrite ?He; simpl;
      repeat split; auto.
Qed.

Lemma invoke_below i r key n N :
  closed_counting r key n N ->
  Command.key (i_command i) = key ->
  n + 1 < N ->
  closed_counting (fst (fst (invoke i r))) key (n + 1) N
  /\ count (isActionCalled key) (snd (invoke i r)) = 1%nat.
Proof.
  intros (c & Hh & Hk & Hs & Ho & Hf & Hn & HN) Hkey Hlt.
  unfold invoke.
  assert (Hadm : admitted_circuit (i_cfg i) (i_command i) (i_now i) r
                 = Circuit.registerCall c).
  { apply admitted_circuit_holds; [congruence | exact Hh |].
    unfold Circuit.isSleepWindowOver. now rewrite Ho. }
  assert (Ha : Circuit.allowExecution
                 (admitted_circuit (i_cfg i) (i_command i) (i_now i) r) = true).
  { rewrite Hadm. unfold Circuit.allowExecution. simpl. now rewrite Hf, Hs. }
  rewrite (execute_admitted _ _ _ _ _ _ _ Ha). rewrite Hadm. cbn [fst snd].
  pose proof (settle_below (i_command i) (i_params i) (i_settled i) (i_now' i)
                (Circuit.registerCall c) (CircuitDataDictionary r)) as Hb.
  pose proof (settle_commits (i_command i) (i_params i) (i_settled i) (i_now' i)
                (Circuit.registerCall c) (CircuitDataDictionary r)) as Hc.
  pose proof (settle_actions key (i_command i) (i_params i) (i_settled i)
                (i_now' i) (Circuit.registerCall c) (CircuitDataDictionary r))
    as Hact.
  destruct (settle _ _ _ _ _ _) as [[[c2 d2] out] ev]. cbn [fst snd] in *.
  destruct Hc as (Hk2 & -> & _). simpl in Hk2.
  destruct (Hb Hs ltac:(simpl; lia)) as (Hs2 & Ht2 & Ho2 & Hset).
  simpl in Ht2, Ho2. destruct Hset as (_ & Hrv & _ & _ & Hfo). simpl in Hrv, Hfo.
  split.
  - exists c2. unfold holds. simpl. rewrite Hk2, Hkey, Hk.
    rewrite !lookup_insert_eq. repeat split; try congruence; try lia.
  - unfold count in *. simpl. rewrite Hkey, String.eqb_refl. simpl.
    now rewrite Hact.
Qed.

Lemma executeAll_below l : forall r key n N,
  closed_counting r key n N ->
  Forall (fun i => Command.key (i_command i) = key) l ->
  n + Z.of_nat (length l) < N ->
  closed_counting (fst (executeAll l r)) key (n + Z.of_nat (length l)) N
  /\ Forall (fun x => count (isActionCalled key) (snd x) = 1%nat)
            (snd (executeAll l r)).
Proof.
  induction l as [|i l IH]; intros r key n N Hc Hk Hlt.
  - simpl. rewrite Z.add_0_r. auto.
  - cbn [executeAll]. inversion Hk as [|? ? Hi Hl]; subst.
    cbn [length] in Hlt.
    destruct (invoke_below i r _ n N Hc eq_refl ltac:(lia)) as [Hc1 Ha1].
    destruct (invoke i r) as [[r1 out] ev]. cbn [fst snd] in *.
    destruct (IH r1 _ (n + 1) N Hc1 Hl ltac:(lia)) as [Hc2 Ha2].
    destruct (executeAll l r1) as [r2 calls]. cbn [fst snd length] in *.
    replace (n + Z.of_nat (S (length l))) with (n + 1 + Z.of_nat (length l))
      by lia.
    split; [exact Hc2 | constructor; assumption].
Qed.

(** X10. The request volume threshold is a guarantee: on a key that has no
    circuit yet and is not forced open, as long as fewer calls than the
    threshold have been made, every call reaches the action, whatever the
    earlier calls returned or threw; the circuit is CLOSED after each of
    them and has counted them all. *)
Theorem X10_below_the_request_volume_every_call_is_admitted i l r key :
  CircuitInstancesDictionary r !! key = None ->
  Forall (fun j => Command.key (i_command j) = key) (i :: l) ->
  IndividualConfig.forceOpen (i_cfg i) key = false ->
  let c0 :=
    Circuit.new (i_cfg i) key (Command.requestVolumeThreshold (i_command i))
      (Command.errorThreshold (i_command i))
      (Command.sleepWindowInMillis (i_command i)) in
  Z.of_nat (length (i :: l)) < Circuit.requestVolumeThreshold c0 ->
  Forall (fun x => count (isActionCalled key) (snd x) = 1%nat)
         (snd (executeAll (i :: l) r))
  /\ exists c,
       CircuitInstancesDictionary (fst (executeAll (i :: l) r)) !! key = Some c
       /\ Circuit.state c = CLOSED
       /\ Circuit.totalCalls c = Z.of_nat (length (i :: l)).
Proof.
  intros Hfresh Hk Hfo c0 Hlt.
  inversion Hk as [|? ? Hi Hl]; subst.
  assert (Hadm : admitted_circuit (i_cfg i) (i_command i) (i_now i) r
                 = Circuit.registerCall c0).
  { unfold admitted_circuit. now rewrite (getInstance_fresh _ _ _ _ _ _ _ Hfresh). }
  assert (Hst0 : Circuit.state c0 = CLOSED) by reflexivity.
  assert (Ht0 : Circuit.totalCalls c0 = 0) by reflexivity.
  assert (Ho0 : Circuit.ongoingSleepWindow c0 = None) by reflexivity.
  assert (Hk0 : Circuit.commandkey c0 = Command.key (i_command i))
    by reflexivity.
  assert (Hf0 : Circuit.forceOpen c0 = false).
  { subst c0. simpl. rewrite Hfo. reflexivity. }
  clearbody c0. cbn [length] in Hlt.
  assert (Ha : Circuit.allowExecution
                 (admitted_circuit (i_cfg i) (i_command i) (i_now i) r) = true).
  { rewrite Hadm. unfold Circuit.allowExecution. simpl. now rewrite Hf0, Hst0. }
  assert (H1 : closed_counting (fst (fst (invoke i r)))
                 (Command.key (i_command i)) 1
                 (Circuit.requestVolumeThreshold c0)
               /\ count (isActionCalled (Command.key (i_command i)))
                        (snd (invoke i r)) = 1%nat).
  { unfold invoke. rewrite (execute_admitted _ _ _ _ _ _ _ Ha). rewrite Hadm.
    cbn [fst snd].
    pose proof (settle_below (i_command i) (i_params i) (i_settled i) (i_now' i)
                  (Circuit.registerCall c0) (CircuitDataDictionary r)) as Hb.
    pose proof (settle_commits (i_command i) (i_params i) (i_settled i)
                  (i_now' i) (Circuit.registerCall c0)
                  (CircuitDataDictionary r)) as Hc.
    pose proof (settle_actions (Command.key (i_command i)) (i_command i)
                  (i_params i) (i_settled i) (i_now' i)
                  (Circuit.registerCall c0) (CircuitDataDictionary r)) as Hact.
    destruct (settle _ _ _ _ _ _) as [[[c2 d2] out] ev]. cbn [fst snd] in *.
    destruct Hc as (Hk2 & -> & _). simpl in Hk2.
    destruct (Hb Hst0 ltac:(simpl; lia)) as (Hs2 & Ht2 & Ho2 & Hset).
    simpl in Ht2, Ho2. destruct Hset as (_ & Hrv & _ & _ & Hfo2).
    simpl in Hrv, Hfo2. split.
    - exists c2. unfold holds. simpl. rewrite Hk2, Hk0.
      rewrite !lookup_insert_eq. repeat split; try congruence; try lia.
    - unfold count in *. simpl. rewrite String.eqb_refl. simpl.
      now rewrite Hact. }
  destruct H1 as [Hc1 Ha1]. cbn [executeAll].
  destruct (invoke i r) as [[r1 out] ev]. cbn [fst snd] in *.
  destruct (executeAll_below l r1 _ 1 _ Hc1 Hl ltac:(lia)) as [Hc2 Ha2].
  destruct (executeAll l r1) as [r2 calls]. cbn [fst snd] in *.
  split; [constructor; assumption|].
  destruct Hc2 as (c & [Hin _] & Hkc & Hs & _ & _ & Ht & _).
  exists c. rewrite Hkc in Hin. repeat split; auto. cbn [length]. lia.
Qed.

(** ** Overlapping calls *)

(** The entry of [c] reloaded into an instance that differs from [c] by its
    state and counters only. *)
Lemma reloadStats_stale x c now :
  same_settings c x ->
  Circuit.ongoingSleepWindow x = Circuit.ongoingSleepWindow c ->
  Circuit.isSleepWindowOver c now = false ->
  Circuit.reloadStats x (Some (Circuit.snapshot c)) now = c.
Proof.
  intros (Hk & Hr & Ht & Hs & Hf) Ho Hn.
  destruct x as [xk xst xtot xerr xrv xth xsl xo xfo].
  destruct c as [ck cst ctot cerr crv cth csl co cfo].
  unfold Circuit.reloadStats, Circuit.isSleepWindowOver in *. simpl in *.
  subst. now rewrite Hn.
Qed.

Lemma execute_begin_admitted cfg command params now d i x c :
  i !! Command.key command = Some x ->
  d !! Circuit.commandkey x = Some (Circuit.snapshot c) ->
  same_settings c x ->
  Circuit.ongoingSleepWindow x = Circuit.ongoingSleepWindow c ->
  Circuit.isSleepWindowOver c now = false ->
  Circuit.allowExecution (Circuit.registerCall c) = true ->
  execute_begin cfg command params now (mkRegistry d i)
  = (mkRegistry d (<[Command.key command := Circuit.registerCall c]> i),
     Pending, [ActionCalled (Command.key command) params]).
Proof.
  intros Hi Hd Hs Ho Hn Ha. unfold execute_begin, getInstance. simpl.
  rewrite Hi, Hd, (reloadStats_stale x c now Hs Ho Hn), Ha.
  unfold store. simpl. now rewrite !insert_insert_eq.
Qed.

Lemma execute_settle_unfiltered command params err now d i x :
  i !! Command.key command = Some x ->
  filtered command params err = false ->
  exists out ev,
    execute_settle command params (Rejected err) now (mkRegistry d i)
    = Some (mkRegistry
              (<[Circuit.commandkey x :=
                   Circuit.snapshot (Circuit.registerError x now)]> d)
              (<[Command.key command := Circuit.registerError x now]> i),
            out, ev).
Proof.
  intros Hi Hf. unfold execute_settle. simpl. rewrite Hi.
  destruct (onRejected_unfiltered command params err now x d Hf)
    as (out & ev & ->).
  unfold Circuit.finishWorkflow. rewrite registerError_commandkey. eauto.
Qed.

(** X11. Two calls on one key that overlap (both start before either
    callback runs) and both fail are counted as one call and two errors: the
    second lookup reloads the counters from the entry and so forgets the
    first [registerCall], while each callback adds its error. On a circuit
    with as many errors as calls, [errorCalls] ends above [totalCalls]. *)
Theorem X11_overlapping_failures_count_one_call_two_errors
    cfg1 cfg2 command1 command2 params1 params2 t1 t2 t3 t4 err1 err2 r c :
  sequential r ->
  CircuitInstancesDictionary r !! Command.key command1 = Some c ->
  Command.key command2 = Command.key command1 ->
  Circuit.state c = CLOSED ->
  Circuit.forceOpen c = false ->
  Circuit.ongoingSleepWindow c = None ->
  filtered command1 params1 err1 = false ->
  filtered command2 params2 err2 = false ->
  let sys :=
    fst (run [ Call cfg1 command1 params1 t1;
               Call cfg2 command2 params2 t2;
               Settle 0 (Rejected err1) t3;
               Settle 0 (Rejected err2) t4 ]
             (mkSystem r [])) in
  pending sys = []
  /\ exists c',
       CircuitInstancesDictionary (registry sys) !! Command.key command1
       = Some c'
       /\ CircuitDataDictionary (registry sys) !! Command.key command1
          = Some (Circuit.snapshot c')
       /\ Circuit.totalCalls c' = Circuit.totalCalls c + 1
       /\ Circuit.errorCalls c' = Circuit.errorCalls c + 2
       /\ (Circuit.errorCalls c = Circuit.totalCalls c ->
           Circuit.totalCalls c' < Circuit.errorCalls c').
Proof.
  intros Hs Hc Hk2 Hst Hfo Ho Hf1 Hf2 sys.
  destruct (sequential_in_sync r Hs _ c Hc) as [Hk Hd].
  assert (Hn : forall now, Circuit.isSleepWindowOver c now = false).
  { intros now. unfold Circuit.isSleepWindowOver. now rewrite Ho. }
  assert (Ha : Circuit.allowExecution (Circuit.registerCall c) = true).
  { unfold Circuit.allowExecution. simpl. now rewrite Hfo, Hst. }
  set (key := Command.key command1) in *.
  set (c1 := Circuit.registerCall c).
  set (c2 := Circuit.registerError c1 t3).
  set (c3 := Circuit.registerError c2 t4).
  assert (Hk1 : Circuit.commandkey c1 = key) by exact Hk.
  assert (Hkc2 : Circuit.commandkey c2 = key).
  { subst c2. now rewrite registerError_commandkey. }
  destruct r as [d i]. simpl in Hc, Hd.
  (* the first call *)
  pose proof (execute_begin_admitted cfg1 command1 params1 t1 d i c c Hc
                ltac:(rewrite Hk; exact Hd) (same_settings_refl c) eq_refl
                (Hn t1) Ha) as E1.
  fold key c1 in E1.
  (* the second call finds the instance of the first and the old entry *)
  pose proof (execute_begin_admitted cfg2 command2 params2 t2 d
                (<[key := c1]> i) c1 c
                ltac:(rewrite Hk2; apply lookup_insert_eq)
                ltac:(rewrite Hk1; exact Hd)
                (registerCall_settings c) eq_refl (Hn t2) Ha) as E2.
  rewrite Hk2 in E2. fold key c1 in E2. rewrite insert_insert_eq in E2.
  (* the two callbacks *)
  destruct (execute_settle_unfiltered command1 params1 err1 t3 d
              (<[key := c1]> i) c1 ltac:(apply lookup_insert_eq) Hf1)
    as (out1 & ev1 & E3).
  fold key c2 in E3. rewrite Hk1, insert_insert_eq in E3.
  destruct (execute_settle_unfiltered command2 params2 err2 t4
              (<[key := Circuit.snapshot c2]> d) (<[key := c2]> i) c2
              ltac:(rewrite Hk2; apply lookup_insert_eq) Hf2)
    as (out2 & ev2 & E4).
  rewrite Hk2 in E4. fold key c3 in E4.
  rewrite Hkc2, !insert_insert_eq in E4.
  subst sys. unfold run, step. cbn [registry pending].
  rewrite E1. cbn [registry pending app]. rewrite E2.
  cbn [registry pending app lookup list_lookup]. rewrite E3.
  cbn [registry pending delete list_delete lookup list_lookup]. rewrite E4.
  cbn [fst registry pending delete list_delete].
  split; [reflexivity|]. exists c3.
  cbn [CircuitInstancesDictionary CircuitDataDictionary].
  rewrite !lookup_insert_eq.
  destruct (registerError_spec c1 t3) as (He2 & Ht2 & _).
  destruct (registerError_spec c2 t4) as (He3 & Ht3 & _).
  fold c2 in He2, Ht2. fold c3 in He3, Ht3.
  assert (Ht1 : Circuit.totalCalls c1 = Circuit.totalCalls c + 1) by reflexivity.
  assert (He1 : Circuit.errorCalls c1 = Circuit.errorCalls c) by reflexivity.
  repeat split; try lia.
Qed.

(** ** Building a command *)

Lemma configure_key cfg s c : Command.key (configure cfg s c) = Command.key c.
Proof. now destruct s. Qed.

Lemma chain_key cfg setters : forall c,
  Command.key (chain cfg setters c) = Command.key c.
Proof.
  unfold chain. induction setters as [|s l IH]; intros c; simpl; [reflexivity|].
  now rewrite IH, configure_key.
Qed.

Lemma chain_timeout cfg setters v : forall c,
  IndividualConfig.timeout cfg (Command.key c) = Some v ->
  v <> 0 ->
  Command.timeout c = v ->
  Command.timeout (chain cfg setters c) = v.
Proof.
  unfold chain. induction setters as [|s l IH]; intros c Ho Hv Ht; simpl;
    [exact Ht|].
  apply IH; [now rewrite configure_key | exact Hv|].
  destruct s; simpl; try exact Ht.
  rewrite Ho. unfold JS.or_Z, JS.truthyZ.
  destruct (Z.eqb_spec v 0); [contradiction | reflexivity].
Qed.

(** X12. Building a command. With the empty string for a key the
    constructor throws ['command key is required!']. With a key it goes on
    to read [Config.circuitBreaker]: the module ['./config'] of the sources
    has no such export, so that [new Command(key)], and [Factory(key)] with
    it, ends in a [TypeError] for every key. With a module that has the
    export, the command is built, and whatever setters are then called on
    it, in whatever order, its key is the one the constructor was given;
    and when the environment holds a timeout for that key (other than 0),
    the timeout of the command is that one, whatever [timeout(...)] was
    called with. *)
Theorem X12_key_is_fixed_and_timeout_override_wins cfg key setters :
  key <> "" ->
  (forall circuitBreaker,
     Command.new cfg circuitBreaker ""
     = Throws (UserError "command key is required!"))
  /\ Command.new cfg None key = Throws TypeError
  /\ Factory cfg "" = Throws (UserError "command key is required!")
  /\ Factory cfg key = Throws TypeError
  /\ forall defaults,
       exists c0,
         Command.new cfg (Some defaults) key = Returns c0
         /\ Command.key (chain cfg setters c0) = key
         /\ forall v, IndividualConfig.timeout cfg key = Some v -> v <> 0 ->
                      Command.timeout (chain cfg setters c0) = v.
Proof.
  intros Hk. unfold Factory, Config_circuitBreaker, Command.new.
  destruct (String.eqb_spec key ""); [contradiction|]. cbn [String.eqb].
  split; [reflexivity|]. split; [reflexivity|]. split; [reflexivity|].
  split; [reflexivity|].
  intros defaults. eexists. split; [reflexivity|]. split.
  - now rewrite chain_key.
  - intros v Ho Hv. apply chain_timeout; simpl; try assumption.
    rewrite Ho. unfold JS.or_Z, JS.truthyZ.
    destruct (Z.eqb_spec v 0); [contradiction | reflexivity].
Qed.

(** ** The variables of the environment *)

Lemma list_ascii_of_append a b :
  String.list_ascii_of_string (a +:+ b)
  = (String.list_ascii_of_string a ++ String.list_ascii_of_string b)%list.
Proof.
  induction a as [|x a IH]; [reflexivity|].
  simpl. now rewrite IH.
Qed.

Lemma list_ascii_of_string_inj a b :
  String.list_ascii_of_string a = String.list_ascii_of_string b -> a = b.
Proof.
  intros H. rewrite <- (String.string_of_list_ascii_of_string a),
              <- (String.string_of_list_ascii_of_string b). now rewrite H.
Qed.

Lemma variable_inj s1 k1 s2 k2 :
  Env.variable s1 k1 = Env.variable s2 k2 -> s1 = s2 /\ k1 = k2.
Proof.
  unfold Env.variable. intros H.
  apply (inj (String.append "app_circuit_")) in H.
  apply (f_equal String.list_ascii_of_string) in H.
  rewrite !list_ascii_of_append in H.
  apply (f_equal (@List.rev Ascii.ascii)) in H.
  rewrite !List.rev_app_distr in H.
  destruct s1, s2; simpl in H; try discriminate H;
    (split; [reflexivity|]);
    repeat (injection H as H);
    apply (f_equal (@List.rev Ascii.ascii)) in H;
    rewrite !List.rev_involutive in H;
    now apply list_ascii_of_string_inj.
Qed.

(** X13. Each setting of each key has an environment variable of its own:
    two of the names [app_circuit_<key>_<setting>] are equal only for the
    same key and the same setting, whatever the keys are made of. So setting
    a variable changes the override it is named after and no other: the
    configuration of every other key, and the other settings of the same
    key, are read as before. *)
Theorem X13_one_variable_per_key_and_setting joi env s k v :
  (forall s' k', Env.variable s k = Env.variable s' k' -> s = s' /\ k = k')
  /\ (forall s' k', (s', k') <> (s, k) ->
        Env.getEnv (<[Env.variable s k := v]> env) (Env.variable s' k')
        = Env.getEnv env (Env.variable s' k'))
  /\ (forall k', k' <> k ->
        let cfg := Env.config joi env in
        let cfg' := Env.config joi (<[Env.variable s k := v]> env) in
        IndividualConfig.forceOpen cfg' k' = IndividualConfig.forceOpen cfg k'
        /\ IndividualConfig.errorPercentageThreshold cfg' k'
           = IndividualConfig.errorPercentageThreshold cfg k'
        /\ IndividualConfig.requestVolumeThreshold cfg' k'
           = IndividualConfig.requestVolumeThreshold cfg k'
        /\ IndividualConfig.sleepWindowInMilliseconds cfg' k'
           = IndividualConfig.sleepWindowInMilliseconds cfg k'
        /\ IndividualConfig.timeout cfg' k' = IndividualConfig.timeout cfg k').
Proof.
  assert (Hget : forall s' k', (s', k') <> (s, k) ->
            Env.getEnv (<[Env.variable s k := v]> env) (Env.variable s' k')
            = Env.getEnv env (Env.variable s' k')).
  { intros s' k' Hne. unfold Env.getEnv. apply lookup_insert_ne.
    intros H. apply variable_inj in H. destruct H as [-> ->]. now apply Hne. }
  split; [intros s' k'; apply variable_inj|]. split; [exact Hget|].
  intros k' Hne cfg cfg'. subst cfg cfg'. simpl.
  rewrite !Hget by (intros [= _ ?]; contradiction).
  now repeat split.
Qed.

(** ** The further properties at sample inputs *)

Lemma X2_other_keys_untouched_witness :
  well_keyed Sample.opened
  /\ "k" <> Command.key (Sample.command "other" 80 50 1000)
  /\ CircuitInstancesDictionary
       (registry_of (execute IndividualConfig.unset
                       (Sample.command "other" 80 50 1000) [] 3
                       (Rejected (UserError "FAIL")) 4 Sample.opened)) !! "k"
     = CircuitInstancesDictionary Sample.opened !! "k".
Proof.
  assert (Hwf : well_keyed Sample.opened)
    by exact (in_sync_well_keyed _ (sequential_in_sync _ sequential_opened)).
  assert (Hne : "k" <> Command.key (Sample.command "other" 80 50 1000))
    by discriminate.
  split; [exact Hwf|]. split; [exact Hne|].
  exact (proj1 (proj1 (X2_other_keys_untouched IndividualConfig.unset
                         (Sample.command "other" 80 50 1000) [] 3
                         (Rejected (UserError "FAIL")) 4 Sample.opened "k"
                         Hwf Hne))).
Defined.






Lemma X7_open_until_expiry_then_one_probe_witness :
  sequential Sample.opened
  /\ CircuitInstancesDictionary Sample.opened
       !! Command.key Sample.failing_command = Some Sample.opened_circuit
  /\ Circuit.state Sample.opened_circuit = OPEN
  /\ Circuit.ongoingSleepWindow Sample.opened_circuit = Some 12
  /\ 12 <= 12
  /\ count (isActionCalled "k")
       (events_of (execute IndividualConfig.unset Sample.failing_command [] 12
                           (Resolved VUndefined) 13 Sample.opened)) = 0%nat.
Proof.
  split; [exact sequential_opened|]. do 3 (split; [reflexivity|]).
  assert (Hle : 12 <= 12) by lia. split; [exact Hle|].
  exact (proj1 (proj1 (X7_open_until_expiry_then_one_probe
                         IndividualConfig.unset Sample.failing_command [] 12
                         (Resolved VUndefined) 13 Sample.opened
                         Sample.opened_circuit 12 sequential_opened eq_refl
                         eq_refl eq_refl) Hle)).
Defined.

Lemma X10_below_the_request_volume_every_call_is_admitted_witness :
  CircuitInstancesDictionary empty_registry !! "k" = None
  /\ Forall (fun j => Command.key (i_command j) = "k") Examples.three_calls
  /\ IndividualConfig.forceOpen IndividualConfig.unset "k" = false
  /\ 3 < 80
  /\ Forall (fun x => count (isActionCalled "k") (snd x) = 1%nat)
            (snd (executeAll Examples.three_calls empty_registry)).
Proof.
  assert (Hk : Forall (fun j => Command.key (i_command j) = "k")
                      Examples.three_calls) by (repeat constructor).
  assert (Hlt : 3 < 80) by lia.
  split; [reflexivity|]. split; [exact Hk|]. split; [reflexivity|].
  split; [exact Hlt|].
  exact (proj1 (X10_below_the_request_volume_every_call_is_admitted
                  (mkInvocation IndividualConfig.unset Examples.command [] 1
                                (Resolved VUndefined) 2)
                  (tl Examples.three_calls) empty_registry "k"
                  eq_refl Hk eq_refl Hlt)).
Defined.

Lemma sequential_failed_once : sequential Examples.failed_once.
Proof.
  exact (sequential_execute
           (mkInvocation IndividualConfig.unset Examples.command [] 1
                         (Rejected (UserError "FAIL")) 2)
           empty_registry sequential_empty).
Qed.

Lemma X11_overlapping_failures_count_one_call_two_errors_witness :
  sequential Examples.failed_once
  /\ CircuitInstancesDictionary Examples.failed_once
       !! Command.key Examples.command = Some Examples.failed_once_circuit
  /\ Circuit.state Examples.failed_once_circuit = CLOSED
  /\ Circuit.forceOpen Examples.failed_once_circuit = false
  /\ Circuit.ongoingSleepWindow Examples.failed_once_circuit = None
  /\ filtered Examples.command [] (UserError "FAIL") = false
  /\ pending
       (fst (run [ Call IndividualConfig.unset Examples.command [] 3;
                   Call IndividualConfig.unset Examples.command [] 4;
                   Settle 0 (Rejected (UserError "FAIL")) 5;
                   Settle 0 (Rejected (UserError "FAIL")) 6 ]
                 (mkSystem Examples.failed_once []))) = [].
Proof.
  split; [exact sequential_failed_once|]. do 5 (split; [reflexivity|]).
  exact (proj1 (X11_overlapping_failures_count_one_call_two_errors
                  IndividualConfig.unset IndividualConfig.unset
                  Examples.command Examples.command [] [] 3 4 5 6
                  (UserError "FAIL") (UserError "FAIL") Examples.failed_once
                  Examples.failed_once_circuit sequential_failed_once
                  eq_refl eq_refl eq_refl eq_refl eq_refl eq_refl eq_refl)).
Defined.

Lemma X12_key_is_fixed_and_timeout_override_wins_witness :
  "k" <> ""
  /\ Factory Sample.timed "k" = Throws TypeError
  /\ exists c0,
       Command.new Sample.timed (Some (mkDefaults 1000 20 (JS.of_Z 50) 5000)) "k"
       = Returns c0
       /\ Command.key (chain Sample.timed [Setter.timeout 30; Setter.enableLog] c0)
          = "k"
       /\ Command.timeout
            (chain Sample.timed [Setter.timeout 30; Setter.enableLog] c0)
          = 250.
Proof.
  assert (Hk : "k" <> "") by discriminate.
  assert (Hv : 250 <> 0) by discriminate.
  split; [exact Hk|].
  destruct (X12_key_is_fixed_and_timeout_override_wins Sample.timed "k"
              [Setter.timeout 30; Setter.enableLog] Hk)
    as (_ & _ & _ & Hf & Hb).
  split; [exact Hf|].
  destruct (Hb (mkDefaults 1000 20 (JS.of_Z 50) 5000)) as (c0 & Hc0 & Hkey & Ht).
  exists c0. split; [exact Hc0|]. split; [exact Hkey|].
  exact (Ht 250 eq_refl Hv).
Defined.

(** ** The scenarios of the other tests *)

Lemma plain_invoke cfg key rvt thr sw x r :
  Circuit.commandkey
    (admitted_circuit cfg (Sample.command key rvt thr sw) (fst (fst x)) r)
  = key ->
  let c := admitted_circuit cfg (Sample.command key rvt thr sw) (fst (fst x)) r in
  let c' := Plain.after c (snd (fst x)) (snd x) in
  invoke (Plain.call cfg key rvt thr sw x) r
  = (mkRegistry (<[key := Circuit.snapshot c']> (CircuitDataDictionary r))
                (<[key := c']> (CircuitInstancesDictionary r)),
     fst (Plain.report key c (snd (fst x)) c'),
     snd (Plain.report key c (snd (fst x)) c')).
Proof.
  intros Hk c c'. subst c'. unfold invoke, Plain.call, Plain.after, Plain.report.
  cbn [i_cfg i_command i_params i_now i_settled i_now'].
  destruct (Circuit.allowExecution c) eqn:Ha; subst c.
  - destruct (snd (fst x)) as [v|e].
    + rewrite (execute_admitted _ _ _ _ _ _ _ Ha). cbn [settle].
      unfold onFulfilled, Circuit.finishWorkflow. cbn [fst snd].
      destruct (Circuit.isHalfOpen _); cbn [Circuit.commandkey Circuit.markSuccess];
        now rewrite Hk.
    + now rewrite (execute_plain_failure cfg (Sample.command key rvt thr sw) []
                     _ e _ r Sample.fallback eq_refl eq_refl eq_refl eq_refl
                     Hk Ha).
  - now rewrite (execute_plain_rejection cfg (Sample.command key rvt thr sw) []
                   _ _ _ r Sample.fallback eq_refl Hk Ha).
Qed.

Lemma holds_after r key c' :
  Circuit.commandkey c' = key ->
  holds (mkRegistry (<[key := Circuit.snapshot c']> (CircuitDataDictionary r))
                    (<[key := c']> (CircuitInstancesDictionary r))) c'.
Proof. intros <-. apply holds_insert. Qed.

Lemma admitted_circuit_holds_over cfg command now r c :
  Circuit.commandkey c = Command.key command ->
  holds r c ->
  Circuit.isSleepWindowOver c now = true ->
  admitted_circuit cfg command now r
  = Circuit.mk (Circuit.commandkey c) HALF_OPEN (Circuit.totalCalls c + 1)
      (Circuit.errorCalls c) (Circuit.requestVolumeThreshold c)
      (Circuit.errorThreshold c) (Circuit.sleepWindowInMilliseconds c)
      None (Circuit.forceOpen c).
Proof.
  intros Hk [Hi Hd] Ho. unfold admitted_circuit. rewrite Hk in Hi.
  rewrite (getInstance_existing _ _ _ _ _ _ _ _ Hi). cbn [fst]. rewrite Hd.
  unfold Circuit.reloadStats. simpl.
  destruct c as [ck st tot err rv th sl osw fo].
  unfold Circuit.isSleepWindowOver in *. simpl in *. now rewrite Ho.
Qed.

Section Plain_calls.

Variables (cfg : IndividualConfig.t) (key : string) (rvt thr sw : Z).

Hypothesis no_volume_override :
  IndividualConfig.requestVolumeThreshold cfg key = None.
Hypothesis no_percentage_override :
  IndividualConfig.errorPercentageThreshold cfg key = None.
Hypothesis no_window_override :
  IndividualConfig.sleepWindowInMilliseconds cfg key = None.
Hypothesis not_forced : IndividualConfig.forceOpen cfg key = false.

(** The circuit the gate looks at: on a fresh key, on a circuit whose sleep
    window is not over, on a circuit whose sleep window is over. *)
Lemma plain_admitted_fresh r now :
  CircuitInstancesDictionary r !! key = None ->
  admitted_circuit cfg (Sample.command key rvt thr sw) now r
  = Plain.circuit key rvt thr sw CLOSED 1 0 None.
Proof.
  intros Hfresh. unfold admitted_circuit. simpl.
  rewrite (getInstance_fresh _ _ _ _ _ _ _ Hfresh). simpl.
  unfold Circuit.new.
  now rewrite no_volume_override, no_percentage_override, no_window_override,
    not_forced.
Qed.

Lemma plain_admitted r now st total errors expiry :
  holds r (Plain.circuit key rvt thr sw st total errors expiry) ->
  Circuit.isSleepWindowOver
    (Plain.circuit key rvt thr sw st total errors expiry) now = false ->
  admitted_circuit cfg (Sample.command key rvt thr sw) now r
  = Plain.circuit key rvt thr sw st (total + 1) errors expiry.
Proof.
  intros Hh Ho.
  now rewrite (admitted_circuit_holds cfg (Sample.command key rvt thr sw) now r
                 (Plain.circuit key rvt thr sw st total errors expiry)
                 eq_refl Hh Ho).
Qed.

Lemma plain_admitted_over r now st total errors expiry :
  holds r (Plain.circuit key rvt thr sw st total errors expiry) ->
  Circuit.isSleepWindowOver
    (Plain.circuit key rvt thr sw st total errors expiry) now = true ->
  admitted_circuit cfg (Sample.command key rvt thr sw) now r
  = Plain.circuit key rvt thr sw HALF_OPEN (total + 1) errors None.
Proof.
  intros Hh Ho.
  now rewrite (admitted_circuit_holds_over cfg (Sample.command key rvt thr sw)
                 now r (Plain.circuit key rvt thr sw st total errors expiry)
                 eq_refl Hh Ho).
Qed.

(** A call on a circuit that is CLOSED and stays so: [errors'] is the error
    count it leaves. *)
Lemma plain_call_closed r x total errors errors' :
  holds r (Plain.circuit key rvt thr sw CLOSED total errors None)
  \/ (CircuitInstancesDictionary r !! key = None /\ total = 0 /\ errors = 0) ->
  Plain.after (Plain.circuit key rvt thr sw CLOSED (total + 1) errors None)
              (snd (fst x)) (snd x)
  = Plain.circuit key rvt thr sw CLOSED (total + 1) errors' None ->
  exists r',
    invoke (Plain.call cfg key rvt thr sw x) r
    = (r',
       fst (Plain.report key
              (Plain.circuit key rvt thr sw CLOSED (total + 1) errors None)
              (snd (fst x))
              (Plain.circuit key rvt thr sw CLOSED (total + 1) errors' None)),
       snd (Plain.report key
              (Plain.circuit key rvt thr sw CLOSED (total + 1) errors None)
              (snd (fst x))
              (Plain.circuit key rvt thr sw CLOSED (total + 1) errors' None)))
    /\ holds r' (Plain.circuit key rvt thr sw CLOSED (total + 1) errors' None).
Proof.
  intros Hr Hafter.
  assert (Hadm : admitted_circuit cfg (Sample.command key rvt thr sw)
                   (fst (fst x)) r
                 = Plain.circuit key rvt thr sw CLOSED (total + 1) errors None).
  { destruct Hr as [Hh | (Hfresh & -> & ->)].
    - now apply plain_admitted.
    - now apply plain_admitted_fresh. }
  pose proof (plain_invoke cfg key rvt thr sw x r) as Hi.
  rewrite Hadm in Hi. specialize (Hi eq_refl). cbv zeta in Hi.
  rewrite Hafter in Hi. rewrite Hi.
  eexists. split; [reflexivity|]. now apply holds_after.
Qed.

Lemma registerError_plain st total errors expiry now :
  Circuit.registerError (Plain.circuit key rvt thr sw st total errors expiry) now
  = if Circuit.tripped
         (Plain.circuit "" rvt thr 0 CLOSED total (errors + 1) None)
    then Plain.circuit key rvt thr sw OPEN total (errors + 1) (Some (now + sw))
    else Plain.circuit key rvt thr sw st total (errors + 1) expiry.
Proof. reflexivity. Qed.

Lemma after_closed_failure total errors e now :
  Plain.after (Plain.circuit key rvt thr sw CLOSED total errors None)
              (Rejected e) now
  = Circuit.registerError
      (Plain.circuit key rvt thr sw CLOSED total errors None) now.
Proof. reflexivity. Qed.

(** While no failure trips it, a CLOSED circuit admits every call. *)
Lemma plain_closed_phase l : forall r total errors,
  Plain.closed r key rvt thr sw total errors ->
  Plain.safe rvt thr total errors l ->
  Plain.closed (fst (executeAll (map (Plain.call cfg key rvt thr sw) l) r))
    key rvt thr sw (total + Z.of_nat (length l)) (Plain.errors_after errors l)
  /\ map fst (snd (executeAll (map (Plain.call cfg key rvt thr sw) l) r))
     = map Plain.expected l
  /\ map (Scenario.actions key)
         (snd (executeAll (map (Plain.call cfg key rvt thr sw) l) r))
     = repeat 1%nat (length l)
  /\ map (Scenario.fallbacks key)
         (snd (executeAll (map (Plain.call cfg key rvt thr sw) l) r))
     = map (fun x => if Plain.failing x then 1%nat else 0%nat) l.
Proof.
  induction l as [|x l IH]; intros r total errors Hc Hsafe.
  - simpl. rewrite Z.add_0_r. auto.
  - cbn [map executeAll length Plain.safe Plain.errors_after] in *.
    set (errors' := if Plain.failing x then errors + 1 else errors).
    assert (Hafter :
      Plain.after (Plain.circuit key rvt thr sw CLOSED (total + 1) errors None)
                  (snd (fst x)) (snd x)
      = Plain.circuit key rvt thr sw CLOSED (total + 1) errors' None
      /\ Plain.safe rvt thr (total + 1) errors' l).
    { subst errors'. unfold Plain.failing in *. unfold Plain.after.
      destruct (snd (fst x)) as [v|e]; [now split|].
      destruct Hsafe as [Ht Hs]. split; [|exact Hs].
      fold (Plain.after
              (Plain.circuit key rvt thr sw CLOSED (total + 1) errors None)
              (Rejected e) (snd x)).
      now rewrite after_closed_failure, registerError_plain, Ht. }
    destruct Hafter as [Hafter Hsafe'].
    destruct (plain_call_closed r x total errors errors' Hc Hafter)
      as (r1 & -> & Hh1).
    destruct (IH r1 (total + 1) errors' (or_introl Hh1) Hsafe')
      as (H1 & H2 & H3 & H4).
    destruct (executeAll _ r1) as [r2 calls]. cbn [fst snd map] in *.
    replace (total + Z.of_nat (S (length l)))
      with (total + 1 + Z.of_nat (length l)) by lia.
    split; [exact H1|]. rewrite H2, H3, H4.
    unfold Plain.report, Plain.expected, Plain.failing,
      Scenario.actions, Scenario.fallbacks, count.
    cbn [Circuit.allowExecution Circuit.forceOpen Circuit.state Plain.circuit
         negb andb orb CircuitStates.eqb].
    destruct (snd (fst x)) as [v|e]; simpl; rewrite ?String.eqb_refl;
      repeat split; reflexivity.
Qed.

(** The failure that trips the circuit. *)
Lemma plain_call_tripping r x total errors :
  holds r (Plain.circuit key rvt thr sw CLOSED total errors None) ->
  Circuit.tripped
    (Plain.circuit key rvt thr sw CLOSED (total + 1) (errors + 1) None) = true ->
  Plain.failing x = true ->
  let c' := Plain.circuit key rvt thr sw OPEN (total + 1) (errors + 1)
              (Some (snd x + sw)) in
  exists r' e,
    invoke (Plain.call cfg key rvt thr sw x) r
    = (r', fst (Scenario.failed key c' e), snd (Scenario.failed key c' e))
    /\ holds r' c'.
Proof.
  intros Hh Ht Hf c'.
  assert (Hadm : admitted_circuit cfg (Sample.command key rvt thr sw)
                   (fst (fst x)) r
                 = Plain.circuit key rvt thr sw CLOSED (total + 1) errors None)
    by now apply plain_admitted.
  pose proof (plain_invoke cfg key rvt thr sw x r) as Hi.
  rewrite Hadm in Hi. specialize (Hi eq_refl). cbv zeta in Hi.
  unfold Plain.failing in Hf. destruct (snd (fst x)) as [v|e]; [discriminate|].
  assert (Hafter :
    Plain.after (Plain.circuit key rvt thr sw CLOSED (total + 1) errors None)
                (Rejected e) (snd x) = c').
  { rewrite after_closed_failure, registerError_plain.
    change (Circuit.tripped
              (Plain.circuit "" rvt thr 0 CLOSED (total + 1) (errors + 1) None))
      with (Circuit.tripped
              (Plain.circuit key rvt thr sw CLOSED (total + 1) (errors + 1)
                 None)).
    now rewrite Ht. }
  rewrite Hafter in Hi. rewrite Hi. eexists. exists e.
  split; [reflexivity | now apply holds_after].
Qed.

(** Once open, and until the expiry, every call is rejected at the gate. *)
Lemma plain_open_phase l : forall r total errors expiry,
  holds r (Plain.circuit key rvt thr sw OPEN total errors (Some expiry)) ->
  Forall (fun x => fst (fst x) <= expiry) l ->
  holds (fst (executeAll (map (Plain.call cfg key rvt thr sw) l) r))
        (Plain.circuit key rvt thr sw OPEN (total + Z.of_nat (length l)) errors
           (Some expiry))
  /\ Forall (fun y => fst y = Resolved (VString "FALLBACK")
                      /\ Scenario.actions key y = 0%nat
                      /\ Scenario.fallbacks key y = 1%nat)
            (snd (executeAll (map (Plain.call cfg key rvt thr sw) l) r)).
Proof.
  induction l as [|x l IH]; intros r total errors expiry Hh Hl.
  - simpl. rewrite Z.add_0_r. auto.
  - cbn [map executeAll length]. inversion Hl as [|? ? Hx Hl']; subst.
    assert (Hadm : admitted_circuit cfg (Sample.command key rvt thr sw)
                     (fst (fst x)) r
                   = Plain.circuit key rvt thr sw OPEN (total + 1) errors
                       (Some expiry)).
    { apply plain_admitted; [exact Hh|].
      unfold Circuit.isSleepWindowOver. simpl.
      replace (expiry <? fst (fst x)) with false
        by (symmetry; apply Z.ltb_ge; lia).
      apply andb_false_r. }
    pose proof (plain_invoke cfg key rvt thr sw x r) as Hi.
    rewrite Hadm in Hi. specialize (Hi eq_refl). cbv zeta in Hi.
    unfold Plain.after, Plain.report in Hi.
    cbn [Circuit.allowExecution Circuit.forceOpen Circuit.state Plain.circuit
         negb andb orb CircuitStates.eqb] in Hi.
    rewrite Hi.
    destruct (IH _ (total + 1) errors expiry
                (holds_after r key
                   (Plain.circuit key rvt thr sw OPEN (total + 1) errors
                      (Some expiry)) eq_refl) Hl') as (H1 & H2).
    destruct (executeAll _ _) as [r2 calls]. cbn [fst snd] in *.
    replace (total + Z.of_nat (S (length l)))
      with (total + 1 + Z.of_nat (length l)) by lia.
    split; [exact H1|]. constructor; [|exact H2].
    unfold Scenario.actions, Scenario.fallbacks, count. simpl.
    now rewrite String.eqb_refl.
Qed.

(** The probe: the first call after the expiry, when its action resolves. *)
Lemma plain_call_probe r x total errors expiry result :
  holds r (Plain.circuit key rvt thr sw OPEN total errors (Some expiry)) ->
  expiry <> 0 ->
  expiry < fst (fst x) ->
  snd (fst x) = Resolved result ->
  let c' := Plain.circuit key rvt thr sw CLOSED 0 0 None in
  exists r',
    invoke (Plain.call cfg key rvt thr sw x) r
    = (r', Resolved result,
       [ ActionCalled key []; DataDictionarySet key (Circuit.snapshot c') ])
    /\ holds r' c'.
Proof.
  intros Hh Hnz Hlt Hres c'.
  assert (Hadm : admitted_circuit cfg (Sample.command key rvt thr sw)
                   (fst (fst x)) r
                 = Plain.circuit key rvt thr sw HALF_OPEN (total + 1) errors
                     None).
  { apply (plain_admitted_over r _ OPEN total errors (Some expiry) Hh).
    apply isSleepWindowOver_spec. exists expiry. auto. }
  pose proof (plain_invoke cfg key rvt thr sw x r) as Hi.
  rewrite Hadm in Hi. specialize (Hi eq_refl). cbv zeta in Hi.
  rewrite Hres in Hi. rewrite Hi. eexists.
  split; [reflexivity | now apply holds_after].
Qed.

End Plain_calls.

Lemma safe_app rvt thr l1 : forall total errors l2,
  Plain.safe rvt thr total errors l1 ->
  Plain.safe rvt thr (total + Z.of_nat (length l1))
    (Plain.errors_after errors l1) l2 ->
  Plain.safe rvt thr total errors (l1 ++ l2).
Proof.
  induction l1 as [|x l1 IH]; intros total errors l2 H1 H2.
  - simpl in *. now rewrite Z.add_0_r in H2.
  - cbn [app Plain.safe Plain.errors_after length] in *.
    replace (total + Z.of_nat (S (length l1)))
      with (total + 1 + Z.of_nat (length l1)) in H2 by lia.
    destruct (Plain.failing x).
    + destruct H1 as [Ht H1]. split; [exact Ht | now apply IH].
    + now apply IH.
Qed.

Lemma errors_after_app l1 : forall errors l2,
  Plain.errors_after errors (l1 ++ l2)
  = Plain.errors_after (Plain.errors_after errors l1) l2.
Proof.
  induction l1 as [|x l1 IH]; intros errors l2; simpl; [reflexivity|].
  apply IH.
Qed.

Lemma resolving_calls rvt thr (l : list (Z * Value * Z)) : forall total errors,
  Plain.safe rvt thr total errors (map Plain.resolving l)
  /\ Plain.errors_after errors (map Plain.resolving l) = errors
  /\ map Plain.expected (map Plain.resolving l)
     = map (fun x => Resolved (snd (fst x))) l
  /\ map (fun x => if Plain.failing x then 1%nat else 0%nat)
         (map Plain.resolving l)
     = repeat 0%nat (length l).
Proof.
  induction l as [|x l IH]; intros total errors; [now repeat split|].
  destruct (IH (total + 1) errors) as (H1 & H2 & H3 & H4).
  cbn [map Plain.safe Plain.errors_after length repeat].
  unfold Plain.failing at 1 2 3. cbn [Plain.resolving fst snd].
  rewrite H3, H4. repeat split; assumption.
Qed.

Lemma rejecting_calls (l : list (Z * Error * Z)) : forall errors,
  Plain.errors_after errors (map Plain.rejecting l)
  = errors + Z.of_nat (length l)
  /\ map Plain.expected (map Plain.rejecting l)
     = repeat (Resolved (VString "FALLBACK")) (length l)
  /\ map (fun x => if Plain.failing x then 1%nat else 0%nat)
         (map Plain.rejecting l)
     = repeat 1%nat (length l).
Proof.
  induction l as [|x l IH]; intros errors.
  - simpl. rewrite Z.add_0_r. now repeat split.
  - destruct (IH (errors + 1)) as (H1 & H2 & H3).
    cbn [map Plain.errors_after length repeat].
    unfold Plain.failing at 1 2, Plain.expected at 1.
    cbn [Plain.rejecting fst snd].
    rewrite H1, H2, H3. repeat split. lia.
Qed.

(** Nine failures after ninety successes stay under 10 percent. *)
Lemma safe_under_ten_percent (l : list (Z * Error * Z)) :
  length l = 9%nat -> Plain.safe 0 10 90 0 (map Plain.rejecting l).
Proof.
  intros H.
  do 9 (destruct l as [|? l]; [discriminate H|]).
  destruct l; [|discriminate H].
  cbn [map Plain.safe Plain.rejecting Plain.failing fst snd].
  repeat split; vm_compute; reflexivity.
Qed.

(** Nine failures after ten successes stay under a volume of 20 calls. *)
Lemma safe_under_twenty_calls (l : list (Z * Error * Z)) :
  length l = 9%nat -> Plain.safe 20 50 10 0 (map Plain.rejecting l).
Proof.
  intros H.
  do 9 (destruct l as [|? l]; [discriminate H|]).
  destruct l; [|discriminate H].
  cbn [map Plain.safe Plain.rejecting Plain.failing fst snd].
  repeat split; vm_compute; reflexivity.
Qed.

Lemma closed_is_held r key rvt thr sw total errors :
  Plain.closed r key rvt thr sw total errors ->
  total <> 0 ->
  holds r (Plain.circuit key rvt thr sw CLOSED total errors None).
Proof. intros [H | (_ & H & _)] Hne; [exact H | contradiction]. Qed.

(** X14. The test "should resume with fallback when circuit is open", for
    every clock. Request volume threshold 0, error threshold 10 percent, a
    fresh key without override; the action resolves on the first 90 calls
    and rejects from then on. The failures of the calls 91 to 99 leave the
    error rate under 10 percent; the failure of the 100th brings it to 10 of
    100 and opens the circuit. If none of the calls 101 to 110 starts after
    the expiry, none of them calls the action: 100 action calls, 20 fallback
    calls, and the first 90 callers get the result of the action. *)
Theorem X14_ten_percent_of_a_hundred_calls
    cfg key sw r successes failures x100 rest :
  IndividualConfig.requestVolumeThreshold cfg key = None ->
  IndividualConfig.errorPercentageThreshold cfg key = None ->
  IndividualConfig.sleepWindowInMilliseconds cfg key = None ->
  IndividualConfig.forceOpen cfg key = false ->
  CircuitInstancesDictionary r !! key = None ->
  length successes = 90%nat ->
  length failures = 9%nat ->
  length rest = 10%nat ->
  Forall (fun x => fst (fst x) <= snd x100 + sw) rest ->
  let res :=
    executeAll
      (map (Plain.call cfg key 0 10 sw)
           ((map Plain.resolving successes ++ map Plain.rejecting failures)
            ++ Plain.rejecting x100 :: rest)) r in
  map fst (snd res)
  = map (fun x => Resolved (snd (fst x))) successes
    ++ repeat (Resolved (VString "FALLBACK")) 20
  /\ map (Scenario.actions key) (snd res) = repeat 1%nat 100 ++ repeat 0%nat 10
  /\ map (Scenario.fallbacks key) (snd res)
     = repeat 0%nat 90 ++ repeat 1%nat 20
  /\ count (isActionCalled key) (events (snd res)) = 100%nat
  /\ count (isFallbackCalled key) (events (snd res)) = 20%nat
  /\ holds (fst res)
          (Plain.circuit key 0 10 sw OPEN 110 10 (Some (snd x100 + sw))).
Proof.
  intros Hv Hp Hw Hf Hfresh Hn1 Hn2 Hn3 Hclock res.
  set (l1 := map Plain.resolving successes ++ map Plain.rejecting failures).
  destruct (resolving_calls 0 10 successes 0 0) as (Hs1 & He1 & Hx1 & Hb1).
  destruct (rejecting_calls failures 0) as (He2 & Hx2 & Hb2).
  assert (Hlen1 : length l1 = 99%nat).
  { subst l1. now rewrite length_app, !length_map, Hn1, Hn2. }
  assert (Hsafe : Plain.safe 0 10 0 0 l1).
  { subst l1. apply safe_app; [exact Hs1|].
    rewrite length_map, Hn1, He1. now apply safe_under_ten_percent. }
  assert (Herr : Plain.errors_after 0 l1 = 9).
  { subst l1. now rewrite errors_after_app, He1, He2, Hn2. }
  (* calls 1 to 99 *)
  destruct (plain_closed_phase cfg key 0 10 sw Hv Hp Hw Hf l1 r 0 0
              (or_intror (conj Hfresh (conj eq_refl eq_refl))) Hsafe)
    as (Hc99 & Ho99 & Ha99 & Hb99).
  rewrite Hlen1, Herr in Hc99. rewrite Hlen1 in Ha99.
  apply closed_is_held in Hc99; [|discriminate].
  change (0 + Z.of_nat 99) with (98 + 1) in Hc99.
  (* call 100 *)
  set (r99 := fst (executeAll (map (Plain.call cfg key 0 10 sw) l1) r)) in *.
  set (calls99 := snd (executeAll (map (Plain.call cfg key 0 10 sw) l1) r)) in *.
  assert (Htrip : Circuit.tripped
                    (Plain.circuit key 0 10 sw CLOSED (98 + 1 + 1) (9 + 1) None)
                  = true) by (vm_compute; reflexivity).
  destruct (plain_call_tripping cfg key 0 10 sw r99
              (Plain.rejecting x100) (98 + 1) 9 Hc99 Htrip eq_refl)
    as (r100 & e100 & E100 & Hh100).
  change (98 + 1 + 1) with 100 in *. change (9 + 1) with 10 in *.
  cbn [Plain.rejecting snd] in E100, Hh100.
  (* calls 101 to 110 *)
  destruct (plain_open_phase cfg key 0 10 sw rest r100 100 10
              (snd x100 + sw) Hh100 Hclock) as (Hh110 & Hc110).
  rewrite Hn3 in Hh110. change (100 + Z.of_nat 10) with 110 in Hh110.
  assert (Hlen3 : length (snd (executeAll (map (Plain.call cfg key 0 10 sw) rest)
                                 r100)) = 10%nat).
  { transitivity (length (map (Plain.call cfg key 0 10 sw) rest));
      [|now rewrite length_map].
    clear. generalize (map (Plain.call cfg key 0 10 sw) rest) r100.
    induction l as [|i l IH]; intros r0; simpl; [reflexivity|].
    destruct (invoke i r0) as [[r1 o] ev]. specialize (IH r1).
    destruct (executeAll l r1). simpl in *. now rewrite IH. }
  set (r110 := fst (executeAll (map (Plain.call cfg key 0 10 sw) rest) r100))
    in *.
  set (calls110 := snd (executeAll (map (Plain.call cfg key 0 10 sw) rest) r100))
    in *.
  assert (Eres : res = (r110,
                        calls99
                        ++ Scenario.failed key
                             (Plain.circuit key 0 10 sw OPEN 100 10
                                (Some (snd x100 + sw))) e100 :: calls110)).
  { subst res. fold l1. rewrite map_app, executeAll_app. fold r99 calls99.
    cbn [map executeAll]. rewrite E100. subst r110 calls110.
    now destruct (executeAll (map (Plain.call cfg key 0 10 sw) rest) r100). }
  assert (Hout : map fst (snd res)
                 = map (fun x => Resolved (snd (fst x))) successes
                   ++ repeat (Resolved (VString "FALLBACK")) 20).
  { rewrite Eres. cbn [snd]. rewrite map_app. cbn [map]. rewrite Ho99.
    subst l1. rewrite map_app, Hx1, Hx2, Hn2.
    rewrite (map_constant fst (Resolved (VString "FALLBACK")) calls110)
      by (eapply Forall_impl; [exact Hc110 | intros y (Ha & _); exact Ha]).
    rewrite Hlen3, <- app_assoc. reflexivity. }
  assert (Hact : map (Scenario.actions key) (snd res)
                 = repeat 1%nat 100 ++ repeat 0%nat 10).
  { rewrite Eres. cbn [snd]. rewrite map_app. cbn [map]. rewrite Ha99.
    rewrite (map_constant (Scenario.actions key) 0%nat calls110)
      by (eapply Forall_impl; [exact Hc110 | intros y (_ & Ha & _); exact Ha]).
    rewrite Hlen3, (proj1 (proj2 (failed_counts key _ _))). reflexivity. }
  assert (Hfb : map (Scenario.fallbacks key) (snd res)
                = repeat 0%nat 90 ++ repeat 1%nat 20).
  { rewrite Eres. cbn [snd]. rewrite map_app. cbn [map]. rewrite Hb99.
    subst l1. rewrite map_app, Hb1, Hb2, Hn1, Hn2.
    rewrite (map_constant (Scenario.fallbacks key) 1%nat calls110)
      by (eapply Forall_impl; [exact Hc110 | intros y (_ & _ & Ha); exact Ha]).
    rewrite Hlen3, (proj2 (proj2 (failed_counts key _ _))), <- app_assoc.
    reflexivity. }
  split; [exact Hout|]. split; [exact Hact|]. split; [exact Hfb|].
  split.
  { rewrite count_events.
    change (list_sum (map (Scenario.actions key) (snd res)) = 100%nat).
    rewrite Hact. reflexivity. }
  split.
  { rewrite count_events.
    change (list_sum (map (Scenario.fallbacks key) (snd res)) = 20%nat).
    rewrite Hfb. reflexivity. }
  rewrite Eres. exact Hh110.
Qed.

(** X15. The test "should set circuit from open to half open state when
    sliding window expires", for every clock. Request volume threshold 20,
    error threshold 50 percent, a fresh key without override; the action
    resolves on the first 10 calls and rejects on the next 10. The failures
    of the calls 11 to 19 stay under the request volume; the failure of the
    20th makes 10 errors of 20 calls and opens the circuit. A 21st call that
    starts after the expiry, whose action resolves, is admitted as the
    HALF_OPEN probe: it returns the result of the action, calls no fallback
    and leaves the circuit CLOSED with both counters at zero. In all 21
    action calls and 10 fallback calls. *)
Theorem X15_probe_after_the_sleep_window
    cfg key sw r successes failures x20 x21 result :
  IndividualConfig.requestVolumeThreshold cfg key = None ->
  IndividualConfig.errorPercentageThreshold cfg key = None ->
  IndividualConfig.sleepWindowInMilliseconds cfg key = None ->
  IndividualConfig.forceOpen cfg key = false ->
  CircuitInstancesDictionary r !! key = None ->
  length successes = 10%nat ->
  length failures = 9%nat ->
  snd x20 + sw <> 0 ->
  snd x20 + sw < fst (fst x21) ->
  snd (fst x21) = Resolved result ->
  let res :=
    executeAll
      (map (Plain.call cfg key 20 50 sw)
           ((map Plain.resolving successes ++ map Plain.rejecting failures)
            ++ [Plain.rejecting x20; x21])) r in
  map fst (snd res)
  = map (fun x => Resolved (snd (fst x))) successes
    ++ repeat (Resolved (VString "FALLBACK")) 10 ++ [Resolved result]
  /\ map (Scenario.actions key) (snd res) = repeat 1%nat 21
  /\ map (Scenario.fallbacks key) (snd res)
     = repeat 0%nat 10 ++ repeat 1%nat 10 ++ [0%nat]
  /\ count (isActionCalled key) (events (snd res)) = 21%nat
  /\ count (isFallbackCalled key) (events (snd res)) = 10%nat
  /\ holds (fst res) (Plain.circuit key 20 50 sw CLOSED 0 0 None).
Proof.
  intros Hv Hp Hw Hf Hfresh Hn1 Hn2 Hnz Hlt Hres res.
  set (l1 := map Plain.resolving successes ++ map Plain.rejecting failures).
  destruct (resolving_calls 20 50 successes 0 0) as (Hs1 & He1 & Hx1 & Hb1).
  destruct (rejecting_calls failures 0) as (He2 & Hx2 & Hb2).
  assert (Hlen1 : length l1 = 19%nat).
  { subst l1. now rewrite length_app, !length_map, Hn1, Hn2. }
  assert (Hsafe : Plain.safe 20 50 0 0 l1).
  { subst l1. apply safe_app; [exact Hs1|].
    rewrite length_map, Hn1, He1. now apply safe_under_twenty_calls. }
  assert (Herr : Plain.errors_after 0 l1 = 9).
  { subst l1. now rewrite errors_after_app, He1, He2, Hn2. }
  (* calls 1 to 19 *)
  destruct (plain_closed_phase cfg key 20 50 sw Hv Hp Hw Hf l1 r 0 0
              (or_intror (conj Hfresh (conj eq_refl eq_refl))) Hsafe)
    as (Hc19 & Ho19 & Ha19 & Hb19).
  rewrite Hlen1, Herr in Hc19. rewrite Hlen1 in Ha19.
  apply closed_is_held in Hc19; [|discriminate].
  change (0 + Z.of_nat 19) with (18 + 1) in Hc19.
  set (r19 := fst (executeAll (map (Plain.call cfg key 20 50 sw) l1) r)) in *.
  set (calls19 := snd (executeAll (map (Plain.call cfg key 20 50 sw) l1) r))
    in *.
  (* call 20 *)
  assert (Htrip : Circuit.tripped
                    (Plain.circuit key 20 50 sw CLOSED (18 + 1 + 1) (9 + 1) None)
                  = true) by (vm_compute; reflexivity).
  destruct (plain_call_tripping cfg key 20 50 sw r19
              (Plain.rejecting x20) (18 + 1) 9 Hc19 Htrip eq_refl)
    as (r20 & e20 & E20 & Hh20).
  change (18 + 1 + 1) with 20 in *. change (9 + 1) with 10 in *.
  cbn [Plain.rejecting snd] in E20, Hh20.
  (* call 21 *)
  destruct (plain_call_probe cfg key 20 50 sw r20 x21 20 10 (snd x20 + sw)
              result Hh20 Hnz Hlt Hres) as (r21 & E21 & Hh21).
  assert (Eres : res = (r21,
                        calls19
                        ++ [ Scenario.failed key
                               (Plain.circuit key 20 50 sw OPEN 20 10
                                  (Some (snd x20 + sw))) e20;
                             (Resolved result,
                              [ ActionCalled key [];
                                DataDictionarySet key
                                  (Circuit.snapshot
                                     (Plain.circuit key 20 50 sw CLOSED 0 0
                                        None)) ]) ])).
  { subst res. fold l1. rewrite map_app, executeAll_app. fold r19 calls19.
    cbn [map executeAll]. now rewrite E20, E21. }
  assert (Hprobe : forall c : Circuit.t,
            Scenario.actions key
              (Resolved result,
               [ ActionCalled key []; DataDictionarySet key (Circuit.snapshot c) ])
            = 1%nat).
  { intros c. unfold Scenario.actions, count. simpl.
    now rewrite String.eqb_refl. }
  assert (Hout : map fst (snd res)
                 = map (fun x => Resolved (snd (fst x))) successes
                   ++ repeat (Resolved (VString "FALLBACK")) 10
                   ++ [Resolved result]).
  { rewrite Eres. cbn [snd]. rewrite map_app. cbn [map fst]. rewrite Ho19.
    subst l1. rewrite map_app, Hx1, Hx2, Hn2, <- app_assoc. reflexivity. }
  assert (Hact : map (Scenario.actions key) (snd res) = repeat 1%nat 21).
  { rewrite Eres. cbn [snd]. rewrite map_app. cbn [map]. rewrite Ha19.
    rewrite (proj1 (proj2 (failed_counts key _ _))), (Hprobe _).
    reflexivity. }
  assert (Hfb : map (Scenario.fallbacks key) (snd res)
                = repeat 0%nat 10 ++ repeat 1%nat 10 ++ [0%nat]).
  { rewrite Eres. cbn [snd]. rewrite map_app. cbn [map]. rewrite Hb19.
    subst l1. rewrite map_app, Hb1, Hb2, Hn1, Hn2.
    rewrite (proj2 (proj2 (failed_counts key _ _))). reflexivity. }
  split; [exact Hout|]. split; [exact Hact|]. split; [exact Hfb|].
  split.
  { rewrite count_events.
    change (list_sum (map (Scenario.actions key) (snd res)) = 21%nat).
    rewrite Hact. reflexivity. }
  split.
  { rewrite count_events.
    change (list_sum (map (Scenario.fallbacks key) (snd res)) = 10%nat).
    rewrite Hfb. reflexivity. }
  rewrite Eres. exact Hh21.
Qed.

Lemma X14_ten_percent_of_a_hundred_calls_witness :
  IndividualConfig.requestVolumeThreshold IndividualConfig.unset "test_3" = None
  /\ IndividualConfig.errorPercentageThreshold IndividualConfig.unset "test_3"
     = None
  /\ IndividualConfig.sleepWindowInMilliseconds IndividualConfig.unset "test_3"
     = None
  /\ IndividualConfig.forceOpen IndividualConfig.unset "test_3" = false
  /\ CircuitInstancesDictionary empty_registry !! "test_3" = None
  /\ length (map Plain.ok (seq 1 90)) = 90%nat
  /\ length (map Plain.fail (seq 91 9)) = 9%nat
  /\ length (map (fun n => Plain.rejecting (Plain.fail n)) (seq 101 10))
     = 10%nat
  /\ Forall (fun x => fst (fst x) <= snd (Plain.fail 100) + 5000)
            (map (fun n => Plain.rejecting (Plain.fail n)) (seq 101 10))
  /\ count (isActionCalled "test_3")
       (events
          (snd (executeAll
                  (map (Plain.call IndividualConfig.unset "test_3" 0 10 5000)
                       ((map Plain.resolving (map Plain.ok (seq 1 90))
                         ++ map Plain.rejecting (map Plain.fail (seq 91 9)))
                        ++ Plain.rejecting (Plain.fail 100)
                           :: map (fun n => Plain.rejecting (Plain.fail n))
                                  (seq 101 10)))
                  empty_registry))) = 100%nat
  /\ count (isFallbackCalled "test_3")
       (events
          (snd (executeAll
                  (map (Plain.call IndividualConfig.unset "test_3" 0 10 5000)
                       ((map Plain.resolving (map Plain.ok (seq 1 90))
                         ++ map Plain.rejecting (map Plain.fail (seq 91 9)))
                        ++ Plain.rejecting (Plain.fail 100)
                           :: map (fun n => Plain.rejecting (Plain.fail n))
                                  (seq 101 10)))
                  empty_registry))) = 20%nat.
Proof.
  assert (Hclock : Forall (fun x => fst (fst x) <= snd (Plain.fail 100) + 5000)
                     (map (fun n => Plain.rejecting (Plain.fail n))
                          (seq 101 10))).
  { repeat (constructor; [vm_compute; discriminate|]). constructor. }
  do 8 (split; [reflexivity|]). split; [exact Hclock|].
  destruct (X14_ten_percent_of_a_hundred_calls IndividualConfig.unset "test_3"
              5000 empty_registry (map Plain.ok (seq 1 90))
              (map Plain.fail (seq 91 9)) (Plain.fail 100)
              (map (fun n => Plain.rejecting (Plain.fail n)) (seq 101 10))
              eq_refl eq_refl eq_refl eq_refl eq_refl eq_refl eq_refl eq_refl
              Hclock)
    as (_ & _ & _ & Ha & Hf & _).
  split; [exact Ha | exact Hf].
Defined.

Lemma X15_probe_after_the_sleep_window_witness :
  IndividualConfig.requestVolumeThreshold IndividualConfig.unset "test_7" = None
  /\ IndividualConfig.errorPercentageThreshold IndividualConfig.unset "test_7"
     = None
  /\ IndividualConfig.sleepWindowInMilliseconds IndividualConfig.unset "test_7"
     = None
  /\ IndividualConfig.forceOpen IndividualConfig.unset "test_7" = false
  /\ CircuitInstancesDictionary empty_registry !! "test_7" = None
  /\ length (map Plain.ok (seq 1 10)) = 10%nat
  /\ length (map Plain.fail (seq 11 9)) = 9%nat
  /\ snd (Plain.fail 20) + 500 <> 0
  /\ snd (Plain.fail 20) + 500 < fst (fst Plain.probe)
  /\ snd (fst Plain.probe) = Resolved (VString "test-success")
  /\ map fst
       (snd (executeAll
               (map (Plain.call IndividualConfig.unset "test_7" 20 50 500)
                    ((map Plain.resolving (map Plain.ok (seq 1 10))
                      ++ map Plain.rejecting (map Plain.fail (seq 11 9)))
                     ++ [Plain.rejecting (Plain.fail 20); Plain.probe]))
               empty_registry))
     = map (fun x => Resolved (snd (fst x))) (map Plain.ok (seq 1 10))
       ++ repeat (Resolved (VString "FALLBACK")) 10
       ++ [Resolved (VString "test-success")]
  /\ count (isActionCalled "test_7")
       (events
          (snd (executeAll
                  (map (Plain.call IndividualConfig.unset "test_7" 20 50 500)
                       ((map Plain.resolving (map Plain.ok (seq 1 10))
                         ++ map Plain.rejecting (map Plain.fail (seq 11 9)))
                        ++ [Plain.rejecting (Plain.fail 20); Plain.probe]))
                  empty_registry))) = 21%nat
  /\ count (isFallbackCalled "test_7")
       (events
          (snd (executeAll
                  (map (Plain.call IndividualConfig.unset "test_7" 20 50 500)
                       ((map Plain.resolving (map Plain.ok (seq 1 10))
                         ++ map Plain.rejecting (map Plain.fail (seq 11 9)))
                        ++ [Plain.rejecting (Plain.fail 20); Plain.probe]))
                  empty_registry))) = 10%nat.
Proof.
  do 7 (split; [reflexivity|]).
  split; [vm_compute; discriminate|].
  split; [vm_compute; reflexivity|].
  split; [reflexivity|].
  destruct (X15_probe_after_the_sleep_window IndividualConfig.unset "test_7"
              500 empty_registry (map Plain.ok (seq 1 10))
              (map Plain.fail (seq 11 9)) (Plain.fail 20) Plain.probe
              (VString "test-success")
              eq_refl eq_refl eq_refl eq_refl eq_refl eq_refl eq_refl
              ltac:(vm_compute; discriminate) ltac:(vm_compute; reflexivity)
              eq_refl)
    as (Ho & _ & _ & Ha & Hf & _).
  split; [exact Ho|]. split; [exact Ha | exact Hf].
Defined.

(** ** A probe that fails *)

Lemma sequential_executeAll l : forall r,
  sequential r -> sequential (fst (executeAll l r)).
Proof.
  induction l as [|i l IH]; intros r Hs; [exact Hs|].
  cbn [executeAll]. pose proof (sequential_execute i r Hs) as H1.
  destruct (invoke i r) as [[r1 out] ev]. cbn [fst] in H1.
  specialize (IH r1 H1). now destruct (executeAll l r1).
Qed.

(** X16. The probe that fails, when calls do not overlap. The first call
    after the expiry of an OPEN circuit reaches the action; when the action
    fails (the error not being filtered) the failure is judged like any
    other, on the counters as they are: the calls rejected while the circuit
    was OPEN have been counted in [totalCalls]. If the thresholds are still
    met the circuit is OPEN again, until the clock of the callback plus the
    sleep window. If not, it stays HALF_OPEN with no expiry, and the next
    call on the key is admitted whenever it comes. *)
Theorem X16_failed_probe cfg command params now err now' r c expiry :
  sequential r ->
  CircuitInstancesDictionary r !! Command.key command = Some c ->
  Circuit.state c = OPEN ->
  Circuit.ongoingSleepWindow c = Some expiry ->
  expiry <> 0 ->
  expiry < now ->
  Circuit.forceOpen c = false ->
  filtered command params err = false ->
  let res := execute cfg command params now (Rejected err) now' r in
  let reopened :=
    (Circuit.requestVolumeThreshold c <=? Circuit.totalCalls c + 1)
    && JS.ge (Circuit.errorPercentage (Circuit.errorCalls c + 1)
                                      (Circuit.totalCalls c + 1))
             (Circuit.errorThreshold c) in
  count (isActionCalled (Command.key command)) (events_of res) = 1%nat
  /\ exists c',
       CircuitInstancesDictionary (registry_of res) !! Command.key command
       = Some c'
       /\ Circuit.totalCalls c' = Circuit.totalCalls c + 1
       /\ Circuit.errorCalls c' = Circuit.errorCalls c + 1
       /\ (reopened = true ->
           Circuit.state c' = OPEN
           /\ Circuit.ongoingSleepWindow c'
              = Some (now' + Circuit.sleepWindowInMilliseconds c))
       /\ (reopened = false ->
           Circuit.state c' = HALF_OPEN
           /\ Circuit.ongoingSleepWindow c' = None
           /\ forall cfg2 command2 now2,
                Command.key command2 = Command.key command ->
                Circuit.allowExecution
                  (admitted_circuit cfg2 command2 now2 (registry_of res))
                = true).
Proof.
  intros Hs Hc Ho He Hnz Hlt Hfo Hfl res reopened.
  destruct (admitted_circuit_sequential cfg command now r c Hs Hc) as [_ Hover].
  assert (Hy : Circuit.isSleepWindowOver c now = true).
  { apply isSleepWindowOver_spec. exists expiry. auto. }
  specialize (Hover Hy).
  assert (Ha : Circuit.allowExecution (admitted_circuit cfg command now r)
               = true).
  { rewrite Hover. unfold Circuit.allowExecution. simpl. now rewrite Hfo. }
  assert (Hseq : sequential (registry_of res)).
  { exact (sequential_execute
             (mkInvocation cfg command params now (Rejected err) now') r Hs). }
  pose proof (execute_admitted_failure cfg command params now err now' r Ha Hfl)
    as Hc'.
  fold (registry_of (execute cfg command params now (Rejected err) now' r))
    in Hc'. fold res in Hc'.
  split.
  - subst res.
    rewrite (execute_admitted cfg command params now (Rejected err) now' r Ha).
    unfold events_of. cbn [fst snd].
    pose proof (settle_actions (Command.key command) command params
                  (Rejected err) now' (admitted_circuit cfg command now r)
                  (CircuitDataDictionary r)) as Hact.
    destruct (settle _ _ _ _ _ _) as [[[c2 d2] out] ev]. cbn [fst snd].
    unfold count in *. simpl. rewrite String.eqb_refl. simpl.
    now rewrite Hact.
  - clearbody res. rewrite Hover in Hc'.
    set (probe := Circuit.mk (Circuit.commandkey c) HALF_OPEN
                    (Circuit.totalCalls c + 1) (Circuit.errorCalls c)
                    (Circuit.requestVolumeThreshold c) (Circuit.errorThreshold c)
                    (Circuit.sleepWindowInMilliseconds c) None
                    (Circuit.forceOpen c)) in *.
    exists (Circuit.registerError probe now'). split; [exact Hc'|].
    destruct (registerError_spec probe now') as (H1 & H2 & _ & H4 & H5).
    cbn [Circuit.errorCalls Circuit.totalCalls Circuit.requestVolumeThreshold
         Circuit.errorThreshold Circuit.sleepWindowInMilliseconds Circuit.state
         Circuit.ongoingSleepWindow Circuit.forceOpen probe] in H1, H2, H4, H5.
    fold reopened in H5.
    split; [exact H2|]. split; [exact H1|]. split.
    + intros Hr. rewrite Hr in H5. exact H5.
    + intros Hr. rewrite Hr in H5. destruct H5 as [Hst Hexp].
      split; [exact Hst|]. split; [exact Hexp|].
      intros cfg2 command2 now2 Hk.
      rewrite <- Hk in Hc'.
      destruct (admitted_circuit_sequential cfg2 command2 now2 (registry_of res)
                  _ Hseq Hc') as [Hstay _].
      rewrite Hstay.
      * unfold Circuit.allowExecution. cbn [Circuit.registerCall Circuit.state
          Circuit.forceOpen]. rewrite Hst, H4, Hfo. reflexivity.
      * unfold Circuit.isSleepWindowOver. now rewrite Hexp.
Qed.

Lemma sequential_diluted : sequential Examples.diluted.
Proof. apply sequential_executeAll, sequential_opened. Qed.

Lemma X16_failed_probe_witness :
  sequential Examples.diluted
  /\ CircuitInstancesDictionary Examples.diluted
       !! Command.key Sample.failing_command = Some Examples.diluted_circuit
  /\ Circuit.state Examples.diluted_circuit = OPEN
  /\ Circuit.ongoingSleepWindow Examples.diluted_circuit = Some 12
  /\ 12 <> 0
  /\ 12 < 13
  /\ Circuit.forceOpen Examples.diluted_circuit = false
  /\ filtered Sample.failing_command [] (UserError "FAIL") = false
  /\ exists c',
       CircuitInstancesDictionary
         (registry_of (execute IndividualConfig.unset Sample.failing_command []
                               13 (Rejected (UserError "FAIL")) 14
                               Examples.diluted))
         !! Command.key Sample.failing_command = Some c'
       /\ Circuit.totalCalls c' = 5
       /\ Circuit.errorCalls c' = 2
       /\ Circuit.state c' = HALF_OPEN.
Proof.
  assert (Hnz : 12 <> 0) by discriminate.
  assert (Hlt : 12 < 13) by reflexivity.
  assert (Hc : CircuitInstancesDictionary Examples.diluted
                 !! Command.key Sample.failing_command
               = Some Examples.diluted_circuit) by (vm_compute; reflexivity).
  split; [exact sequential_diluted|]. split; [exact Hc|].
  do 2 (split; [reflexivity|]). split; [exact Hnz|]. split; [exact Hlt|].
  do 2 (split; [reflexivity|]).
  destruct (X16_failed_probe IndividualConfig.unset Sample.failing_command []
              13 (UserError "FAIL") 14 Examples.diluted Examples.diluted_circuit
              12 sequential_diluted Hc eq_refl eq_refl Hnz Hlt eq_refl eq_refl)
    as (_ & c' & Hc' & Ht & He & _ & Hstay).
  exists c'. split; [exact Hc'|]. split; [exact Ht|]. split; [exact He|].
  exact (proj1 (Hstay ltac:(vm_compute; reflexivity))).
Defined.

(** ** A callback that throws *)

(** X17. The gate admits the call, the action fails, and the
    [errorHandler] throws, or it returns and the [errorFilter] throws. The
    promise of [execute] is rejected with what was thrown; the fallback is
    not called and nothing is logged; nothing is written to the data
    dictionary, while the instance keeps the call that [registerCall]
    counted. The next lookup of the key reloads the counters from the entry
    there is: the call is lost from [totalCalls]. *)
Theorem X17_a_throwing_callback_leaves_the_call_uncommitted
    handler filter cfg command params now err now' r thrown :
  well_keyed r ->
  Circuit.allowExecution (admitted_circuit cfg command now r) = true ->
  let key := Command.key command in
  let mapped := if isTimeoutError err then GatewayTimeout err else err in
  (Throwing.handle handler mapped = Throws thrown
   \/ exists exception,
        Throwing.handle handler mapped = Returns exception
        /\ Throwing.sift filter exception params = Throws thrown) ->
  let res :=
    Throwing.execute handler filter cfg command params now (Rejected err) now'
                     r in
  outcome_of res = Rejected thrown
  /\ count isSetEvent (events_of res) = 0%nat
  /\ count isFallbackEvent (events_of res) = 0%nat
  /\ count isWarnEvent (events_of res) = 0%nat
  /\ CircuitDataDictionary (registry_of res) = CircuitDataDictionary r
  /\ CircuitInstancesDictionary (registry_of res)
     = <[key := admitted_circuit cfg command now r]>
         (CircuitInstancesDictionary r)
  /\ forall st cfg2 rvt thr sw now2,
       CircuitDataDictionary r !! key = Some st ->
       Circuit.totalCalls
         (fst (getInstance cfg2 key rvt thr sw now2 (registry_of res)))
       = Circuit.s_totalCalls st.
Proof.
  intros Hwf Ha key mapped Hthrow res.
  pose proof (admitted_circuit_commandkey cfg command now r Hwf) as Hk.
  assert (Hres :
    res = (mkRegistry (CircuitDataDictionary r)
             (<[key := admitted_circuit cfg command now r]>
                (CircuitInstancesDictionary r)),
           Rejected thrown,
           ActionCalled key params
           :: match handler with
              | Some _ => [ErrorHandlerCalled key mapped]
              | None => []
              end
           ++ match Throwing.handle handler mapped with
              | Returns exception =>
                  match filter with
                  | Some _ => [ErrorFilterCalled key exception params]
                  | None => []
                  end
              | Throws _ => []
              end)).
  { subst res. unfold Throwing.execute, admitted_circuit in *.
    pose proof (getInstance_stores cfg (Command.key command)
                  (Command.requestVolumeThreshold command)
                  (Command.errorThreshold command)
                  (Command.sleepWindowInMillis command) now r) as Hst.
    destruct (getInstance _ _ _ _ _ _ _) as [c0 r1]. simpl in Ha, Hst |- *.
    subst r1. rewrite Ha.
    unfold Throwing.settle, Throwing.onRejected. fold mapped key.
    destruct Hthrow as [-> | (exception & -> & ->)];
      unfold store; cbn [CircuitDataDictionary CircuitInstancesDictionary];
      rewrite !insert_insert_eq; rewrite ?app_nil_r; reflexivity. }
  rewrite Hres. unfold outcome_of, events_of, registry_of. cbn [fst snd].
  split; [reflexivity|].
  assert (Hev : forall p, p (ActionCalled key params) = false ->
                  (forall e, p (ErrorHandlerCalled key e) = false) ->
                  (forall e q, p (ErrorFilterCalled key e q) = false) ->
                  count p
                    (ActionCalled key params
                     :: match handler with
                        | Some _ => [ErrorHandlerCalled key mapped]
                        | None => []
                        end
                     ++ match Throwing.handle handler mapped with
                        | Returns exception =>
                            match filter with
                            | Some _ => [ErrorFilterCalled key exception params]
                            | None => []
                            end
                        | Throws _ => []
                        end) = 0%nat).
  { intros p H1 H2 H3. unfold count. cbn [List.filter]. rewrite H1.
    destruct handler, (Throwing.handle _ mapped), filter; simpl;
      rewrite ?H2, ?H3; reflexivity. }
  split; [now apply Hev|]. split; [now apply Hev|]. split; [now apply Hev|].
  split; [reflexivity|]. split; [reflexivity|].
  intros st cfg2 rvt thr sw now2 Hst. unfold getInstance.
  cbn [CircuitInstancesDictionary CircuitDataDictionary].
  rewrite lookup_insert_eq. cbn [fst]. rewrite Hk. fold key. rewrite Hst.
  unfold Circuit.reloadStats.
  now destruct (Circuit.isSleepWindowOver _ _).
Qed.

Lemma X17_a_throwing_callback_leaves_the_call_uncommitted_witness :
  well_keyed Examples.failed_once
  /\ Circuit.allowExecution
       (admitted_circuit IndividualConfig.unset Examples.command 3
                         Examples.failed_once) = true
  /\ Throwing.handle (Some (fun _ => Throws (UserError "handler failed")))
       (UserError "FAIL")
     = Throws (UserError "handler failed")
  /\ CircuitDataDictionary Examples.failed_once !! "k"
     = Some (Circuit.mk_stats 1 1 None CLOSED)
  /\ CircuitInstancesDictionary
       (registry_of
          (Throwing.execute (Some (fun _ => Throws (UserError "handler failed")))
             None IndividualConfig.unset Examples.command [] 3
             (Rejected (UserError "FAIL")) 4 Examples.failed_once))
       !! "k"
     = Some (Circuit.mk "k" CLOSED 2 1 80 (JS.of_Z 50) 1000 None false)
  /\ Circuit.totalCalls
       (fst (getInstance IndividualConfig.unset "k" 80 (JS.of_Z 50) 1000 5
               (registry_of
                  (Throwing.execute
                     (Some (fun _ => Throws (UserError "handler failed")))
                     None IndividualConfig.unset Examples.command [] 3
                     (Rejected (UserError "FAIL")) 4 Examples.failed_once))))
     = 1.
Proof.
  assert (Hwf : well_keyed Examples.failed_once)
    by exact (in_sync_well_keyed _ (sequential_in_sync _ sequential_failed_once)).
  split; [exact Hwf|]. do 3 (split; [reflexivity|]).
  destruct (X17_a_throwing_callback_leaves_the_call_uncommitted
              (Some (fun _ => Throws (UserError "handler failed"))) None
              IndividualConfig.unset Examples.command [] 3 (UserError "FAIL") 4
              Examples.failed_once (UserError "handler failed") Hwf eq_refl
              (or_introl eq_refl))
    as (_ & _ & _ & _ & _ & Hi & Hnext).
  split.
  - rewrite Hi. reflexivity.
  - exact (Hnext (Circuit.mk_stats 1 1 None CLOSED) IndividualConfig.unset 80
                 (JS.of_Z 50) 1000 5 eq_refl).
Defined.
